(** * Microsoft-Appx-Downloader: the download pipeline of [run.py]

    A shallow embedding of [run.py]: [display_assets_table],
    [download_asset], [main] and the [__main__] block, written in a small
    state-and-exception monad over an explicit model of the things the
    script talks to (file system, console, prompt, HTTP server, the
    [msstore] resolver).

    Conventions.
    - Python [str] is [string]; Python [bytes] is [list Byte.byte].
    - An asset is the Python [dict] the script indexes with
      [asset["name"]], [asset["url"]], ...: a [gmap string string].
    - [os.path] is [posixpath]; [join], [isabs], [basename] and [split]
      follow its source, and [os.makedirs] follows the source of [os].
    - Only subclasses of [Exception] are modelled ([KeyboardInterrupt]
      and task cancellation are outside the model).
    - [console.print] renders console markup. The script interpolates
      texts it does not control (the URL, asset fields, paths, the text
      of exceptions) into marked-up lines without escaping them, and
      [rich] raises [MarkupError] when such a line holds a closing tag
      that matches no open tag. What [rich] answers for a text is a
      function of the environment, [markup_error]; the lines whose
      markup the script fixes itself (string literals, and the line that
      interpolates the integer status) are always accepted. A line that
      is printed is an event; a line that is rejected prints nothing.
      Module [Rich] gives the tag matching of [rich.markup] for the
      concrete worlds of the examples.
    - [int(choice)] is a function of the environment as well, [int_of];
      module [PyStr] gives it on ASCII text for the examples.
    - The file system is a set of directories and a map from paths to
      contents, keyed by the path strings as the script builds them: two
      spellings of one path ([out/x] and [./out/x]) are two keys, and
      the statements say nothing across spellings. What the operating
      system refuses (permissions, a read-only medium, a missing parent
      of a file) is a predicate of the environment; [f.write] and
      [f.close] succeed.
    - The network is a function from the URL to what [session.get] does:
      it raises, or it answers with a status and a body that arrives in
      pieces and ends normally or with an exception. Time is not
      modelled: the expiry of the session's timer is one of these
      exceptions.
    - A run returns its result, the file system it leaves and the events
      it produced, in order. *)

From Stdlib Require Import ZArith List String Ascii Bool Lia.
From stdpp Require Import base gmap strings list pretty.
Import ListNotations.
Local Open Scope Z_scope.
Local Open Scope string_scope.
Local Open Scope list_scope.

(** ** Strings and [posixpath] *)

Module PosixPath.

Definition sep : ascii := "/"%char.

(** [s.startswith("/")] *)
Definition startswith_sep (s : string) : bool :=
  match s with
  | String c _ => Ascii.eqb c sep
  | EmptyString => false
  end.

(** [s.endswith("/")] *)
Fixpoint endswith_sep (s : string) : bool :=
  match s with
  | EmptyString => false
  | String c EmptyString => Ascii.eqb c sep
  | String _ r => endswith_sep r
  end.

(** [posixpath.isabs(s)]: [s.startswith(sep)]. *)
Definition isabs (s : string) : bool := startswith_sep s.

(** One round of the loop of [posixpath.join(a, *p)]:
    [if b.startswith(sep) or not path: path = b]
    [elif path.endswith(sep): path += b]
    [else: path += sep + b]. *)
Definition join (path b : string) : string :=
  if startswith_sep b || String.eqb path "" then b
  else if endswith_sep path then path +:+ b
  else path +:+ String sep b.



(** [sep not in s] *)
Fixpoint no_sep (s : string) : bool :=
  match s with
  | EmptyString => true
  | String c r => negb (Ascii.eqb c sep) && no_sep r
  end.

(** [s == sep * len(s)] *)
Fixpoint all_sep (s : string) : bool :=
  match s with
  | EmptyString => true
  | String c r => Ascii.eqb c sep && all_sep r
  end.

(** [(p[:i], p[i:])] for [i = p.rfind(sep) + 1]. *)
Fixpoint split_raw (p : string) : string * string :=
  match p with
  | EmptyString => ("", "")
  | String c r =>
      if no_sep r then
        if Ascii.eqb c sep then (String c "", r) else ("", String c r)
      else
        let (head, tail) := split_raw r in (String c head, tail)
  end.

(** [s.rstrip(sep)] *)
Fixpoint rstrip_sep (s : string) : string :=
  match s with
  | EmptyString => ""
  | String c r => if all_sep (String c r) then "" else String c (rstrip_sep r)
  end.

(** [posixpath.split(p)]:
    [head, tail = p[:i], p[i:]]
    [if head and head != sep*len(head): head = head.rstrip(sep)]. *)
Definition split (p : string) : string * string :=
  let (head, tail) := split_raw p in
  (if negb (String.eqb head "") && negb (all_sep head) then rstrip_sep head else head,
   tail).

End PosixPath.

(** ** Python string helpers *)

Module PyStr.

(** [str.lower] on ASCII letters. *)
Definition lower_char (c : ascii) : ascii :=
  let n := nat_of_ascii c in
  if (Nat.leb 65 n && Nat.leb n 90)%bool then ascii_of_nat (n + 32) else c.

Fixpoint lower (s : string) : string :=
  match s with
  | EmptyString => EmptyString
  | String c r => String (lower_char c) (lower r)
  end.

(** The ASCII white space [int()] skips around a literal: space and the
    controls \t \n \v \f \r. (The separators 0x1c..0x1f are white space
    for [str.strip], not for [int].) *)
Definition is_ws (c : ascii) : bool :=
  let n := nat_of_ascii c in
  (Nat.eqb n 32 || (Nat.leb 9 n && Nat.leb n 13))%bool.

Fixpoint lstrip (s : string) : string :=
  match s with
  | String c r => if is_ws c then lstrip r else s
  | EmptyString => EmptyString
  end.

Fixpoint rev_str (acc s : string) : string :=
  match s with
  | EmptyString => acc
  | String c r => rev_str (String c acc) r
  end.

Definition strip (s : string) : string :=
  rev_str "" (lstrip (rev_str "" (lstrip s))).

Definition digit_val (c : ascii) : option Z :=
  let n := nat_of_ascii c in
  if (Nat.leb 48 n && Nat.leb n 57)%bool then Some (Z.of_nat (n - 48)) else None.

Definition is_underscore (c : ascii) : bool := Ascii.eqb c "_"%char.

(** Digits of a decimal literal after the first one: a digit, or one
    underscore followed by a digit. [acc] is the value read so far. *)
Fixpoint digits_tail (acc : Z) (s : string) : option Z :=
  match s with
  | EmptyString => Some acc
  | String c r =>
      match digit_val c with
      | Some d => digits_tail (10 * acc + d) r
      | None =>
          if is_underscore c then
            match r with
            | String c' r' =>
                match digit_val c' with
                | Some d => digits_tail (10 * acc + d) r'
                | None => None
                end
            | EmptyString => None
            end
          else None
      end
  end.

Definition digits (s : string) : option Z :=
  match s with
  | String c r =>
      match digit_val c with
      | Some d => digits_tail d r
      | None => None
      end
  | EmptyString => None
  end.

(** [int(s)] in base 10 on ASCII text of ordinary length: surrounding
    white space, an optional sign, decimal digits with single
    underscores between them. [None] is [ValueError]. Decimal digits and
    white space outside ASCII, which [int] accepts too, and the
    interpreter's limit on the number of digits are not part of it. *)
Definition int (s : string) : option Z :=
  match strip s with
  | String "-"%char r => option_map Z.opp (digits r)
  | String "+"%char r => digits r
  | t => digits t
  end.

End PyStr.

(** ** Console markup, as [rich.markup] matches tags

    [render] scans the text for tags: an opening bracket, a first
    character among the lower-case letters and [#], [/], [@], then
    characters other than an opening bracket up to the first closing
    bracket; an odd number of backslashes before it escapes the tag.
    A tag [[/name]] closes the innermost open tag of that style and
    [[/]] the innermost open tag; when there is none, [MarkupError] is
    raised. Styles are compared after [strip().lower()], the fall-back
    of [Style.normalize] (it also
    identifies two spellings of one style definition, which is left
    out, as is the evaluation of the parameters of [@] tags). *)

Module Rich.

Definition is_tag_start (c : ascii) : bool :=
  let n := nat_of_ascii c in
  ((Nat.leb 97 n && Nat.leb n 122) || Nat.eqb n 35 || Nat.eqb n 47
   || Nat.eqb n 64)%bool.

(** The characters up to the first closing bracket, when no opening
    bracket comes before it. *)
Fixpoint tag_body (s : string) : option string :=
  match s with
  | EmptyString => None
  | String c r =>
      if Ascii.eqb c "["%char then None
      else if Ascii.eqb c "]"%char then Some ""
      else option_map (String c) (tag_body r)
  end.

(** The tag whose opening bracket has just been read, if there is one. *)
Definition tag_at (r : string) : option string :=
  match r with
  | String c _ => if is_tag_start c then tag_body r else None
  | EmptyString => None
  end.

(** [text.partition("=")[0]] *)
Fixpoint before_equals (s : string) : string :=
  match s with
  | EmptyString => ""
  | String c r => if Ascii.eqb c "="%char then "" else String c (before_equals r)
  end.

(** ASCII white space of [str.strip]. *)
Definition is_space (c : ascii) : bool :=
  let n := nat_of_ascii c in
  (Nat.eqb n 32 || (Nat.leb 9 n && Nat.leb n 13)
   || (Nat.leb 28 n && Nat.leb n 31))%bool.

Fixpoint lstrip (s : string) : string :=
  match s with
  | String c r => if is_space c then lstrip r else s
  | EmptyString => EmptyString
  end.

Definition strip (s : string) : string :=
  PyStr.rev_str "" (lstrip (PyStr.rev_str "" (lstrip s))).

Definition normalize (style : string) : string := PyStr.lower (strip style).

(** [pop_style]: remove the innermost open tag of that name. *)
Fixpoint pop_style (name : string) (stack : list string) : option (list string) :=
  match stack with
  | [] => None
  | t :: rest =>
      if String.eqb t name then Some rest
      else option_map (cons t) (pop_style name rest)
  end.

(** The effect of the tag with text [body] found at [position] on the
    stack of open tags: the new stack, or the text of the error. *)
Definition apply_tag (stack : list string) (position : nat) (body : string)
    : string + list string :=
  match before_equals body with
  | String "/"%char closing =>
      if String.eqb (strip closing) "" then
        match stack with
        | _ :: rest => inr rest
        | [] =>
            inl ("closing tag '[/]' at position " +:+ pretty position
                 +:+ " has nothing to close")
        end
      else
        match pop_style (normalize (strip closing)) stack with
        | Some rest => inr rest
        | None =>
            inl ("closing tag '[" +:+ body +:+ "]' at position " +:+ pretty position
                 +:+ " doesn't match any open tag")
        end
  | name => inr (normalize name :: stack)
  end.

(** The scan of [render]. [slashes] counts the backslashes just read,
    [position] is the index of the next character, [skip] the number of
    characters left of the tag being passed. *)
Fixpoint scan (stack : list string) (slashes position skip : nat) (s : string)
    : option string :=
  match s with
  | EmptyString => None
  | String c r =>
      match skip with
      | S k => scan stack 0 (S position) k r
      | O =>
          if Ascii.eqb c "\"%char then scan stack (S slashes) (S position) 0 r
          else if Ascii.eqb c "["%char then
            match tag_at r with
            | None => scan stack 0 (S position) 0 r
            | Some body =>
                if Nat.odd slashes then
                  scan stack 0 (S position) (S (String.length body)) r
                else
                  match apply_tag stack position body with
                  | inl message => Some message
                  | inr stack' =>
                      scan stack' 0 (S position) (S (String.length body)) r
                  end
            end
          else scan stack 0 (S position) 0 r
      end
  end.

(** The message of the [MarkupError] that rendering [markup] raises, if
    it raises one. *)
Definition check (markup : string) : option string := scan [] 0 0 0 markup.

End Rich.

(** ** The world the script runs in *)

Abbreviation bytes := (list Byte.byte).

(** A Python [dict] with string keys and values, as [msstore] returns
    for each asset. *)
Abbreviation asset := (gmap string string).

(** Subclasses of [Exception] that can reach the handlers of the script. *)
Inductive exn : Type :=
| KeyError (key : string)
| ValueError (msg : string)
| IndexError
| EOFError
| FileNotFoundError (path : string)
| FileExistsError (path : string)
| IsADirectoryError (path : string)
| PermissionError (path : string)
| ClientError (msg : string)      (* aiohttp.ClientError and subclasses *)
| TimeoutError                    (* asyncio.TimeoutError *)
| StoreError (msg : string)       (* raised by msstore.fetch_assets *)
| MarkupError (msg : string).     (* rich.errors.MarkupError *)

(** [str(e)] *)
Definition str_exn (e : exn) : string :=
  match e with
  | KeyError k => "'" +:+ k +:+ "'"
  | ValueError m => m
  | IndexError => "list index out of range"
  | EOFError => ""
  | FileNotFoundError p => "[Errno 2] No such file or directory: '" +:+ p +:+ "'"
  | FileExistsError p => "[Errno 17] File exists: '" +:+ p +:+ "'"
  | IsADirectoryError p => "[Errno 21] Is a directory: '" +:+ p +:+ "'"
  | PermissionError p => "[Errno 13] Permission denied: '" +:+ p +:+ "'"
  | ClientError m => m
  | TimeoutError => ""
  | StoreError m => m
  | MarkupError m => m
  end.

Definition is_ValueError (e : exn) : bool :=
  match e with ValueError _ => true | _ => false end.

Definition is_EOFError (e : exn) : bool :=
  match e with EOFError => true | _ => false end.

Definition is_FileExistsError (e : exn) : bool :=
  match e with FileExistsError _ => true | _ => false end.

(** What the script does to the outside. *)
Inductive event : Type :=
| EvPrint (msg : string)                  (* console.print(str), printed *)
| EvTable (columns : list string) (rows : list (list string))
| EvFetch (url : string)                  (* msstore.fetch_assets(url) *)
| EvPrompt (prompt : string)              (* Prompt.ask(prompt) *)
| EvMakedirs (path : string)              (* os.makedirs(path), done *)
| EvSession (total_timeout : Z)           (* ClientSession entered *)
| EvSessionClose
| EvGet (url : string)                    (* session.get(url) issued *)
| EvOpen (path : string)                  (* open(path, "wb"), done *)
| EvWrite (path : string) (chunk : bytes) (* f.write(chunk) *)
| EvClose (path : string).

(** The body of an HTTP response as the stream reader receives it: the
    pieces of data fed by the connection, then either end of body or the
    exception the stream raises (connection reset, timeout expiry). *)
Record body_stream : Type := BodyStream {
  arrivals : list bytes;
  ending : option exn
}.

Inductive get_outcome : Type :=
| GetRaises (e : exn)
| GetResponse (status : Z) (content : body_stream).

(** What does not change during a run. *)
Record env : Type := Env {
  (** [os.path.dirname(os.path.abspath(__file__))] *)
  script_dir : string;
  (** the answer of the network to [session.get(url)] *)
  server : string -> get_outcome;
  (** [msstore.fetch_assets(url)]: [(assets, is_uwp)] or an exception *)
  fetch_assets : string -> exn + (list asset * bool);
  (** what [Prompt.ask] returns; [None] is end of input ([EOFError]) *)
  answer : option string;
  (** paths the operating system refuses to create or open for writing
      (permissions, read-only medium, missing parent of a file, ...) *)
  denied : string -> bool;
  (** [int(text)]; [None] is [ValueError] *)
  int_of : string -> option Z;
  (** the message of the [MarkupError] that [rich] raises when it
      renders the text as console markup; [None] when it accepts it *)
  markup_error : string -> option string
}.

(** The file system, which a run changes. *)
Record fs : Type := Fs {
  dirs : gset string;            (* existing directories *)
  files : gmap string bytes      (* existing regular files and their contents *)
}.

(** ** The monad: state, events, and exceptions that keep the state *)

Inductive outcome (A : Type) : Type :=
| Ok (a : A)
| Raised (e : exn).
Arguments Ok {A} a.
Arguments Raised {A} e.

Record run (A : Type) : Type := Run {
  result : outcome A;
  final : fs;
  events : list event
}.
Arguments Run {A} result final events.
Arguments result {A} r.
Arguments final {A} r.
Arguments events {A} r.

Definition M (A : Type) : Type := fs -> run A.

Definition ret {A} (a : A) : M A := fun s => Run (Ok a) s [].

Definition raise {A} (e : exn) : M A := fun s => Run (Raised e) s [].

Definition do_event (ev : event) : M unit := fun s => Run (Ok tt) s [ev].

Definition bind {A B} (c : M A) (k : A -> M B) : M B :=
  fun s =>
    match c s with
    | Run (Ok a) s' ev =>
        match k a s' with
        | Run r s'' ev' => Run r s'' (ev ++ ev')
        end
    | Run (Raised e) s' ev => Run (Raised e) s' ev
    end.

Notation "'let*' x ':=' c 'in' k" := (bind c (fun x => k))
  (at level 10, x pattern, c at level 100, k at level 200).

(** [try: c  except <matching> as e: h e]; other exceptions pass. *)
Definition try_except_if {A} (matching : exn -> bool) (c : M A) (h : exn -> M A) : M A :=
  fun s =>
    match c s with
    | Run (Ok a) s' ev => Run (Ok a) s' ev
    | Run (Raised e) s' ev =>
        if matching e then
          match h e s' with
          | Run r s'' ev' => Run r s'' (ev ++ ev')
          end
        else Run (Raised e) s' ev
    end.

(** [try: c  except Exception as e: h e] *)
Definition try_except {A} (c : M A) (h : exn -> M A) : M A :=
  try_except_if (fun _ => true) c h.

(** [c] then [exit_], whatever [c] does (the exit of a [with] block). *)
Definition finally {A} (c : M A) (exit_ : M unit) : M A :=
  fun s =>
    match c s with
    | Run r s' ev =>
        match exit_ s' with
        | Run (Ok _) s'' ev' => Run r s'' (ev ++ ev')
        | Run (Raised e) s'' ev' => Run (Raised e) s'' (ev ++ ev')
        end
    end.

Fixpoint for_each {A} (l : list A) (body : A -> M unit) : M unit :=
  match l with
  | [] => ret tt
  | x :: r => let* _ := body x in for_each r body
  end.

(** [async for x in it: body x], where the iterator yields the elements
    of [fst it] and then stops ([None]) or raises. *)
Definition async_for {A} (it : list A * option exn) (body : A -> M unit) : M unit :=
  let* _ := for_each (fst it) body in
  match snd it with
  | None => ret tt
  | Some e => raise e
  end.

(** ** Primitives: operating system, console, network *)

(** [os.path.exists(p)]: the empty path never exists, the root always
    does. *)
Definition path_exists (s : fs) (p : string) : bool :=
  negb (String.eqb p "") &&
  (PosixPath.all_sep p || bool_decide (p ∈ dirs s)
   || bool_decide (is_Some (files s !! p))).

Definition os_path_exists (p : string) : M bool :=
  fun s => Run (Ok (path_exists s p)) s [].

(** [os.mkdir(p)]: one directory, whose parent is there. *)
Definition os_mkdir (E : env) (p : string) : M unit :=
  fun s =>
    if String.eqb p "" then Run (Raised (FileNotFoundError p)) s []
    else if path_exists s p then Run (Raised (FileExistsError p)) s []
    else if denied E p then Run (Raised (PermissionError p)) s []
    else Run (Ok tt) (Fs ({[ p ]} ∪ dirs s) (files s)) [].

(** The path [xxx/newdir/.] names a directory once [xxx/newdir] is one. *)
Definition os_same_dir (p : string) : M unit :=
  fun s => Run (Ok tt) (Fs ({[ p ]} ∪ dirs s) (files s)) [].

(** The recursion of [os.makedirs(name)] with [exist_ok=False]:
    [head, tail = path.split(name)]
    [if not tail: head, tail = path.split(head)]
    [if head and tail and not path.exists(head):]
    [    try: makedirs(head)]
    [    except FileExistsError: pass]
    [    if tail == curdir: return]
    [mkdir(name)].
    The recursive call is on a shorter path: [fuel] bounds its depth
    and the length of [name] is enough (lemma [makedirs_fuel_enough]). *)
Definition makedirs_parts (name : string) : string * string :=
  let (head, tail) := PosixPath.split name in
  if String.eqb tail "" then PosixPath.split head else (head, tail).

Section Makedirs.
Variable E : env.

Fixpoint makedirs_from (fuel : nat) (name : string) : M unit :=
  let (head, tail) := makedirs_parts name in
  match fuel with
  | S k =>
      if negb (String.eqb head "") && negb (String.eqb tail "") then
        let* there := os_path_exists head in
        if negb there then
          let* _ := try_except_if is_FileExistsError (makedirs_from k head)
                      (fun _ => ret tt) in
          if String.eqb tail "." then os_same_dir name
          else os_mkdir E name
        else os_mkdir E name
      else os_mkdir E name
  | O => os_mkdir E name
  end.

End Makedirs.

(** [os.makedirs(p)]: the directory and the parents it misses. *)
Definition os_makedirs (E : env) (p : string) : M unit :=
  let* _ := makedirs_from E (String.length p) p in
  do_event (EvMakedirs p).

(** [open(p, "wb")]: creates the file or truncates the one there. The
    handle is the path. *)
Definition open_wb (E : env) (p : string) : M string :=
  fun s =>
    if String.eqb p "" then Run (Raised (FileNotFoundError p)) s []
    else if PosixPath.all_sep p || bool_decide (p ∈ dirs s)
      then Run (Raised (IsADirectoryError p)) s []
    else if denied E p then Run (Raised (PermissionError p)) s []
    else Run (Ok p) (Fs (dirs s) (<[ p := [] ]> (files s))) [EvOpen p].

(** [f.write(chunk)] *)
Definition file_write (f : string) (chunk : bytes) : M unit :=
  fun s =>
    Run (Ok tt)
        (Fs (dirs s)
            (match files s !! f with
             | Some old => <[ f := old ++ chunk ]> (files s)
             | None => files s
             end))
        [EvWrite f chunk].

Definition file_close (f : string) : M unit := do_event (EvClose f).

(** [with open(p, "wb") as f: body f] *)
Definition with_open_wb {A} (E : env) (p : string) (body : string -> M A) : M A :=
  let* f := open_wb E p in
  finally (body f) (file_close f).

(** [console.print(msg)] for a line that interpolates a text: printed,
    or [MarkupError] when the markup of the whole line is rejected. *)
Definition console_print (E : env) (msg : string) : M unit :=
  fun s =>
    match markup_error E msg with
    | None => Run (Ok tt) s [EvPrint msg]
    | Some m => Run (Raised (MarkupError m)) s []
    end.

(** [console.print(msg)] for a line whose markup the script fixes. *)
Definition console_print_fixed (msg : string) : M unit := do_event (EvPrint msg).

(** The cells of column [j], from the top. *)
Definition column_cells (j : nat) (rows : list (list string)) : list string :=
  omap (fun row : list string => row !! j) rows.

(** The first cell that is rejected, in the given order. *)
Section Cells.
Variable E : env.

Fixpoint first_rejected (cells : list string) : option string :=
  match cells with
  | [] => None
  | cell :: rest =>
      match markup_error E cell with
      | Some m => Some m
      | None => first_rejected rest
      end
  end.

End Cells.

(** [console.print(table)]: the cells are rendered as markup column by
    column when the widths are measured, before anything is printed;
    the title and the headers are string literals. *)
Definition table_error (E : env) (columns : list string) (rows : list (list string))
    : option string :=
  first_rejected E
    (flat_map (fun j => column_cells j rows) (seq 0 (length columns))).

Definition console_print_table (E : env) (columns : list string)
    (rows : list (list string)) : M unit :=
  fun s =>
    match table_error E columns rows with
    | None => Run (Ok tt) s [EvTable columns rows]
    | Some m => Run (Raised (MarkupError m)) s []
    end.

(** [Prompt.ask(prompt)] *)
Definition prompt_ask (E : env) (prompt : string) : M string :=
  let* _ := do_event (EvPrompt prompt) in
  match answer E with
  | Some choice => ret choice
  | None => raise EOFError
  end.

(** [d[k]] *)
Definition getitem (d : asset) (k : string) : M string :=
  match d !! k with
  | Some v => ret v
  | None => raise (KeyError k)
  end.

(** [d.get(k, default)] *)
Definition dict_get (d : asset) (k default : string) : string :=
  match d !! k with
  | Some v => v
  | None => default
  end.

(** [async with aiohttp.ClientSession(timeout=ClientTimeout(total=t),
    raise_for_status=False) as session: body] *)
Definition with_session {A} (total : Z) (body : M A) : M A :=
  let* _ := do_event (EvSession total) in
  finally body (do_event EvSessionClose).

(** [async with session.get(url) as response: body response]; statuses
    other than 2xx do not raise ([raise_for_status=False]). *)
Definition with_get {A} (E : env) (url : string)
    (body : Z -> body_stream -> M A) : M A :=
  let* _ := do_event (EvGet url) in
  match server E url with
  | GetRaises e => raise e
  | GetResponse status content => body status content
  end.

(** Successive [read(n)] served from one piece of buffered data: up to
    [n] bytes each time, until the buffer is empty. *)
Fixpoint split_buffer (fuel n : nat) (buf : bytes) : list bytes :=
  match fuel with
  | O => []
  | S k =>
      match buf with
      | [] => []
      | _ => take n buf :: split_buffer k n (drop n buf)
      end
  end.

(** [content.iter_chunked(n)]: yields what [read(n)] returns, that is at
    most [n] bytes of what has arrived, until end of body; [read(0)]
    returns [b""], which ends the iteration at once. *)
Definition iter_chunked (n : nat) (c : body_stream) : list bytes * option exn :=
  match n with
  | O => ([], None)
  | _ => (flat_map (fun data => split_buffer (length data) n data) (arrivals c),
          ending c)
  end.

Definition chunk_size : nat := Z.to_nat 8192.

(** ** The script *)

Section Script.

Variable E : env.

(** The arguments of one [table.add_row(...)], evaluated left to right. *)
Definition table_row (is_uwp : bool) (i : nat) (a : asset) : M (list string) :=
  let* name := getitem a "name" in
  let* arch := getitem a "arch" in
  let* extension := getitem a "extension" in
  if is_uwp then
    let* modified := getitem a "modified" in
    ret [pretty i; name; arch; extension; modified]
  else
    ret [pretty i; name; arch; extension; dict_get a "locale" "unknown"].

(** [for i, asset in enumerate(assets, i): table.add_row(...)] *)
Fixpoint table_rows (is_uwp : bool) (i : nat) (assets : list asset)
    : M (list (list string)) :=
  match assets with
  | [] => ret []
  | a :: rest =>
      let* row := table_row is_uwp i a in
      let* rows := table_rows is_uwp (S i) rest in
      ret (row :: rows)
  end.

Definition display_assets_table (assets : list asset) (is_uwp : bool) : M unit :=
  let columns :=
    ["No."; "Name"; "Architecture"; "Extension";
     if is_uwp then "Modified" else "Locale"] in
  let* rows := table_rows is_uwp 1 assets in
  console_print_table E columns rows.

(** The directory [download_asset] works in:
    [os.path.join(script_dir, "downloads")] when [download_dir is None]. *)
Definition effective_dir (download_dir : option string) : string :=
  match download_dir with
  | None => PosixPath.join (script_dir E) "downloads"
  | Some d => d
  end.

(** [download_asset(asset, download_dir)]: the path written, or [None]. *)
Definition download_asset (asset : asset) (download_dir : option string)
    : M (option string) :=
  let download_dir := effective_dir download_dir in
  let* there := os_path_exists download_dir in
  let* _ := (if negb there then os_makedirs E download_dir else ret tt) in
  let* name := getitem asset "name" in
  let file_path := PosixPath.join download_dir name in
  let* _ := console_print E ("[yellow]Downloading to:[/yellow] " +:+ file_path) in
  try_except
    (with_session 120
       (let* url := getitem asset "url" in
        with_get E url (fun status content =>
          if (status =? 200)%Z then
            let* _ :=
              with_open_wb E file_path (fun f =>
                async_for (iter_chunked chunk_size content)
                          (fun chunk => file_write f chunk)) in
            let* _ := console_print_fixed "[green]Download completed![/green]" in
            ret (Some file_path)
          else
            let* _ := console_print_fixed
              ("[red]Download failed with status " +:+ pretty status +:+ "[/red]") in
            ret None)))
    (fun e =>
       let* _ := console_print E ("[red]Download error: " +:+ str_exn e +:+ "[/red]") in
       ret None).

(** [if file_path:] on a [str] or [None]. *)
Definition truthy (r : option string) : bool :=
  match r with
  | Some p => negb (String.eqb p "")
  | None => false
  end.

(** [file_path = await download_asset(...)] and the report after it,
    as both modes of [main] have it. *)
Definition download_and_report (selected_asset : asset)
    (download_dir : option string) : M bool :=
  let* file_path := download_asset selected_asset download_dir in
  match file_path with
  | Some p =>
      if truthy file_path then
        let* _ := console_print E ("[green]Asset downloaded to:[/green] " +:+ p) in
        ret true
      else
        let* _ := console_print_fixed "[red]Failed to download asset[/red]" in
        ret false
  | None =>
      let* _ := console_print_fixed "[red]Failed to download asset[/red]" in
      ret false
  end.

Definition msstore_fetch_assets (url : string) : M (list asset * bool) :=
  let* _ := do_event (EvFetch url) in
  match fetch_assets E url with
  | inl e => raise e
  | inr r => ret r
  end.

(** [int(choice)] *)
Definition py_int (choice : string) : M Z :=
  match int_of E choice with
  | Some n => ret n
  | None =>
      raise (ValueError ("invalid literal for int() with base 10: '" +:+ choice +:+ "'"))
  end.

(** [main(url, auto_download, download_dir)] *)
Definition main (url : string) (auto_download : bool)
    (download_dir : option string) : M bool :=
  let* _ := console_print E ("[bold blue]Processing URL:[/bold blue] " +:+ url) in
  let* _ := (if auto_download
             then console_print_fixed "[bold blue]Auto-download mode enabled[/bold blue]"
             else ret tt) in
  try_except
    (let* _ := console_print_fixed "[yellow]Getting product information...[/yellow]" in
     let* fetched := msstore_fetch_assets url in
     let '(assets, is_uwp) := fetched in
     let* _ := display_assets_table assets is_uwp in
     if auto_download then
       match assets with
       | selected_asset :: _ =>
           let* name := getitem selected_asset "name" in
           let* _ := console_print E ("[green]Auto-selecting first asset:[/green] " +:+ name) in
           download_and_report selected_asset download_dir
       | [] =>
           let* _ := console_print_fixed "[red]No assets available for download[/red]" in
           ret false
       end
     else
       let* _ := console_print_fixed
         (String (ascii_of_nat 10)
            "[yellow]Enter the number of the asset to download, or 'q' to quit:[/yellow]") in
       try_except_if is_EOFError
         (let* choice := prompt_ask E "Your choice" in
          if String.eqb (PyStr.lower choice) "q" then ret true
          else
            try_except_if is_ValueError
              (let* n := py_int choice in
               let index := (n - 1)%Z in
               if ((0 <=? index) && (index <? Z.of_nat (length assets)))%Z then
                 let* selected_asset :=
                   match assets !! Z.to_nat index with
                   | Some a => ret a
                   | None => raise IndexError
                   end in
                 let* name := getitem selected_asset "name" in
                 let* _ := console_print E ("[green]Selected:[/green] " +:+ name) in
                 download_and_report selected_asset download_dir
               else
                 let* _ := console_print_fixed "[red]Invalid selection[/red]" in
                 ret false)
              (fun _ =>
                 let* _ := console_print_fixed "[red]Invalid input[/red]" in
                 ret false))
         (fun _ =>
            let* _ := console_print_fixed
              "[yellow]Running in non-interactive mode. Use --auto flag to automatically download the first asset.[/yellow]" in
            ret true))
    (fun e =>
       (* traceback.print_exc() writes to stderr, which is not an event *)
       let* _ := console_print E ("[red]Error: " +:+ str_exn e +:+ "[/red]") in
       ret false).

(** The [__main__] block: the exit status of the process.
    [success = asyncio.run(main(args.url, args.auto, args.dir))];
    [if not success: sys.exit(1)]. An exception that leaves [main] ends
    the interpreter with status 1 as well. *)
Definition default_url : string := "https://apps.microsoft.com/detail/9pdxgncfsczv".

Definition run_script (arg_url : option string) (arg_auto : bool)
    (arg_dir : option string) (s : fs) : Z :=
  match result (main (default default_url arg_url) arg_auto arg_dir s) with
  | Ok success => if success then 0 else 1
  | Raised _ => 1
  end.

End Script.

(** ** Vocabulary of the statements *)

Arguments PosixPath.join : simpl never.
Arguments String.append : simpl never.
Arguments pretty : simpl never.
Arguments chunk_size : simpl never.
Arguments iter_chunked : simpl never.
Arguments path_exists : simpl never.

(** The console accepts the line: [console.print] prints it. *)
Definition accepted (E : env) (msg : string) : Prop := markup_error E msg = None.

(** [p.startswith(q)] *)
Fixpoint is_prefix (q p : string) : bool :=
  match q with
  | EmptyString => true
  | String c q' =>
      match p with
      | String c' p' => Ascii.eqb c c' && is_prefix q' p'
      | EmptyString => false
      end
  end.

(** The directories [makedirs] may add: leading parts of the path, and
    the path itself only when it succeeds. *)
Definition made_for (name : string) (r : outcome unit) (q : string) : Prop :=
  is_prefix q name = true /\
  ((String.length q < String.length name)%nat \/ r = Ok tt).

(** Every event of the computation, from any file system, satisfies [P]. *)
Definition emits {A} (P : event -> Prop) (c : M A) : Prop :=
  forall s, Forall P (events (c s)).

(** The destination directory is there, or [os.makedirs] creates it. *)
Definition dir_ready (E : env) (s : fs) (d : string) : bool :=
  path_exists s d ||
  match result (os_makedirs E d s) with
  | Ok _ => true
  | Raised _ => false
  end.

(** The file system after [if not os.path.exists(d): os.makedirs(d)]. *)
Definition prepared (E : env) (s : fs) (d : string) : fs :=
  if path_exists s d then s else final (os_makedirs E d s).

Definition prepare_events (s : fs) (d : string) : list event :=
  if path_exists s d then [] else [EvMakedirs d].

(** [open(p, "wb")] succeeds. *)
Definition can_open (E : env) (s : fs) (p : string) : bool :=
  negb (String.eqb p "") &&
  negb (PosixPath.all_sep p || bool_decide (p ∈ dirs s)) &&
  negb (denied E p).

(** Events of a download: everything but console, table, resolver, prompt. *)
Definition is_transfer (ev : event) : bool :=
  match ev with
  | EvMakedirs _ | EvSession _ | EvSessionClose | EvGet _
  | EvOpen _ | EvWrite _ _ | EvClose _ => true
  | EvPrint _ | EvTable _ _ | EvFetch _ | EvPrompt _ => false
  end.

(** The requests sent, in order. *)
Definition is_get (ev : event) : bool :=
  match ev with EvGet _ => true | _ => false end.

Definition gets (evs : list event) : list event :=
  filter (fun ev => is_get ev = true) evs.

(** Events that change the file system. *)
Definition is_fs_write (ev : event) : bool :=
  match ev with
  | EvMakedirs _ | EvOpen _ | EvWrite _ _ => true
  | _ => false
  end.

(** The asset has the keys [display_assets_table] reads with [asset[...]]. *)
Definition displayable (is_uwp : bool) (a : asset) : Prop :=
  is_Some (a !! "name") /\ is_Some (a !! "arch") /\ is_Some (a !! "extension") /\
  (is_uwp = true -> is_Some (a !! "modified")).

(** The row [display_assets_table] adds for an asset. *)
Definition row_of (is_uwp : bool) (i : nat) (a : asset) : list string :=
  [pretty i; dict_get a "name" ""; dict_get a "arch" ""; dict_get a "extension" "";
   if is_uwp then dict_get a "modified" "" else dict_get a "locale" "unknown"].

Fixpoint rows_of (is_uwp : bool) (i : nat) (assets : list asset) : list (list string) :=
  match assets with
  | [] => []
  | a :: rest => row_of is_uwp i a :: rows_of is_uwp (S i) rest
  end.

Definition table_columns (is_uwp : bool) : list string :=
  ["No."; "Name"; "Architecture"; "Extension"; if is_uwp then "Modified" else "Locale"].

(** The console accepts every cell of the table of these assets. *)
Definition table_accepted (E : env) (is_uwp : bool) (assets : list asset) : Prop :=
  table_error E (table_columns is_uwp) (rows_of is_uwp 1 assets) = None.

(** Console lines of [download_asset]. *)
Definition downloading_text (p : string) : string :=
  "[yellow]Downloading to:[/yellow] " +:+ p.

Definition downloading (p : string) : event := EvPrint (downloading_text p).

Definition download_error_text (e : exn) : string :=
  "[red]Download error: " +:+ str_exn e +:+ "[/red]".

Definition download_error (e : exn) : event := EvPrint (download_error_text e).

Definition download_failed_status (st : Z) : event :=
  EvPrint ("[red]Download failed with status " +:+ pretty st +:+ "[/red]").

Definition download_completed : event :=
  EvPrint "[green]Download completed![/green]".

(** The [except] clause of [download_asset], entered with [e] after the
    events [evs] in the file system [s']: the error line is printed and
    [None] returned, or the line is rejected and [MarkupError] leaves
    the function. *)
Definition handler_run (E : env) (e : exn) (s' : fs) (evs : list event)
    : run (option string) :=
  match markup_error E (download_error_text e) with
  | None => Run (Ok None) s' (evs ++ [download_error e])
  | Some m => Run (Raised (MarkupError m)) s' evs
  end.

(** The ways the [try] block of [download_asset] raises: the exception,
    the file system it leaves and the events of the block. *)
Inductive try_raises (E : env) (a : asset) (s1 : fs) (p : string)
    : exn -> fs -> list event -> Prop :=
| TrNoUrl :
    a !! "url" = None ->
    try_raises E a s1 p (KeyError "url") s1 [EvSession 120; EvSessionClose]
| TrGet (url : string) (e : exn) :
    a !! "url" = Some url ->
    server E url = GetRaises e ->
    try_raises E a s1 p e s1 [EvSession 120; EvGet url; EvSessionClose]
| TrOpen (url : string) (c : body_stream) (e : exn) :
    a !! "url" = Some url ->
    server E url = GetResponse 200 c ->
    can_open E s1 p = false ->
    result (open_wb E p s1) = Raised e ->
    try_raises E a s1 p e s1 [EvSession 120; EvGet url; EvSessionClose]
| TrStream (url : string) (c : body_stream) (e : exn) :
    a !! "url" = Some url ->
    server E url = GetResponse 200 c ->
    can_open E s1 p = true ->
    ending c = Some e ->
    try_raises E a s1 p e
      (Fs (dirs s1) (<[ p := concat (arrivals c) ]> (files s1)))
      ([EvSession 120; EvGet url; EvOpen p]
       ++ map (EvWrite p) (fst (iter_chunked chunk_size c))
       ++ [EvClose p; EvSessionClose]).

(** Every way a call [download_asset(asset, download_dir)] can go, with
    the run it gives. *)
Inductive download_spec (E : env) (a : asset) (dir : option string) (s : fs)
    : run (option string) -> Prop :=
| DsDirError (e : exn) :
    dir_ready E s (effective_dir E dir) = false ->
    result (os_makedirs E (effective_dir E dir) s) = Raised e ->
    download_spec E a dir s
      (Run (Raised e) (final (os_makedirs E (effective_dir E dir) s)) [])
| DsNoName :
    dir_ready E s (effective_dir E dir) = true ->
    a !! "name" = None ->
    download_spec E a dir s
      (Run (Raised (KeyError "name")) (prepared E s (effective_dir E dir))
           (prepare_events s (effective_dir E dir)))
| DsPathRejected (name m : string) :
    dir_ready E s (effective_dir E dir) = true ->
    a !! "name" = Some name ->
    markup_error E (downloading_text (PosixPath.join (effective_dir E dir) name))
      = Some m ->
    download_spec E a dir s
      (Run (Raised (MarkupError m)) (prepared E s (effective_dir E dir))
           (prepare_events s (effective_dir E dir)))
| DsStatus (name url : string) (st : Z) (c : body_stream) :
    dir_ready E s (effective_dir E dir) = true ->
    a !! "name" = Some name ->
    accepted E (downloading_text (PosixPath.join (effective_dir E dir) name)) ->
    a !! "url" = Some url ->
    server E url = GetResponse st c ->
    st <> 200 ->
    download_spec E a dir s
      (Run (Ok None) (prepared E s (effective_dir E dir))
           (prepare_events s (effective_dir E dir) ++
            [downloading (PosixPath.join (effective_dir E dir) name);
             EvSession 120; EvGet url; download_failed_status st; EvSessionClose]))
| DsCompleted (name url : string) (c : body_stream) :
    dir_ready E s (effective_dir E dir) = true ->
    a !! "name" = Some name ->
    accepted E (downloading_text (PosixPath.join (effective_dir E dir) name)) ->
    a !! "url" = Some url ->
    server E url = GetResponse 200 c ->
    can_open E (prepared E s (effective_dir E dir))
             (PosixPath.join (effective_dir E dir) name) = true ->
    ending c = None ->
    download_spec E a dir s
      (let d := effective_dir E dir in
       let p := PosixPath.join d name in
       Run (Ok (Some p))
           (Fs (dirs (prepared E s d))
               (<[ p := concat (arrivals c) ]> (files (prepared E s d))))
           (prepare_events s d ++
            [downloading p; EvSession 120; EvGet url; EvOpen p]
            ++ map (EvWrite p) (fst (iter_chunked chunk_size c))
            ++ [EvClose p; download_completed; EvSessionClose]))
| DsCaught (name : string) (e : exn) (s' : fs) (evs : list event) :
    dir_ready E s (effective_dir E dir) = true ->
    a !! "name" = Some name ->
    accepted E (downloading_text (PosixPath.join (effective_dir E dir) name)) ->
    try_raises E a (prepared E s (effective_dir E dir))
      (PosixPath.join (effective_dir E dir) name) e s' evs ->
    download_spec E a dir s
      (handler_run E e s'
         (prepare_events s (effective_dir E dir) ++
          downloading (PosixPath.join (effective_dir E dir) name) :: evs)).

(** ** The claims of the specification that the code does not meet, as stated *)

(** C1 as stated: a call that returns failure leaves no file at a
    destination path that held none. *)
Definition failure_leaves_no_artifact (E : env) (a : asset) (dir : option string)
    (s : fs) : Prop :=
  forall name,
    a !! "name" = Some name ->
    result (download_asset E a dir s) = Ok None ->
    files s !! PosixPath.join (effective_dir E dir) name = None ->
    files (final (download_asset E a dir s))
      !! PosixPath.join (effective_dir E dir) name = None.

(** C2 as stated: on a status other than 200 the call fails and leaves
    the file system exactly as it was. *)
Definition status_failure_writes_nothing (E : env) (a : asset) (dir : option string)
    (s : fs) : Prop :=
  forall url st c,
    a !! "url" = Some url ->
    server E url = GetResponse st c ->
    st <> 200 ->
    result (download_asset E a dir s) = Ok None /\
    final (download_asset E a dir s) = s /\
    Forall (fun ev => is_fs_write ev = false) (events (download_asset E a dir s)).

(** C3 as stated: the path returned on success is absolute. *)
Definition success_returns_absolute_path (E : env) (a : asset) (dir : option string)
    (s : fs) : Prop :=
  forall p,
    result (download_asset E a dir s) = Ok (Some p) -> PosixPath.isabs p = true.

(** C4 as stated: no exception leaves [download_asset]. *)
Definition download_never_raises (E : env) (a : asset) (dir : option string)
    (s : fs) : Prop :=
  exists r, result (download_asset E a dir s) = Ok r.

(** C5 as stated: on status 200 the destination is opened for exclusive
    writing, so a file already there is not replaced, and every write is a
    chunk of 8192 bytes. *)
Definition exclusive_fixed_size_writes (E : env) (a : asset) (dir : option string)
    (s : fs) : Prop :=
  forall name url c,
    a !! "name" = Some name ->
    a !! "url" = Some url ->
    server E url = GetResponse 200 c ->
    (is_Some (files s !! PosixPath.join (effective_dir E dir) name) ->
     files (final (download_asset E a dir s))
       !! PosixPath.join (effective_dir E dir) name
     = files s !! PosixPath.join (effective_dir E dir) name) /\
    (forall q chunk,
        In (EvWrite q chunk) (events (download_asset E a dir s)) ->
        Z.of_nat (length chunk) = 8192).



(** Console lines of [main]. *)
Definition processing_text (url : string) : string :=
  "[bold blue]Processing URL:[/bold blue] " +:+ url.

Definition processing (url : string) : event := EvPrint (processing_text url).

Definition auto_enabled : event :=
  EvPrint "[bold blue]Auto-download mode enabled[/bold blue]".

Definition getting_info : event :=
  EvPrint "[yellow]Getting product information...[/yellow]".



Definition selected_text (name : string) : string :=
  "[green]Selected:[/green] " +:+ name.

Definition selected (name : string) : event := EvPrint (selected_text name).

Definition failed_to_download : event :=
  EvPrint "[red]Failed to download asset[/red]".

Definition downloaded_to_text (p : string) : string :=
  "[green]Asset downloaded to:[/green] " +:+ p.

Definition downloaded_to (p : string) : event := EvPrint (downloaded_to_text p).

Definition main_error_text (e : exn) : string :=
  "[red]Error: " +:+ str_exn e +:+ "[/red]".

Definition main_error (e : exn) : event := EvPrint (main_error_text e).

(** The [except Exception] clause of [main], entered with [e] after the
    events [evs] in the file system [s']: the error line is printed and
    [False] returned, or the line is rejected and [MarkupError] leaves
    [main]. *)
Definition main_handler_run (E : env) (e : exn) (s' : fs) (evs : list event)
    : run bool :=
  match markup_error E (main_error_text e) with
  | None => Run (Ok false) s' (evs ++ [main_error e])
  | Some m => Run (Raised (MarkupError m)) s' evs
  end.

(** What [main] does with the run of [download_asset] on the asset it
    selected, after the events [pre]. *)
Definition report_run (E : env) (pre : list event) (r : run (option string))
    : run bool :=
  match r with
  | Run (Ok (Some p)) s' ev =>
      if String.eqb p "" then Run (Ok false) s' (pre ++ ev ++ [failed_to_download])
      else
        match markup_error E (downloaded_to_text p) with
        | None => Run (Ok true) s' (pre ++ ev ++ [downloaded_to p])
        | Some m => main_handler_run E (MarkupError m) s' (pre ++ ev)
        end
  | Run (Ok None) s' ev => Run (Ok false) s' (pre ++ ev ++ [failed_to_download])
  | Run (Raised e) s' ev => main_handler_run E e s' (pre ++ ev)
  end.


(** What [main] has done in interactive mode when it has asked. *)
Definition interactive_preamble (url : string) (assets : list asset) (is_uwp : bool)
    : list event :=
  [processing url; getting_info; EvFetch url;
   EvTable (table_columns is_uwp) (rows_of is_uwp 1 assets);
   EvPrint (String (ascii_of_nat 10)
      "[yellow]Enter the number of the asset to download, or 'q' to quit:[/yellow]");
   EvPrompt "Your choice"].

(** What one call of [download_asset] may do: its events concern the
    asset's own url and destination only. *)
Definition footprint (E : env) (a : asset) (dir : option string) (ev : event) : Prop :=
  match ev with
  | EvGet u => a !! "url" = Some u
  | EvOpen q | EvWrite q _ | EvClose q =>
      exists name, a !! "name" = Some name /\
                   q = PosixPath.join (effective_dir E dir) name
  | EvMakedirs q => q = effective_dir E dir
  | EvSession t => t = 120
  | EvPrint _ | EvSessionClose => True
  | EvTable _ _ | EvFetch _ | EvPrompt _ => False
  end.

(** The lines whose markup the script fixes. *)
Definition fixed_lines : list string :=
  ["[bold blue]Auto-download mode enabled[/bold blue]";
   "[yellow]Getting product information...[/yellow]";
   "[green]Download completed![/green]";
   "[red]Failed to download asset[/red]";
   "[red]No assets available for download[/red]";
   String (ascii_of_nat 10)
     "[yellow]Enter the number of the asset to download, or 'q' to quit:[/yellow]";
   "[red]Invalid selection[/red]";
   "[red]Invalid input[/red]";
   "[yellow]Running in non-interactive mode. Use --auto flag to automatically download the first asset.[/yellow]";
   "Available Assets"; "No."; "Name"; "Architecture"; "Extension"; "Modified";
   "Locale"; "Your choice"].

(** ** Concrete worlds used in examples *)

Module Examples.

Definition b (s : string) : bytes := list_byte_of_string s.

(** The asset of the example scenario: one UWP bundle. *)
Definition app : asset :=
  list_to_map
    [("name", "App_x64.msixbundle"); ("arch", "x64");
     ("extension", "msixbundle"); ("modified", "2024-01-01");
     ("url", "https://dl.example/App_x64.msixbundle")].

Definition app_arm : asset :=
  list_to_map
    [("name", "App_arm64.msixbundle"); ("arch", "arm64");
     ("extension", "msixbundle"); ("modified", "2024-01-01");
     ("url", "https://dl.example/App_arm64.msixbundle")].

Definition app_neutral : asset :=
  list_to_map
    [("name", "App_neutral.appx"); ("arch", "neutral");
     ("extension", "appx"); ("modified", "2023-12-24");
     ("url", "https://dl.example/App_neutral.appx")].


Definition product : string := "https://apps.microsoft.com/detail/9pdxgncfsczv".

(** A network that answers [o] for the URL of [app] and refuses the rest. *)
Definition net (o : get_outcome) (url : string) : get_outcome :=
  if String.eqb url "https://dl.example/App_x64.msixbundle" then o
  else GetRaises (ClientError "Cannot connect to host").

(** A world: script installed in /opt/tool, nothing denied, ASCII text
    at the prompt and on the console. *)
Definition world (o : get_outcome) (found : exn + (list asset * bool))
    (typed : option string) : env :=
  Env "/opt/tool" (net o) (fun _ => found) typed (fun _ => false)
      PyStr.int Rich.check.

Definition three : exn + (list asset * bool) :=
  inr ([app; app_arm; app_neutral], true).

Definition installer : body_stream :=
  BodyStream [b "INSTALLER_"; b "DATA"] None.

(** The connection drops after the first piece of the body. *)
Definition cut_short : body_stream :=
  BodyStream [b "INSTALLER_"] (Some (ClientError "Connection reset by peer")).

(** A server whose whole body is that first piece. *)
Definition short_body : body_stream :=
  BodyStream [b "INSTALLER_"] None.

Definition not_found : get_outcome :=
  GetResponse 404 (BodyStream [b "Not Found"] None).

Definition server_error : get_outcome :=
  GetResponse 500 (BodyStream [] None).

Definition empty_fs : fs := Fs ∅ ∅.

(** [out/] exists and holds an earlier file under the asset's name. *)
Definition fs_with_old_file : fs :=
  Fs {[ "out" ]} {[ "out/App_x64.msixbundle" := b "OLD" ]}.

(** A world where the operating system refuses to create [/srv/out]. *)
Definition read_only_world : env :=
  Env "/opt/tool" (net (GetResponse 200 installer)) (fun _ => three) None
      (fun p => String.eqb p "/srv/out") PyStr.int Rich.check.

Definition ok_world : env := world (GetResponse 200 installer) three None.
Definition reset_world : env := world (GetResponse 200 cut_short) three None.
Definition short_world : env := world (GetResponse 200 short_body) three None.
Definition not_found_world : env := world not_found three None.
Definition server_error_world : env := world server_error three None.



End Examples.

(** ** Vocabulary of the further properties *)

(** The first key [table.add_row] misses in an asset, in the order it
    reads them. *)
Definition missing_key (is_uwp : bool) (a : asset) : option string :=
  match a !! "name" with
  | None => Some "name"
  | Some _ =>
      match a !! "arch" with
      | None => Some "arch"
      | Some _ =>
          match a !! "extension" with
          | None => Some "extension"
          | Some _ =>
              if is_uwp then
                match a !! "modified" with
                | None => Some "modified"
                | Some _ => None
                end
              else None
          end
      end
  end.

(** The key the loop of [display_assets_table] stops at, if any. *)
Fixpoint first_missing (is_uwp : bool) (assets : list asset) : option string :=
  match assets with
  | [] => None
  | a :: rest =>
      match missing_key is_uwp a with
      | Some k => Some k
      | None => first_missing is_uwp rest
      end
  end.

(** The same world with another answer at the prompt. *)
Definition with_answer (E : env) (typed : option string) : env :=
  Env (script_dir E) (server E) (fetch_assets E) typed (denied E)
      (int_of E) (markup_error E).

(** What [main] prints first: one line, two in auto mode. *)
Definition opening (url : string) (auto_download : bool) : list event :=
  processing url :: (if auto_download then [auto_enabled] else []).

(** Decimal digits only. *)
Fixpoint all_digits (s : string) : bool :=
  match s with
  | EmptyString => true
  | String c r =>
      match PyStr.digit_val c with
      | Some _ => all_digits r
      | None => false
      end
  end.

(** A sign or a digit of a printed integer. *)
Definition is_sign_or_digit (c : ascii) : bool :=
  match PyStr.digit_val c with
  | Some _ => true
  | None => Ascii.eqb c "-"%char
  end.

(** ** Proof automation *)

Ltac run_simpl :=
  cbv beta iota zeta delta
    [bind ret raise do_event try_except try_except_if finally with_session
     with_get with_open_wb console_print_fixed file_close getitem os_path_exists
     result final events negb];
  cbn [app].


(** * Properties *)

(** ** Streaming *)

Lemma chunk_size_pos : chunk_size <> 0%nat.
Proof. unfold chunk_size. lia. Qed.

Lemma chunk_size_val : Z.of_nat chunk_size = 8192.
Proof. unfold chunk_size. lia. Qed.

Lemma split_buffer_concat (n fuel : nat) (buf : bytes) :
  n <> 0%nat -> (length buf <= fuel)%nat -> concat (split_buffer fuel n buf) = buf.
Proof.
  intros Hn. revert buf. induction fuel as [|k IH]; intros buf Hlen.
  - destruct buf; simpl in *; [reflexivity | lia].
  - destruct buf as [|x buf]; [reflexivity|].
    cbn [split_buffer concat]. rewrite IH.
    + apply take_drop.
    + rewrite length_drop. simpl in *. lia.
Qed.

Lemma split_buffer_bounds (n fuel : nat) (buf : bytes) :
  n <> 0%nat ->
  Forall (fun c : bytes => (1 <= length c <= n)%nat) (split_buffer fuel n buf).
Proof.
  intros Hn. revert buf. induction fuel as [|k IH]; intros buf; [constructor|].
  destruct buf as [|x buf]; [constructor|].
  cbn [split_buffer]. constructor; [|apply IH].
  rewrite length_take. simpl. lia.
Qed.

Lemma iter_chunked_pos (n : nat) (c : body_stream) :
  n <> 0%nat ->
  iter_chunked n c =
    (flat_map (fun data => split_buffer (length data) n data) (arrivals c), ending c).
Proof. destruct n; [congruence | reflexivity]. Qed.

Lemma iter_chunked_concat (n : nat) (c : body_stream) :
  n <> 0%nat -> concat (fst (iter_chunked n c)) = concat (arrivals c).
Proof.
  intros Hn. rewrite iter_chunked_pos by assumption. cbn [fst].
  induction (arrivals c) as [|d ds IH]; [reflexivity|].
  cbn [flat_map concat]. rewrite concat_app, IH, split_buffer_concat; auto.
Qed.

Lemma iter_chunked_bounds (n : nat) (c : body_stream) :
  Forall (fun ch : bytes => (1 <= length ch <= n)%nat) (fst (iter_chunked n c)).
Proof.
  destruct n as [|n]; [constructor|].
  rewrite iter_chunked_pos by discriminate. cbn [fst].
  induction (arrivals c) as [|d ds IH]; [constructor|].
  cbn [flat_map]. apply Forall_app. split; [|exact IH].
  apply split_buffer_bounds. discriminate.
Qed.

Lemma iter_chunked_ending (n : nat) (c : body_stream) :
  n <> 0%nat -> snd (iter_chunked n c) = ending c.
Proof. intros Hn. rewrite iter_chunked_pos by assumption. reflexivity. Qed.

Lemma for_each_write_run (p : string) (chunks : list bytes) (D : gset string)
    (F : gmap string bytes) (old : bytes) :
  for_each chunks (file_write p) (Fs D (<[ p := old ]> F)) =
    Run (Ok tt) (Fs D (<[ p := old ++ concat chunks ]> F))
        (map (EvWrite p) chunks).
Proof.
  revert old. induction chunks as [|c cs IH]; intros old.
  - cbn. rewrite app_nil_r. reflexivity.
  - cbn [for_each]. unfold bind at 1. unfold file_write at 1. cbn [files dirs].
    rewrite lookup_insert_eq, insert_insert_eq.
    rewrite IH. cbn [map concat app]. rewrite <- app_assoc. reflexivity.
Qed.

Lemma async_for_write_run (p : string) (it : list bytes * option exn)
    (D : gset string) (F : gmap string bytes) (old : bytes) :
  async_for it (file_write p) (Fs D (<[ p := old ]> F)) =
    Run (match snd it with None => Ok tt | Some e => Raised e end)
        (Fs D (<[ p := old ++ concat (fst it) ]> F))
        (map (EvWrite p) (fst it)).
Proof.
  unfold async_for, bind. rewrite for_each_write_run.
  destruct (snd it); cbv [ret raise]; rewrite app_nil_r; reflexivity.
Qed.

(** ** Strings and paths *)

Lemma append_cons (c : ascii) (x y : string) : String c x +:+ y = String c (x +:+ y).
Proof. reflexivity. Qed.

Lemma append_nil_l (y : string) : "" +:+ y = y.
Proof. reflexivity. Qed.

Lemma append_nil_r (x : string) : x +:+ "" = x.
Proof. induction x as [|c x IH]; [reflexivity|]. rewrite append_cons, IH. reflexivity. Qed.

Lemma append_assoc_str (x y z : string) : (x +:+ y) +:+ z = x +:+ (y +:+ z).
Proof.
  induction x as [|c x IH]; [reflexivity|]. rewrite !append_cons, IH. reflexivity.
Qed.

Lemma length_append (x y : string) :
  String.length (x +:+ y) = (String.length x + String.length y)%nat.
Proof.
  induction x as [|c x IH]; [reflexivity|].
  rewrite append_cons. cbn [String.length]. rewrite IH. reflexivity.
Qed.

Lemma is_prefix_refl (p : string) : is_prefix p p = true.
Proof.
  induction p as [|c p IH]; [reflexivity|].
  cbn [is_prefix]. rewrite Ascii.eqb_refl. exact IH.
Qed.

Lemma is_prefix_nil (q : string) : is_prefix q "" = true -> q = "".
Proof. destruct q; [reflexivity | discriminate]. Qed.

Lemma is_prefix_trans (a b c : string) :
  is_prefix a b = true -> is_prefix b c = true -> is_prefix a c = true.
Proof.
  revert b c. induction a as [|x a IH]; intros b c Hab Hbc; [reflexivity|].
  destruct b as [|y b]; [discriminate|]. destruct c as [|z c]; [discriminate|].
  cbn [is_prefix] in *.
  apply andb_true_iff in Hab as [Hxy Hab]. apply andb_true_iff in Hbc as [Hyz Hbc].
  apply Ascii.eqb_eq in Hxy. subst y. rewrite Hyz. cbn [andb].
  exact (IH b c Hab Hbc).
Qed.

Lemma is_prefix_length (q p : string) :
  is_prefix q p = true -> (String.length q <= String.length p)%nat.
Proof.
  revert p. induction q as [|c q IH]; intros p H; cbn [String.length]; [lia|].
  destruct p as [|c' p]; [discriminate|]. cbn [is_prefix] in H.
  apply andb_true_iff in H as [_ H]. specialize (IH p H). cbn [String.length]. lia.
Qed.

Lemma is_prefix_append (q x : string) : is_prefix q (q +:+ x) = true.
Proof.
  induction q as [|c q IH]; [reflexivity|].
  rewrite append_cons. cbn [is_prefix]. rewrite Ascii.eqb_refl. exact IH.
Qed.

Lemma split_raw_append (p : string) :
  fst (PosixPath.split_raw p) +:+ snd (PosixPath.split_raw p) = p.
Proof.
  induction p as [|c r IH]; [reflexivity|].
  cbn [PosixPath.split_raw].
  destruct (PosixPath.no_sep r).
  - destruct (Ascii.eqb c PosixPath.sep); reflexivity.
  - destruct (PosixPath.split_raw r) as [h t]. cbn [fst snd] in *.
    rewrite append_cons, IH. reflexivity.
Qed.

Lemma rstrip_sep_prefix (s : string) : is_prefix (PosixPath.rstrip_sep s) s = true.
Proof.
  induction s as [|c r IH]; [reflexivity|].
  cbn [PosixPath.rstrip_sep].
  destruct (PosixPath.all_sep (String c r)); [reflexivity|].
  cbn [is_prefix]. rewrite Ascii.eqb_refl. exact IH.
Qed.

(** Both parts of [posixpath.split(p)] come from [p]: the head is a
    leading part of it, and the two together are not longer. *)
Lemma split_parts (p head tail : string) :
  PosixPath.split p = (head, tail) ->
  is_prefix head p = true /\
  (String.length head + String.length tail <= String.length p)%nat.
Proof.
  unfold PosixPath.split. intros H.
  pose proof (split_raw_append p) as Happ.
  destruct (PosixPath.split_raw p) as [h t]. cbn [fst snd] in Happ.
  injection H as Hh Ht. subst tail.
  assert (Hraw : is_prefix h p = true) by (rewrite <- Happ; apply is_prefix_append).
  assert (Hlen : (String.length h + String.length t = String.length p)%nat)
    by (rewrite <- Happ, length_append; reflexivity).
  destruct (negb (String.eqb h "") && negb (PosixPath.all_sep h)); subst head.
  - pose proof (rstrip_sep_prefix h) as Hpre.
    split; [exact (is_prefix_trans _ _ _ Hpre Hraw)|].
    apply is_prefix_length in Hpre. lia.
  - split; [exact Hraw | lia].
Qed.

Lemma isabs_append (x y : string) :
  PosixPath.isabs x = true -> PosixPath.isabs (x +:+ y) = true.
Proof. destruct x; [discriminate | intros H; exact H]. Qed.

Lemma isabs_join (d n : string) :
  PosixPath.isabs d = true -> PosixPath.isabs (PosixPath.join d n) = true.
Proof.
  intros Hd. unfold PosixPath.join.
  destruct (PosixPath.startswith_sep n) eqn:Hn; cbn [orb]; [exact Hn|].
  destruct (String.eqb_spec d "") as [->|_]; [discriminate|].
  destruct (PosixPath.endswith_sep d); apply isabs_append; exact Hd.
Qed.

Lemma isabs_join_eq (d n : string) :
  PosixPath.isabs (PosixPath.join d n) = PosixPath.isabs n || PosixPath.isabs d.
Proof.
  unfold PosixPath.join, PosixPath.isabs.
  destruct (PosixPath.startswith_sep n) eqn:Hn; cbn [orb]; [exact Hn|].
  destruct (String.eqb_spec d "") as [->|Hd]; [exact Hn|].
  destruct d as [|c d]; [contradiction|].
  destruct (PosixPath.endswith_sep (String c d)); reflexivity.
Qed.

Lemma isabs_default_dir (E : env) :
  PosixPath.isabs (script_dir E) = true ->
  PosixPath.isabs (effective_dir E None) = true.
Proof. apply isabs_join. Qed.

Lemma join_absolute (d n : string) :
  PosixPath.isabs n = true -> PosixPath.join d n = n.
Proof. unfold PosixPath.join, PosixPath.isabs. intros ->. reflexivity. Qed.






(** ** [os.makedirs] *)

Lemma makedirs_parts_shorter (name head tail : string) :
  makedirs_parts name = (head, tail) ->
  tail <> "" ->
  is_prefix head name = true /\ (String.length head < String.length name)%nat.
Proof.
  unfold makedirs_parts. intros H Htail.
  destruct (PosixPath.split name) as [h0 t0] eqn:H0.
  destruct (split_parts name h0 t0 H0) as [Hpre0 Hlen0].
  destruct (String.eqb_spec t0 "") as [->|Ht0].
  - destruct (split_parts h0 head tail H) as [Hpre Hlen].
    split; [exact (is_prefix_trans _ _ _ Hpre Hpre0)|].
    destruct tail; [contradiction|]. cbn [String.length] in *. lia.
  - injection H as <- <-. split; [exact Hpre0|].
    destruct t0; [contradiction|]. cbn [String.length] in *. lia.
Qed.

Lemma makedirs_from_step (E : env) (k : nat) (name : string) :
  makedirs_from E (S k) name =
    (let (head, tail) := makedirs_parts name in
     if negb (String.eqb head "") && negb (String.eqb tail "") then
       let* there := os_path_exists head in
       if negb there then
         let* _ := try_except_if is_FileExistsError (makedirs_from E k head)
                     (fun _ => ret tt) in
         if String.eqb tail "." then os_same_dir name
         else os_mkdir E name
       else os_mkdir E name
     else os_mkdir E name).
Proof. reflexivity. Qed.

Lemma makedirs_from_zero (E : env) (name : string) :
  makedirs_from E 0 name = os_mkdir E name.
Proof. unfold makedirs_from. destruct (makedirs_parts name). reflexivity. Qed.

Lemma path_exists_in_dirs (s : fs) (p : string) :
  p <> "" -> p ∈ dirs s -> path_exists s p = true.
Proof.
  intros Hne Hin. unfold path_exists.
  destruct (String.eqb_spec p "") as [?|_]; [contradiction|]. cbn [negb andb].
  rewrite (bool_decide_eq_true_2 _ Hin). rewrite orb_true_r. reflexivity.
Qed.

Lemma path_exists_same (s s' : fs) (p : string) :
  files s' = files s ->
  (p ∈ dirs s' -> p ∈ dirs s) ->
  path_exists s' p = true -> path_exists s p = true.
Proof.
  unfold path_exists. intros Hf Hd. rewrite Hf.
  destruct (negb (String.eqb p "")); [cbn [andb]|discriminate].
  destruct (PosixPath.all_sep p); [reflexivity|]. cbn [orb].
  intros H. apply orb_true_iff in H as [H|H]; apply orb_true_iff; [left|right; exact H].
  apply bool_decide_eq_true. apply bool_decide_eq_true in H. auto.
Qed.

Lemma path_exists_more (s s' : fs) (p : string) :
  files s' = files s ->
  dirs s ⊆ dirs s' ->
  path_exists s p = true -> path_exists s' p = true.
Proof.
  unfold path_exists. intros Hf Hd. rewrite Hf.
  destruct (negb (String.eqb p "")); [cbn [andb]|discriminate].
  destruct (PosixPath.all_sep p); [reflexivity|]. cbn [orb].
  intros H. apply orb_true_iff in H as [H|H]; apply orb_true_iff; [left|right; exact H].
  apply bool_decide_eq_true. apply bool_decide_eq_true in H. auto.
Qed.

(** What [os.mkdir] does. *)
Lemma os_mkdir_cases (E : env) (p : string) (s : fs) :
  (os_mkdir E p s = Run (Ok tt) (Fs ({[ p ]} ∪ dirs s) (files s)) [] /\ p <> "") \/
  (exists e, os_mkdir E p s = Run (Raised e) s [] /\
             (is_FileExistsError e = true -> path_exists s p = true)).
Proof.
  unfold os_mkdir.
  destruct (String.eqb_spec p "") as [->|Hne].
  { right. eexists. split; [reflexivity | discriminate]. }
  destruct (path_exists s p) eqn:Hex.
  { right. eexists. split; [reflexivity | auto]. }
  destruct (denied E p).
  { right. eexists. split; [reflexivity | discriminate]. }
  left. auto.
Qed.

Lemma made_for_parent (name head : string) (r r' : outcome unit) (q : string) :
  is_prefix head name = true ->
  (String.length head < String.length name)%nat ->
  made_for head r q -> made_for name r' q.
Proof.
  intros Hpre Hlen [Hq _]. split; [exact (is_prefix_trans _ _ _ Hq Hpre)|].
  left. apply is_prefix_length in Hq. lia.
Qed.

(** What the recursion of [os.makedirs] does: it prints nothing, keeps
    the files and the directories there, adds only leading parts of
    [name], leaves [name] a directory when it succeeds, and raises
    [FileExistsError] only when [name] exists. *)
Lemma makedirs_from_spec (E : env) (fuel : nat) (name : string) (s : fs) :
  exists r s',
    makedirs_from E fuel name s = Run r s' [] /\
    files s' = files s /\
    dirs s ⊆ dirs s' /\
    (forall q, q ∈ dirs s' -> q ∈ dirs s \/ made_for name r q) /\
    (r = Ok tt -> name ∈ dirs s' /\ name <> "") /\
    (forall e, r = Raised e -> is_FileExistsError e = true ->
               path_exists s name = true).
Proof.
  assert (Hmk : forall name s,
    exists r s',
      os_mkdir E name s = Run r s' [] /\
      files s' = files s /\
      dirs s ⊆ dirs s' /\
      (forall q, q ∈ dirs s' -> q ∈ dirs s \/ made_for name r q) /\
      (r = Ok tt -> name ∈ dirs s' /\ name <> "") /\
      (forall e, r = Raised e -> is_FileExistsError e = true ->
                 path_exists s name = true)).
  { clear. intros name s.
    destruct (os_mkdir_cases E name s) as [[Hrun Hne] | (e & Hrun & Hexists)];
      rewrite Hrun; do 2 eexists; (split; [reflexivity|]); cbn [files dirs].
    - split; [reflexivity|]. split; [apply union_subseteq_r|]. split; [|split].
      + intros q Hq. apply elem_of_union in Hq as [Hq|Hq]; [|auto].
        apply elem_of_singleton in Hq. subst q. right.
        split; [apply is_prefix_refl | auto].
      + intros _. split; [|exact Hne].
        apply elem_of_union_l, elem_of_singleton. reflexivity.
      + discriminate.
    - split; [reflexivity|]. split; [reflexivity|]. split; [auto|].
      split; [discriminate|]. intros e' [= <-]. exact Hexists. }
  revert name s. induction fuel as [|k IH]; intros name s.
  { rewrite makedirs_from_zero. apply Hmk. }
  rewrite makedirs_from_step.
  destruct (makedirs_parts name) as [head tail] eqn:Hparts.
  destruct (String.eqb_spec head "") as [Hhead|Hhead]; cbn [negb andb]; [apply Hmk|].
  destruct (String.eqb_spec tail "") as [Htail|Htail]; cbn [negb]; [apply Hmk|].
  destruct (makedirs_parts_shorter name head tail Hparts Htail) as [Hpre Hlen].
  unfold bind at 1. unfold os_path_exists.
  destruct (path_exists s head) eqn:Hex; cbn [negb].
  { destruct (Hmk name s) as (r & s' & Hrun & Hrest).
    rewrite Hrun. exists r, s'. split; [reflexivity | exact Hrest]. }
  destruct (IH head s) as (r1 & s1 & Hrun1 & Hf1 & Hd1 & Hnew1 & Hok1 & Hexists1).
  assert (Hnew1' : forall r' q, q ∈ dirs s1 -> q ∈ dirs s \/ made_for name r' q).
  { intros r' q Hq. destruct (Hnew1 q Hq) as [?|Hm]; [auto|].
    right. exact (made_for_parent name head r1 r' q Hpre Hlen Hm). }
  assert (Hname : name <> "").
  { intros ->. cbn [String.length] in Hlen. lia. }
  unfold bind, try_except_if. rewrite Hrun1.
  destruct r1 as [[]|e1].
  2: { destruct (is_FileExistsError e1) eqn:Hfe.
       { rewrite (Hexists1 e1 eq_refl Hfe) in Hex. discriminate. }
       exists (Raised e1), s1. split; [reflexivity|].
       split; [exact Hf1|]. split; [exact Hd1|]. split; [apply Hnew1'|].
       split; [discriminate|]. intros e' [= <-]. congruence. }
  destruct (String.eqb tail ".").
  { unfold os_same_dir. exists (Ok tt). eexists. split; [reflexivity|].
    cbn [files dirs]. split; [exact Hf1|].
    split; [etrans; [exact Hd1 | apply union_subseteq_r]|]. split; [|split].
    - intros q Hq. apply elem_of_union in Hq as [Hq|Hq]; [|apply Hnew1'; exact Hq].
      apply elem_of_singleton in Hq. subst q. right.
      split; [apply is_prefix_refl | auto].
    - intros _. split; [|exact Hname].
      apply elem_of_union_l, elem_of_singleton. reflexivity.
    - discriminate. }
  destruct (Hmk name s1) as (r & s' & Hrun & Hf & Hd & Hnew & Hok & Hexists).
  rewrite Hrun. exists r, s'. split; [reflexivity|].
  split; [congruence|]. split; [etrans; eassumption|]. split; [|split].
  - intros q Hq. destruct (Hnew q Hq) as [Hq1|Hm]; [|auto].
    apply Hnew1'. exact Hq1.
  - exact Hok.
  - intros e Hr Hfe. specialize (Hexists e Hr Hfe).
    apply (path_exists_same s s1 name Hf1); [|exact Hexists].
    intros Hin. destruct (Hnew1 name Hin) as [?|[Hp _]]; [assumption|].
    apply is_prefix_length in Hp. lia.
Qed.

(** One round of the recursion, as a run. *)
Lemma makedirs_from_step_run (E : env) (k : nat) (name head tail : string) (s : fs) :
  makedirs_parts name = (head, tail) ->
  makedirs_from E (S k) name s =
    if negb (String.eqb head "") && negb (String.eqb tail "")
       && negb (path_exists s head) then
      match makedirs_from E k head s with
      | Run (Ok _) s1 ev1 =>
          match (if String.eqb tail "." then os_same_dir name else os_mkdir E name) s1 with
          | Run r s2 ev2 => Run r s2 (ev1 ++ ev2)
          end
      | Run (Raised e) s1 ev1 =>
          if is_FileExistsError e then
            match (if String.eqb tail "." then os_same_dir name else os_mkdir E name) s1 with
            | Run r s2 ev2 => Run r s2 ((ev1 ++ []) ++ ev2)
            end
          else Run (Raised e) s1 ev1
      end
    else os_mkdir E name s.
Proof.
  intros Hparts. rewrite makedirs_from_step, Hparts.
  destruct (negb (String.eqb head "") && negb (String.eqb tail "")); [|reflexivity].
  unfold bind, os_path_exists, try_except_if, ret.
  destruct (path_exists s head); cbn [negb andb].
  - destruct (os_mkdir E name s). reflexivity.
  - destruct (makedirs_from E k head s) as [[[]|e] s1 ev1].
    + destruct (String.eqb tail "."); [unfold os_same_dir | destruct (os_mkdir E name s1)];
        reflexivity.
    + destruct (is_FileExistsError e); [|reflexivity].
      destruct (String.eqb tail "."); [unfold os_same_dir | destruct (os_mkdir E name s1)];
        reflexivity.
Qed.

(** A failed [makedirs] fails again, in the same way and without
    another change, in the file system it left. *)
Lemma makedirs_from_again (E : env) (fuel : nat) (name : string) (s s' : fs)
    (e : exn) (ev : list event) :
  makedirs_from E fuel name s = Run (Raised e) s' ev ->
  makedirs_from E fuel name s' = Run (Raised e) s' [].
Proof.
  assert (Hmk : forall name s s' e ev,
            os_mkdir E name s = Run (Raised e) s' ev ->
            s' = s /\ os_mkdir E name s' = Run (Raised e) s' []).
  { clear. intros name s s' e ev.
    destruct (os_mkdir_cases E name s) as [[Hrun _] | (e' & Hrun & _)];
      rewrite Hrun; [discriminate|].
    intros [= <- <- <-]. split; [reflexivity | exact Hrun]. }
  revert name s s' e ev. induction fuel as [|k IH]; intros name s s' e ev H.
  { rewrite makedirs_from_zero in *. exact (proj2 (Hmk _ _ _ _ _ H)). }
  destruct (makedirs_parts name) as [head tail] eqn:Hparts.
  rewrite (makedirs_from_step_run E k name head tail s Hparts) in H.
  rewrite (makedirs_from_step_run E k name head tail s' Hparts).
  destruct (String.eqb_spec head "") as [Hhead|Hhead]; cbn [negb andb] in *;
    [exact (proj2 (Hmk _ _ _ _ _ H))|].
  destruct (String.eqb_spec tail "") as [Htail|Htail]; cbn [negb andb] in *;
    [exact (proj2 (Hmk _ _ _ _ _ H))|].
  destruct (makedirs_parts_shorter name head tail Hparts Htail) as [Hpre Hlen].
  destruct (path_exists s head) eqn:Hex; cbn [negb] in H.
  { destruct (Hmk _ _ _ _ _ H) as [-> Hrun]. rewrite Hex. exact Hrun. }
  destruct (makedirs_from_spec E k head s)
    as (r1 & s1 & Hrun1 & Hf1 & Hd1 & Hnew1 & Hok1 & Hexists1).
  rewrite Hrun1 in H.
  destruct r1 as [[]|e1].
  2: { destruct (is_FileExistsError e1) eqn:Hfe.
       { rewrite (Hexists1 e1 eq_refl Hfe) in Hex. discriminate. }
       injection H as <- <- <-.
       assert (Hex1 : path_exists s1 head = false).
       { destruct (path_exists s1 head) eqn:Hex1; [|reflexivity].
         rewrite <- Hex. symmetry.
         apply (path_exists_same s s1 head Hf1); [|exact Hex1].
         intros Hin. destruct (Hnew1 head Hin) as [?|[_ [Hl|Hr]]];
           [assumption | lia | discriminate]. }
       rewrite Hex1. cbn [negb].
       rewrite (IH head s s1 e1 [] Hrun1), Hfe. reflexivity. }
  destruct (Hok1 eq_refl) as [Hin1 Hne1].
  destruct (String.eqb tail ".").
  { unfold os_same_dir in H. discriminate. }
  destruct (os_mkdir E name s1) as [r2 s2 ev2] eqn:Hrun2.
  injection H as -> -> <-.
  destruct (Hmk _ _ _ _ _ Hrun2) as [-> Hrun].
  rewrite (path_exists_in_dirs s1 head Hne1 Hin1). cbn [negb]. exact Hrun.
Qed.

(** The length of the path is fuel enough: more changes nothing. *)
Lemma makedirs_fuel_more (E : env) (fuel : nat) (name : string) (s : fs) :
  (String.length name <= fuel)%nat ->
  makedirs_from E (S fuel) name s = makedirs_from E fuel name s.
Proof.
  revert name s. induction fuel as [|k IH]; intros name s Hlen.
  - rewrite makedirs_from_step, makedirs_from_zero.
    destruct (makedirs_parts name) as [head tail] eqn:Hparts.
    destruct (String.eqb_spec head "") as [Hhead|Hhead]; cbn [negb andb]; [reflexivity|].
    destruct (String.eqb_spec tail "") as [Htail|Htail]; cbn [negb]; [reflexivity|].
    destruct (makedirs_parts_shorter name head tail Hparts Htail) as [_ Hlt]. lia.
  - rewrite (makedirs_from_step E (S k)), (makedirs_from_step E k).
    destruct (makedirs_parts name) as [head tail] eqn:Hparts.
    destruct (String.eqb_spec head "") as [Hhead|Hhead]; cbn [negb andb]; [reflexivity|].
    destruct (String.eqb_spec tail "") as [Htail|Htail]; cbn [negb]; [reflexivity|].
    destruct (makedirs_parts_shorter name head tail Hparts Htail) as [_ Hlt].
    unfold bind at 1 3. unfold os_path_exists.
    destruct (path_exists s head); cbn [negb]; [reflexivity|].
    unfold bind, try_except_if. rewrite IH by lia. reflexivity.
Qed.

Lemma makedirs_fuel_enough (E : env) (fuel : nat) (name : string) (s : fs) :
  (String.length name <= fuel)%nat ->
  makedirs_from E fuel name s = makedirs_from E (String.length name) name s.
Proof.
  induction fuel as [|k IH]; intros Hlen.
  - replace (String.length name) with 0%nat by lia. reflexivity.
  - destruct (Nat.eq_dec (String.length name) (S k)) as [->|Hne]; [reflexivity|].
    rewrite makedirs_fuel_more by lia. apply IH. lia.
Qed.

(** [os.makedirs] as a whole. *)
Lemma os_makedirs_spec (E : env) (d : string) (s : fs) :
  (exists s',
      os_makedirs E d s = Run (Ok tt) s' [EvMakedirs d] /\
      files s' = files s /\ dirs s ⊆ dirs s' /\ d ∈ dirs s' /\ d <> "" /\
      (forall q, q ∈ dirs s' -> q ∈ dirs s \/ is_prefix q d = true)) \/
  (exists e s',
      os_makedirs E d s = Run (Raised e) s' [] /\
      files s' = files s /\ dirs s ⊆ dirs s' /\
      (forall q, q ∈ dirs s' ->
                 q ∈ dirs s \/
                 (is_prefix q d = true /\ (String.length q < String.length d)%nat)) /\
      os_makedirs E d s' = Run (Raised e) s' []).
Proof.
  destruct (makedirs_from_spec E (String.length d) d s)
    as (r & s' & Hrun & Hf & Hd & Hnew & Hok & _).
  pose proof (makedirs_from_again E (String.length d) d s s') as Hagain.
  unfold os_makedirs, bind. rewrite Hrun.
  destruct r as [[]|e].
  - left. exists s'. split; [reflexivity|]. destruct (Hok eq_refl) as [Hin Hne].
    repeat split; try assumption.
    intros q Hq. destruct (Hnew q Hq) as [?|[Hp _]]; auto.
  - right. exists e, s'. split; [reflexivity|]. repeat split; try assumption.
    + intros q Hq. destruct (Hnew q Hq) as [?|[Hp [Hl|Hr]]]; auto. discriminate.
    + rewrite (Hagain e [] Hrun). reflexivity.
Qed.

(** The first two statements of [download_asset], before any continuation. *)
Lemma prepare_dir_run {A} (E : env) (d : string) (k : unit -> M A) (s : fs) :
  dir_ready E s d = true ->
  bind (os_path_exists d)
       (fun there => bind (if negb there then os_makedirs E d else ret tt) k) s =
    match k tt (prepared E s d) with
    | Run r s' ev => Run r s' (prepare_events s d ++ ev)
    end.
Proof.
  unfold dir_ready, prepared, prepare_events. intros Hready.
  unfold bind at 1. unfold os_path_exists.
  destruct (path_exists s d) eqn:Hex; cbn [negb].
  - unfold bind, ret. destruct (k tt s); reflexivity.
  - cbn [orb] in Hready. unfold bind.
    destruct (os_makedirs_spec E d s) as [(s' & Hrun & _) | (e & s' & Hrun & _)];
      rewrite Hrun in *; cbn [result final] in *; [|discriminate].
    destruct (k tt s'); reflexivity.
Qed.

Lemma prepare_dir_fails {A} (E : env) (d : string) (k : unit -> M A) (s : fs) :
  dir_ready E s d = false ->
  exists e,
    result (os_makedirs E d s) = Raised e /\
    bind (os_path_exists d)
         (fun there => bind (if negb there then os_makedirs E d else ret tt) k) s =
      Run (Raised e) (final (os_makedirs E d s)) [].
Proof.
  unfold dir_ready. intros Hready.
  apply orb_false_iff in Hready as [Hex Hno].
  unfold bind at 1. unfold os_path_exists. rewrite Hex. cbn [negb].
  unfold bind.
  destruct (os_makedirs_spec E d s) as [(s' & Hrun & _) | (e & s' & Hrun & _)];
    rewrite Hrun in *; cbn [result final] in *; [discriminate|].
  exists e. split; reflexivity.
Qed.

(** The prepared file system: the files are as they were, the
    directories there stay, the download directory exists, and every
    directory added is a leading part of its path. *)
Lemma files_prepared (E : env) (s : fs) (d : string) :
  files (prepared E s d) = files s.
Proof.
  unfold prepared. destruct (path_exists s d); [reflexivity|].
  destruct (os_makedirs_spec E d s) as [(s' & Hrun & Hf & _) | (e & s' & Hrun & Hf & _)];
    rewrite Hrun; exact Hf.
Qed.

Lemma dirs_prepared_exists (E : env) (s : fs) (d : string) :
  path_exists s d = true -> prepared E s d = s.
Proof. unfold prepared. intros ->. reflexivity. Qed.

Lemma dirs_prepared_keeps (E : env) (s : fs) (d : string) :
  dirs s ⊆ dirs (prepared E s d).
Proof.
  unfold prepared. destruct (path_exists s d); [reflexivity|].
  destruct (os_makedirs_spec E d s)
    as [(s' & Hrun & _ & Hd & _) | (e & s' & Hrun & _ & Hd & _)];
    rewrite Hrun; exact Hd.
Qed.

Lemma dirs_prepared_new (E : env) (s : fs) (d q : string) :
  q ∈ dirs (prepared E s d) -> q ∈ dirs s \/ is_prefix q d = true.
Proof.
  unfold prepared. destruct (path_exists s d); [auto|].
  destruct (os_makedirs_spec E d s)
    as [(s' & Hrun & _ & _ & _ & _ & Hnew) | (e & s' & Hrun & _ & _ & Hnew & _)];
    rewrite Hrun; cbn [final]; intros Hq; destruct (Hnew q Hq); tauto.
Qed.

Lemma dirs_prepared_made (E : env) (s : fs) (d : string) :
  dir_ready E s d = true -> path_exists s d = false -> d ∈ dirs (prepared E s d).
Proof.
  unfold dir_ready, prepared. intros Hready Hex. rewrite Hex in *. cbn [orb] in Hready.
  destruct (os_makedirs_spec E d s)
    as [(s' & Hrun & _ & _ & Hin & _) | (e & s' & Hrun & _)];
    rewrite Hrun in *; cbn [result final] in *; [exact Hin | discriminate].
Qed.




(** ** The runs of [download_asset] *)

Ltac start_download Hready Hname Hacc :=
  unfold download_asset; rewrite prepare_dir_run by exact Hready;
  run_simpl; rewrite Hname; run_simpl;
  unfold console_print at 1; unfold accepted, downloading_text in Hacc;
  rewrite Hacc; run_simpl.

Ltac finish_handler e :=
  unfold handler_run, console_print, download_error, download_error_text, downloading,
    downloading_text;
  destruct (markup_error _ ("[red]Download error: " +:+ str_exn e +:+ "[/red]"));
  cbn [app]; rewrite <- ?app_assoc, ?app_nil_r; reflexivity.

Section DownloadCases.
Variable E : env.
Variable a : asset.
Variable dir : option string.
Variable s : fs.
Variable name : string.
Hypothesis Hname : a !! "name" = Some name.
Hypothesis Hready : dir_ready E s (effective_dir E dir) = true.
Hypothesis Hacc :
  accepted E (downloading_text (PosixPath.join (effective_dir E dir) name)).

Let d := effective_dir E dir.
Let p := PosixPath.join d name.

Lemma download_no_url_run :
  a !! "url" = None ->
  download_asset E a dir s =
    handler_run E (KeyError "url") (prepared E s d)
      (prepare_events s d ++ downloading p :: [EvSession 120; EvSessionClose]).
Proof.
  intros Hurl. start_download Hready Hname Hacc; fold d. rewrite Hurl.
  finish_handler (KeyError "url").
Qed.

Lemma download_get_raises_run (url : string) (e : exn) :
  a !! "url" = Some url ->
  server E url = GetRaises e ->
  download_asset E a dir s =
    handler_run E e (prepared E s d)
      (prepare_events s d ++ downloading p :: [EvSession 120; EvGet url; EvSessionClose]).
Proof.
  intros Hurl Hsrv. start_download Hready Hname Hacc; fold d. rewrite Hurl. run_simpl.
  rewrite Hsrv. finish_handler e.
Qed.

Lemma download_status_run (url : string) (st : Z) (c : body_stream) :
  a !! "url" = Some url ->
  server E url = GetResponse st c ->
  st <> 200 ->
  download_asset E a dir s =
    Run (Ok None) (prepared E s d)
        (prepare_events s d ++
         [downloading p; EvSession 120; EvGet url;
          download_failed_status st;
          EvSessionClose]).
Proof.
  intros Hurl Hsrv Hst. start_download Hready Hname Hacc; fold d. rewrite Hurl. run_simpl.
  rewrite Hsrv.
  destruct (Z.eqb_spec st 200) as [?|_]; [contradiction|]. reflexivity.
Qed.

Lemma download_open_fails_run (url : string) (c : body_stream) :
  a !! "url" = Some url ->
  server E url = GetResponse 200 c ->
  can_open E (prepared E s d) p = false ->
  exists e,
    result (open_wb E p (prepared E s d)) = Raised e /\
    download_asset E a dir s =
      handler_run E e (prepared E s d)
        (prepare_events s d ++
         downloading p :: [EvSession 120; EvGet url; EvSessionClose]).
Proof.
  intros Hurl Hsrv Hopen. unfold can_open in Hopen.
  start_download Hready Hname Hacc; fold d. rewrite Hurl. run_simpl. rewrite Hsrv.
  cbn [Z.eqb Pos.eqb]. fold p. unfold open_wb.
  destruct (String.eqb p ""); [eexists; split; [reflexivity | finish_handler (FileNotFoundError p)]|].
  destruct (PosixPath.all_sep p || bool_decide (p ∈ dirs (prepared E s d)));
    [eexists; split; [reflexivity | finish_handler (IsADirectoryError p)]|].
  destruct (denied E p);
    [eexists; split; [reflexivity | finish_handler (PermissionError p)] | discriminate].
Qed.

Lemma download_stream_run (url : string) (c : body_stream) :
  a !! "url" = Some url ->
  server E url = GetResponse 200 c ->
  can_open E (prepared E s d) p = true ->
  let chunks := fst (iter_chunked chunk_size c) in
  let s' := Fs (dirs (prepared E s d))
               (<[ p := concat (arrivals c) ]> (files (prepared E s d))) in
  download_asset E a dir s =
    match ending c with
    | None =>
        Run (Ok (Some p)) s'
            (prepare_events s d ++
             [downloading p; EvSession 120; EvGet url; EvOpen p]
             ++ map (EvWrite p) chunks
             ++ [EvClose p; download_completed; EvSessionClose])
    | Some e =>
        handler_run E e s'
          (prepare_events s d ++
           downloading p ::
           [EvSession 120; EvGet url; EvOpen p] ++ map (EvWrite p) chunks
           ++ [EvClose p; EvSessionClose])
    end.
Proof.
  intros Hurl Hsrv Hopen chunks s'. unfold can_open in Hopen.
  apply andb_true_iff in Hopen as [Hopen Hden].
  apply andb_true_iff in Hopen as [Hne Hdir].
  start_download Hready Hname Hacc; fold d. rewrite Hurl. run_simpl. rewrite Hsrv.
  cbn [Z.eqb Pos.eqb]. fold p. unfold open_wb.
  destruct (String.eqb p ""); [discriminate|].
  destruct (PosixPath.all_sep p || bool_decide (p ∈ dirs (prepared E s d)));
    [discriminate|].
  destruct (denied E p); [discriminate|].
  cbn [dirs files]. rewrite async_for_write_run.
  rewrite iter_chunked_ending by apply chunk_size_pos.
  rewrite iter_chunked_concat by apply chunk_size_pos.
  cbn [app]. fold chunks. subst s'.
  destruct (ending c) as [e|]; cbn [app].
  - unfold handler_run, console_print, download_error, download_error_text, downloading,
      downloading_text.
    destruct (markup_error _ ("[red]Download error: " +:+ str_exn e +:+ "[/red]"));
      cbn [app]; rewrite <- ?app_assoc, ?app_nil_r; cbn [app];
      rewrite <- ?app_assoc; reflexivity.
  - rewrite <- ?app_assoc. reflexivity.
Qed.
End DownloadCases.

Lemma download_no_name_run (E : env) (a : asset) (dir : option string) (s : fs) :
  dir_ready E s (effective_dir E dir) = true ->
  a !! "name" = None ->
  download_asset E a dir s =
    Run (Raised (KeyError "name")) (prepared E s (effective_dir E dir))
        (prepare_events s (effective_dir E dir)).
Proof.
  intros Hready Hname. unfold download_asset.
  rewrite prepare_dir_run by exact Hready. run_simpl. rewrite Hname.
  rewrite app_nil_r. reflexivity.
Qed.

(** The line of the destination path, printed before the [try] block,
    is rejected. *)
Lemma download_path_rejected_run (E : env) (a : asset) (dir : option string) (s : fs)
    (name m : string) :
  dir_ready E s (effective_dir E dir) = true ->
  a !! "name" = Some name ->
  markup_error E (downloading_text (PosixPath.join (effective_dir E dir) name))
    = Some m ->
  download_asset E a dir s =
    Run (Raised (MarkupError m)) (prepared E s (effective_dir E dir))
        (prepare_events s (effective_dir E dir)).
Proof.
  intros Hready Hname Hrej. unfold download_asset.
  rewrite prepare_dir_run by exact Hready. run_simpl. rewrite Hname. run_simpl.
  unfold console_print at 1. unfold downloading_text in Hrej. rewrite Hrej.
  rewrite app_nil_r. reflexivity.
Qed.

(** When the directory is neither there nor creatable, [os.makedirs]
    raises before anything else happens. *)
Lemma download_dir_error_run (E : env) (a : asset) (dir : option string) (s : fs) :
  dir_ready E s (effective_dir E dir) = false ->
  exists e,
    result (os_makedirs E (effective_dir E dir) s) = Raised e /\
    download_asset E a dir s =
      Run (Raised e) (final (os_makedirs E (effective_dir E dir) s)) [].
Proof.
  intros Hready. unfold download_asset.
  match goal with
  | |- exists e, _ /\ bind _ (fun there => bind _ ?k) _ = _ =>
      destruct (prepare_dir_fails E (effective_dir E dir) k s Hready) as (e & He & Hrun)
  end.
  exists e. split; [exact He | exact Hrun].
Qed.

(** [download_asset] always goes one of the ways of [download_spec]. *)
Lemma download_asset_spec (E : env) (a : asset) (dir : option string) (s : fs) :
  download_spec E a dir s (download_asset E a dir s).
Proof.
  destruct (dir_ready E s (effective_dir E dir)) eqn:Hready.
  2: { destruct (download_dir_error_run E a dir s Hready) as (e & He & ->).
       apply DsDirError; assumption. }
  destruct (a !! "name") as [name|] eqn:Hname.
  2: { rewrite download_no_name_run by assumption. apply DsNoName; assumption. }
  destruct (markup_error E (downloading_text (PosixPath.join (effective_dir E dir) name)))
    as [m|] eqn:Hacc.
  { rewrite (download_path_rejected_run E a dir s name m) by assumption.
    eapply DsPathRejected; eassumption. }
  destruct (a !! "url") as [url|] eqn:Hurl.
  2: { rewrite (download_no_url_run E a dir s name) by assumption.
       eapply DsCaught; try eassumption. apply TrNoUrl. exact Hurl. }
  destruct (server E url) as [e|st c] eqn:Hsrv.
  { rewrite (download_get_raises_run E a dir s name Hname Hready Hacc url e) by assumption.
    eapply DsCaught; try eassumption. eapply TrGet; eassumption. }
  destruct (Z.eq_dec st 200) as [->|Hst].
  2: { rewrite (download_status_run E a dir s name Hname Hready Hacc url st c)
         by assumption.
       eapply DsStatus; eassumption. }
  destruct (can_open E (prepared E s (effective_dir E dir))
              (PosixPath.join (effective_dir E dir) name)) eqn:Hopen.
  - rewrite (download_stream_run E a dir s name Hname Hready Hacc url c) by assumption.
    cbv zeta. destruct (ending c) as [e|] eqn:Hend.
    + eapply DsCaught; try eassumption. eapply TrStream; eassumption.
    + apply (DsCompleted E a dir s name url c); assumption.
  - destruct (download_open_fails_run E a dir s name Hname Hready Hacc url c Hurl Hsrv
                Hopen) as (e & He & Hrun).
    rewrite Hrun. eapply DsCaught; try eassumption. eapply TrOpen; eassumption.
Qed.

(** ** What a call to [download_asset] can touch *)

Lemma prepare_events_footprint (E : env) (a : asset) (dir : option string) (s : fs) :
  Forall (footprint E a dir) (prepare_events s (effective_dir E dir)).
Proof.
  unfold prepare_events. destruct (path_exists s _); repeat constructor.
Qed.

Lemma handler_run_events (E : env) (e : exn) (s' : fs) (evs : list event)
    (P : event -> Prop) :
  (forall msg, P (EvPrint msg)) ->
  Forall P evs -> Forall P (events (handler_run E e s' evs)).
Proof.
  intros Hprint Hevs. unfold handler_run.
  destruct (markup_error E (download_error_text e)); cbn [events]; [exact Hevs|].
  apply Forall_app. split; [exact Hevs|]. repeat constructor. apply Hprint.
Qed.

Lemma try_raises_footprint (E : env) (a : asset) (dir : option string) (s1 : fs)
    (name : string) (e : exn) (s' : fs) (evs : list event) :
  a !! "name" = Some name ->
  try_raises E a s1 (PosixPath.join (effective_dir E dir) name) e s' evs ->
  Forall (footprint E a dir) evs.
Proof.
  intros Hname Htry. destruct Htry; try (repeat constructor; cbn; eauto; fail).
  repeat (apply Forall_app; split);
    try (apply Forall_forall; intros ev Hev; apply list_elem_of_In, in_map_iff in Hev;
         destruct Hev as (ch & <- & _));
    repeat constructor; cbn; eauto.
Qed.

Lemma download_asset_footprint (E : env) (a : asset) (dir : option string) (s : fs) :
  Forall (footprint E a dir) (events (download_asset E a dir s)).
Proof.
  destruct (download_asset_spec E a dir s)
    as [e0 Hno He0 | Hready Hname | name m Hready Hname Hrej
        | name url st c Hready Hname Hacc Hurl Hsrv Hst
        | name url c Hready Hname Hacc Hurl Hsrv Hopen Hend
        | name e s' evs Hready Hname Hacc Htry].
  - constructor.
  - apply prepare_events_footprint.
  - apply prepare_events_footprint.
  - cbn [events]. apply Forall_app. split; [apply prepare_events_footprint|].
    repeat constructor; cbn; eauto.
  - cbv zeta. cbn [events]. apply Forall_app. split; [apply prepare_events_footprint|].
    repeat (apply Forall_app; split);
      try (apply Forall_forall; intros ev Hev; apply list_elem_of_In, in_map_iff in Hev;
           destruct Hev as (ch & <- & _));
      repeat constructor; cbn; eauto.
  - apply handler_run_events; [intros msg; exact I|].
    apply Forall_app. split; [apply prepare_events_footprint|].
    constructor; [exact I|]. eapply try_raises_footprint; eassumption.
Qed.

(** Every session of [download_asset] is entered with
    [ClientTimeout(total=120)]. *)
Lemma session_total_timeout (E : env) (a : asset) (dir : option string) (s : fs)
    (t : Z) :
  In (EvSession t) (events (download_asset E a dir s)) -> t = 120.
Proof.
  intros Hin. pose proof (download_asset_footprint E a dir s) as Hfoot.
  rewrite Forall_forall in Hfoot. apply list_elem_of_In in Hin.
  exact (Hfoot _ Hin).
Qed.

(** ** The requests of a call *)

Lemma gets_app (l1 l2 : list event) : gets (l1 ++ l2) = gets l1 ++ gets l2.
Proof. apply filter_app. Qed.


Lemma gets_prepare_events (s : fs) (d : string) : gets (prepare_events s d) = [].
Proof. unfold prepare_events. destruct (path_exists s d); reflexivity. Qed.

Lemma gets_handler_run (E : env) (e : exn) (s' : fs) (evs : list event) :
  gets (events (handler_run E e s' evs)) = gets evs.
Proof.
  unfold handler_run. destruct (markup_error E (download_error_text e)); cbn [events];
    [reflexivity|].
  rewrite gets_app. cbn. apply app_nil_r.
Qed.


Lemma final_handler_run (E : env) (e : exn) (s' : fs) (evs : list event) :
  final (handler_run E e s' evs) = s'.
Proof. unfold handler_run. destruct (markup_error E _); reflexivity. Qed.

Lemma handler_run_accepted (E : env) (e : exn) (s' : fs) (evs : list event) :
  accepted E (download_error_text e) ->
  handler_run E e s' evs = Run (Ok None) s' (evs ++ [download_error e]).
Proof. unfold accepted, handler_run. intros ->. reflexivity. Qed.

(** The handler returns [None], or its own line is rejected. *)
Lemma handler_run_result (E : env) (e : exn) (s' : fs) (evs : list event) :
  result (handler_run E e s' evs) = Ok None \/
  exists m, markup_error E (download_error_text e) = Some m /\
            result (handler_run E e s' evs) = Raised (MarkupError m).
Proof.
  unfold handler_run. destruct (markup_error E (download_error_text e)) as [m|];
    [right; exists m; split; reflexivity | left; reflexivity].
Qed.

(** The [try] block leaves the directories as they were and the files
    too, unless it raises while the body is streamed. *)
Lemma try_raises_final (E : env) (a : asset) (s1 : fs) (p : string) (e : exn)
    (s' : fs) (evs : list event) :
  try_raises E a s1 p e s' evs ->
  dirs s' = dirs s1 /\
  (s' = s1 \/
   exists url c,
     a !! "url" = Some url /\ server E url = GetResponse 200 c /\
     can_open E s1 p = true /\ ending c = Some e /\
     s' = Fs (dirs s1) (<[ p := concat (arrivals c) ]> (files s1))).
Proof.
  intros Htry. destruct Htry; (split; [reflexivity|]); auto.
  right. eauto 10.
Qed.

(** * The claims *)

(** ** C1: what a failed download leaves at the destination *)

(** C1 (as amended). A call that returns failure did one of two things.
    If it failed before the destination file was opened (directory
    prepared, then a missing url, an exception of the GET, a status other
    than 200, or [open] refused), every file is as it was. If it failed
    mid-stream, after the 200 status (transport error or timeout while the
    body was read), the destination path holds a file with exactly the
    bytes received before the failure: a truncated body at the final
    path, any earlier content overwritten, nothing staged or cleaned up;
    and the call returns [None] when the console accepts the error line
    it prints. (The line of the destination path, printed before the
    request, is taken to be accepted: a call that stops there requests
    nothing.) *)
Theorem failed_download_leaves_received_bytes
    (E : env) (a : asset) (dir : option string) (s : fs) :
  (forall name url c e,
      a !! "name" = Some name ->
      a !! "url" = Some url ->
      dir_ready E s (effective_dir E dir) = true ->
      accepted E (downloading_text (PosixPath.join (effective_dir E dir) name)) ->
      server E url = GetResponse 200 c ->
      can_open E (prepared E s (effective_dir E dir))
        (PosixPath.join (effective_dir E dir) name) = true ->
      ending c = Some e ->
      files (final (download_asset E a dir s))
        !! PosixPath.join (effective_dir E dir) name = Some (concat (arrivals c)) /\
      (accepted E (download_error_text e) ->
       result (download_asset E a dir s) = Ok None)) /\
  (result (download_asset E a dir s) = Ok None ->
   files (final (download_asset E a dir s)) = files s \/
   exists name url c e,
     a !! "name" = Some name /\ a !! "url" = Some url /\
     server E url = GetResponse 200 c /\ ending c = Some e /\
     files (final (download_asset E a dir s)) =
       <[ PosixPath.join (effective_dir E dir) name := concat (arrivals c) ]> (files s)).
Proof.
  split.
  - intros name url c e Hname Hurl Hready Hacc Hsrv Hopen Hend.
    rewrite (download_stream_run E a dir s name Hname Hready Hacc url c Hurl Hsrv Hopen).
    cbv zeta. rewrite Hend. rewrite final_handler_run. cbn [files]. split.
    + apply lookup_insert_eq.
    + intros Herr. rewrite (handler_run_accepted E e _ _ Herr). reflexivity.
  - destruct (download_asset_spec E a dir s)
      as [e0 Hno He0 | Hready Hname | name m Hready Hname Hrej
          | name url st c Hready Hname Hacc Hurl Hsrv Hst
          | name url c Hready Hname Hacc Hurl Hsrv Hopen Hend
          | name e s' evs Hready Hname Hacc Htry];
      cbn [result final]; try discriminate.
    + intros _. left. apply files_prepared.
    + intros _. rewrite final_handler_run.
      destruct (try_raises_final _ _ _ _ _ _ _ Htry)
        as [_ [-> | (url & c & Hurl & Hsrv & _ & Hend & ->)]].
      * left. apply files_prepared.
      * right. exists name, url, c, e. cbn [files]. rewrite files_prepared. auto.
Qed.

Lemma failed_download_leaves_received_bytes_witness :
  Examples.app !! "name" = Some "App_x64.msixbundle" /\
  server Examples.reset_world "https://dl.example/App_x64.msixbundle"
    = GetResponse 200 Examples.cut_short /\
  ending Examples.cut_short = Some (ClientError "Connection reset by peer") /\
  accepted Examples.reset_world
    (downloading_text
       (PosixPath.join (effective_dir Examples.reset_world (Some "out"))
          "App_x64.msixbundle")) /\
  accepted Examples.reset_world
    (download_error_text (ClientError "Connection reset by peer")) /\
  result (download_asset Examples.reset_world Examples.app (Some "out") Examples.empty_fs)
    = Ok None /\
  files (final (download_asset Examples.reset_world Examples.app (Some "out")
                  Examples.empty_fs))
    !! PosixPath.join (effective_dir Examples.reset_world (Some "out"))
         "App_x64.msixbundle"
    = Some (concat (arrivals Examples.cut_short)).
Proof.
  split; [reflexivity|]. split; [reflexivity|]. split; [reflexivity|].
  split; [vm_compute; reflexivity|]. split; [vm_compute; reflexivity|].
  destruct (proj1 (failed_download_leaves_received_bytes Examples.reset_world
                     Examples.app (Some "out") Examples.empty_fs)
              "App_x64.msixbundle" "https://dl.example/App_x64.msixbundle"
              Examples.cut_short (ClientError "Connection reset by peer"))
    as [Hfile Hres]; try (vm_compute; reflexivity).
  split; [apply Hres; vm_compute; reflexivity | exact Hfile].
Defined.

(** C1, counterexample. The connection drops after the first 10 bytes:
    the call returns [None], yet [out/App_x64.msixbundle], which did not
    exist, now holds those 10 bytes; the file system is the very one a
    successful download of a 10-byte body leaves. *)
Lemma failed_download_artifact_counterexample :
  result (download_asset Examples.reset_world Examples.app (Some "out") Examples.empty_fs)
    = Ok None /\
  files Examples.empty_fs !! "out/App_x64.msixbundle" = None /\
  files (final (download_asset Examples.reset_world Examples.app (Some "out")
                  Examples.empty_fs)) !! "out/App_x64.msixbundle"
    = Some (Examples.b "INSTALLER_") /\
  result (download_asset Examples.short_world Examples.app (Some "out") Examples.empty_fs)
    = Ok (Some "out/App_x64.msixbundle") /\
  final (download_asset Examples.reset_world Examples.app (Some "out") Examples.empty_fs)
    = final (download_asset Examples.short_world Examples.app (Some "out")
               Examples.empty_fs) /\
  ~ failure_leaves_no_artifact Examples.reset_world Examples.app (Some "out")
      Examples.empty_fs.
Proof.
  repeat split; try (vm_compute; reflexivity).
  intros H. specialize (H "App_x64.msixbundle").
  vm_compute in H. specialize (H eq_refl eq_refl eq_refl). discriminate.
Qed.

(** ** C2: a status other than 200 *)

(** C2 (as amended). When the response status is not 200 (destination
    directory there or creatable, asset with its name and url, line of
    the destination path accepted by the console), [download_asset]
    returns [None]; the status is printed on the console and is not part
    of the returned value. No file is opened or written: the files are
    as they were, and the only change to the file system is what
    [os.makedirs] did before the request when the destination directory
    did not exist: the directory itself and those of its parents that
    were missing, each a leading part of its path. *)
Theorem status_failure_writes_no_file
    (E : env) (a : asset) (dir : option string) (s : fs)
    (name url : string) (st : Z) (c : body_stream) :
  a !! "name" = Some name ->
  a !! "url" = Some url ->
  dir_ready E s (effective_dir E dir) = true ->
  accepted E (downloading_text (PosixPath.join (effective_dir E dir) name)) ->
  server E url = GetResponse st c ->
  st <> 200 ->
  result (download_asset E a dir s) = Ok None /\
  files (final (download_asset E a dir s)) = files s /\
  dirs s ⊆ dirs (final (download_asset E a dir s)) /\
  (forall q, q ∈ dirs (final (download_asset E a dir s)) ->
             q ∈ dirs s \/ is_prefix q (effective_dir E dir) = true) /\
  (path_exists s (effective_dir E dir) = true ->
   dirs (final (download_asset E a dir s)) = dirs s) /\
  (path_exists s (effective_dir E dir) = false ->
   effective_dir E dir ∈ dirs (final (download_asset E a dir s))) /\
  events (download_asset E a dir s) =
    prepare_events s (effective_dir E dir) ++
    [downloading (PosixPath.join (effective_dir E dir) name);
     EvSession 120; EvGet url; download_failed_status st; EvSessionClose] /\
  filter (fun ev => is_fs_write ev = true) (events (download_asset E a dir s)) =
    (if path_exists s (effective_dir E dir) then []
     else [EvMakedirs (effective_dir E dir)]).
Proof.
  intros Hname Hurl Hready Hacc Hsrv Hst.
  rewrite (download_status_run E a dir s name Hname Hready Hacc url st c Hurl Hsrv Hst).
  cbn [result final events].
  split; [reflexivity|]. split; [apply files_prepared|].
  split; [apply dirs_prepared_keeps|]. split; [apply dirs_prepared_new|].
  split; [intros Hex; rewrite (dirs_prepared_exists E s _ Hex); reflexivity|].
  split; [apply dirs_prepared_made; exact Hready|].
  split; [reflexivity|].
  unfold prepare_events. destruct (path_exists s (effective_dir E dir)); reflexivity.
Qed.

Lemma status_failure_writes_no_file_witness :
  Examples.app !! "name" = Some "App_x64.msixbundle" /\
  server Examples.not_found_world "https://dl.example/App_x64.msixbundle"
    = Examples.not_found /\
  accepted Examples.not_found_world
    (downloading_text
       (PosixPath.join (effective_dir Examples.not_found_world None)
          "App_x64.msixbundle")) /\
  result (download_asset Examples.not_found_world Examples.app None Examples.empty_fs)
    = Ok None /\
  files (final (download_asset Examples.not_found_world Examples.app None
                  Examples.empty_fs)) = files Examples.empty_fs.
Proof.
  split; [reflexivity|]. split; [reflexivity|]. split; [vm_compute; reflexivity|].
  destruct (status_failure_writes_no_file Examples.not_found_world Examples.app None
              Examples.empty_fs "App_x64.msixbundle"
              "https://dl.example/App_x64.msixbundle" 404
              (BodyStream [Examples.b "Not Found"] None))
    as (Hres & Hfiles & _); try (vm_compute; reflexivity).
  - discriminate.
  - split; [exact Hres | exact Hfiles].
Defined.

(** C2, counterexample. A 404 for a download into [out], which does not
    exist yet: the call returns [None], the same value as for a 500, and
    has created the directory [out]; into [cache/out] it has created
    [cache] as well. *)
Lemma status_failure_counterexample :
  result (download_asset Examples.not_found_world Examples.app (Some "out")
            Examples.empty_fs) = Ok None /\
  result (download_asset Examples.server_error_world Examples.app (Some "out")
            Examples.empty_fs) = Ok None /\
  dirs Examples.empty_fs = ∅ /\
  dirs (final (download_asset Examples.not_found_world Examples.app (Some "out")
                 Examples.empty_fs)) = {[ "out" ]} /\
  dirs (final (download_asset Examples.not_found_world Examples.app (Some "cache/out")
                 Examples.empty_fs)) = {[ "cache"; "cache/out" ]} /\
  events (download_asset Examples.not_found_world Examples.app (Some "out")
            Examples.empty_fs) =
    [EvMakedirs "out";
     EvPrint "[yellow]Downloading to:[/yellow] out/App_x64.msixbundle";
     EvSession 120; EvGet "https://dl.example/App_x64.msixbundle";
     EvPrint "[red]Download failed with status 404[/red]"; EvSessionClose] /\
  ~ status_failure_writes_nothing Examples.not_found_world Examples.app (Some "out")
      Examples.empty_fs.
Proof.
  repeat split; try (vm_compute; reflexivity).
  intros H.
  destruct (H "https://dl.example/App_x64.msixbundle" 404
              (BodyStream [Examples.b "Not Found"] None))
    as (_ & Hfinal & _); [reflexivity | reflexivity | discriminate |].
  assert (Hin : "out" ∈ dirs Examples.empty_fs).
  { rewrite <- Hfinal. vm_compute. reflexivity. }
  vm_compute in Hin. discriminate.
Qed.

(** ** C3: the path returned on success *)

(** C3 (as amended). When the download succeeds, [download_asset] returns
    [os.path.join(download_dir, asset["name"])], the path of the file it
    has written, which then holds the body. That path is absolute exactly
    when the destination directory (or the name itself) is absolute: it is
    with the default directory, derived from the script's absolute
    location, and it is relative with a relative directory given by the
    caller. *)
Theorem success_returns_joined_path
    (E : env) (a : asset) (dir : option string) (s : fs) (p : string) :
  result (download_asset E a dir s) = Ok (Some p) ->
  exists name url c,
    a !! "name" = Some name /\
    a !! "url" = Some url /\
    server E url = GetResponse 200 c /\
    p = PosixPath.join (effective_dir E dir) name /\
    files (final (download_asset E a dir s)) !! p = Some (concat (arrivals c)) /\
    PosixPath.isabs p = PosixPath.isabs name || PosixPath.isabs (effective_dir E dir) /\
    (PosixPath.isabs (effective_dir E dir) = true -> PosixPath.isabs p = true) /\
    (dir = None -> PosixPath.isabs (script_dir E) = true -> PosixPath.isabs p = true).
Proof.
  destruct (download_asset_spec E a dir s)
    as [e0 Hno He0 | Hready Hname | name m Hready Hname Hrej
        | name url st c Hready Hname Hacc Hurl Hsrv Hst
        | name url c Hready Hname Hacc Hurl Hsrv Hopen Hend
        | name e s' evs Hready Hname Hacc Htry];
    cbn [result]; try discriminate.
  - cbv zeta. cbn [result final files].
    intros [= <-]. exists name, url, c. repeat split; try assumption.
    + apply lookup_insert_eq.
    + apply isabs_join_eq.
    + apply isabs_join.
    + intros -> Habs. apply isabs_join, isabs_default_dir, Habs.
  - destruct (handler_run_result E e s'
                (prepare_events s (effective_dir E dir) ++
                 downloading (PosixPath.join (effective_dir E dir) name) :: evs))
      as [-> | (m & _ & ->)]; discriminate.
Qed.

Lemma success_returns_joined_path_witness :
  result (download_asset Examples.ok_world Examples.app None Examples.empty_fs)
    = Ok (Some "/opt/tool/downloads/App_x64.msixbundle") /\
  exists name url c,
    Examples.app !! "name" = Some name /\
    Examples.app !! "url" = Some url /\
    server Examples.ok_world url = GetResponse 200 c /\
    "/opt/tool/downloads/App_x64.msixbundle"
      = PosixPath.join (effective_dir Examples.ok_world None) name /\
    files (final (download_asset Examples.ok_world Examples.app None Examples.empty_fs))
      !! "/opt/tool/downloads/App_x64.msixbundle" = Some (concat (arrivals c)) /\
    PosixPath.isabs "/opt/tool/downloads/App_x64.msixbundle"
      = PosixPath.isabs name || PosixPath.isabs (effective_dir Examples.ok_world None) /\
    (PosixPath.isabs (effective_dir Examples.ok_world None) = true ->
     PosixPath.isabs "/opt/tool/downloads/App_x64.msixbundle" = true) /\
    (@None string = None -> PosixPath.isabs (script_dir Examples.ok_world) = true ->
     PosixPath.isabs "/opt/tool/downloads/App_x64.msixbundle" = true).
Proof.
  split; [vm_compute; reflexivity|].
  apply (success_returns_joined_path Examples.ok_world Examples.app None
           Examples.empty_fs "/opt/tool/downloads/App_x64.msixbundle").
  vm_compute; reflexivity.
Defined.

(** C3, counterexample. With the relative directory [out] the download
    succeeds and returns [out/App_x64.msixbundle], which is not absolute. *)
Lemma relative_path_counterexample :
  result (download_asset Examples.ok_world Examples.app (Some "out") Examples.empty_fs)
    = Ok (Some "out/App_x64.msixbundle") /\
  PosixPath.isabs "out/App_x64.msixbundle" = false /\
  ~ success_returns_absolute_path Examples.ok_world Examples.app (Some "out")
      Examples.empty_fs.
Proof.
  repeat split; try (vm_compute; reflexivity).
  intros H. specialize (H "out/App_x64.msixbundle").
  vm_compute in H. specialize (H eq_refl). discriminate.
Qed.

(** ** C4: exceptions and the boundary of [download_asset] *)

(** C4 (as amended). Every exception raised inside the [try] block of
    [download_asset] (by the session, the GET, [open], or while the body
    is streamed and written) is caught by its handler, which prints the
    text of the exception and returns the failure value [None]: once
    the destination directory is there or has been created, the asset
    has a name and the line of the destination path is printed, the call
    returns [None] whenever the GET raises or the stream of a 200
    response raises and the console accepts the error line; in every
    case it returns a value, unless the handler's own [console.print]
    rejects the text of the exception. Exceptions raised before the
    [try] block ([os.makedirs] failing, a missing ["name"], the line of
    the destination path rejected by the console) are not caught by
    [download_asset]. *)
Theorem exceptions_in_try_become_failure
    (E : env) (a : asset) (dir : option string) (s : fs) (name : string) :
  dir_ready E s (effective_dir E dir) = true ->
  a !! "name" = Some name ->
  accepted E (downloading_text (PosixPath.join (effective_dir E dir) name)) ->
  (forall url e,
      a !! "url" = Some url -> server E url = GetRaises e ->
      accepted E (download_error_text e) ->
      result (download_asset E a dir s) = Ok None) /\
  (forall url c e,
      a !! "url" = Some url -> server E url = GetResponse 200 c ->
      can_open E (prepared E s (effective_dir E dir))
        (PosixPath.join (effective_dir E dir) name) = true ->
      ending c = Some e ->
      accepted E (download_error_text e) ->
      result (download_asset E a dir s) = Ok None) /\
  ((exists r : option string, result (download_asset E a dir s) = Ok r) \/
   (exists e m,
       markup_error E (download_error_text e) = Some m /\
       result (download_asset E a dir s) = Raised (MarkupError m))).
Proof.
  intros Hready Hname Hacc. split; [|split].
  - intros url e Hurl Hsrv Herr.
    rewrite (download_get_raises_run E a dir s name Hname Hready Hacc url e Hurl Hsrv).
    rewrite (handler_run_accepted E e _ _ Herr). reflexivity.
  - intros url c e Hurl Hsrv Hopen Hend Herr.
    rewrite (download_stream_run E a dir s name Hname Hready Hacc url c Hurl Hsrv Hopen).
    cbv zeta. rewrite Hend, (handler_run_accepted E e _ _ Herr). reflexivity.
  - unfold accepted in Hacc.
    destruct (download_asset_spec E a dir s)
      as [e0 Hno He0 | _ Hname' | name' m _ Hname' Hrej
          | name' url st c _ Hname' _ Hurl Hsrv Hst
          | name' url c _ Hname' _ Hurl Hsrv Hopen Hend
          | name' e s' evs _ Hname' _ Htry];
      try congruence.
    + left. eexists. reflexivity.
    + left. eexists. reflexivity.
    + destruct (handler_run_result E e s'
                  (prepare_events s (effective_dir E dir) ++
                   downloading (PosixPath.join (effective_dir E dir) name') :: evs))
        as [Hres | (m & Hm & Hres)]; rewrite Hres; [left | right]; eauto.
Qed.

Lemma exceptions_in_try_become_failure_witness :
  dir_ready Examples.reset_world Examples.empty_fs
    (effective_dir Examples.reset_world (Some "out")) = true /\
  Examples.app !! "name" = Some "App_x64.msixbundle" /\
  accepted Examples.reset_world
    (downloading_text
       (PosixPath.join (effective_dir Examples.reset_world (Some "out"))
          "App_x64.msixbundle")) /\
  Examples.app !! "url" = Some "https://dl.example/App_x64.msixbundle" /\
  server Examples.reset_world "https://dl.example/App_x64.msixbundle"
    = GetResponse 200 Examples.cut_short /\
  ending Examples.cut_short = Some (ClientError "Connection reset by peer") /\
  accepted Examples.reset_world
    (download_error_text (ClientError "Connection reset by peer")) /\
  result (download_asset Examples.reset_world Examples.app (Some "out")
            Examples.empty_fs) = Ok None.
Proof.
  split; [reflexivity|]. split; [reflexivity|]. split; [vm_compute; reflexivity|].
  split; [reflexivity|]. split; [reflexivity|]. split; [reflexivity|].
  split; [vm_compute; reflexivity|].
  apply (proj1 (proj2 (exceptions_in_try_become_failure Examples.reset_world
                         Examples.app (Some "out") Examples.empty_fs
                         "App_x64.msixbundle" eq_refl eq_refl
                         ltac:(vm_compute; reflexivity)))
           "https://dl.example/App_x64.msixbundle" Examples.cut_short
           (ClientError "Connection reset by peer"));
    vm_compute; reflexivity.
Defined.

(** C4, counterexample. Called with the empty string as directory (as
    [--dir ""] gives), [os.path.exists("")] is false and [os.makedirs("")]
    raises [FileNotFoundError] before the [try] block: the exception leaves
    [download_asset]. The same happens when the system refuses to create
    the directory. *)
Lemma makedirs_exception_counterexample :
  result (download_asset Examples.ok_world Examples.app (Some "") Examples.empty_fs)
    = Raised (FileNotFoundError "") /\
  result (download_asset Examples.read_only_world Examples.app (Some "/srv/out")
            Examples.empty_fs)
    = Raised (PermissionError "/srv/out") /\
  ~ download_never_raises Examples.ok_world Examples.app (Some "") Examples.empty_fs.
Proof.
  repeat split; try (vm_compute; reflexivity).
  intros [r Hr]. vm_compute in Hr. discriminate.
Qed.

(** ** C5: how the body is written *)

(** C5 (as amended). On status 200 (line of the destination path
    accepted by the console), [download_asset] opens
    [os.path.join(download_dir, asset["name"])] in mode ["wb"], which
    creates the file or truncates and replaces the one already there (it
    is not an exclusive creation), and writes the body chunk by chunk as
    [iter_chunked(8192)] yields it: every write is one non-empty chunk of
    at most 8192 bytes, so no more than 8192 bytes of the body are held at
    a time, and the chunks written are, in order, the bytes received. *)
Theorem body_written_in_bounded_chunks
    (E : env) (a : asset) (dir : option string) (s : fs)
    (name url : string) (c : body_stream) :
  a !! "name" = Some name ->
  a !! "url" = Some url ->
  dir_ready E s (effective_dir E dir) = true ->
  accepted E (downloading_text (PosixPath.join (effective_dir E dir) name)) ->
  server E url = GetResponse 200 c ->
  can_open E (prepared E s (effective_dir E dir))
    (PosixPath.join (effective_dir E dir) name) = true ->
  exists (chunks : list bytes) (rest : list event),
    events (download_asset E a dir s) =
      prepare_events s (effective_dir E dir) ++
      [downloading (PosixPath.join (effective_dir E dir) name);
       EvSession 120; EvGet url;
       EvOpen (PosixPath.join (effective_dir E dir) name)] ++
      map (EvWrite (PosixPath.join (effective_dir E dir) name)) chunks ++
      [EvClose (PosixPath.join (effective_dir E dir) name)] ++ rest /\
    Forall (fun ev => is_fs_write ev = false) rest /\
    Forall (fun chunk : bytes => 1 <= Z.of_nat (length chunk) <= 8192) chunks /\
    concat chunks = concat (arrivals c) /\
    files (final (download_asset E a dir s))
      !! PosixPath.join (effective_dir E dir) name = Some (concat (arrivals c)).
Proof.
  intros Hname Hurl Hready Hacc Hsrv Hopen.
  rewrite (download_stream_run E a dir s name Hname Hready Hacc url c Hurl Hsrv Hopen).
  cbv zeta.
  assert (Hbounds : Forall (fun chunk : bytes => 1 <= Z.of_nat (length chunk) <= 8192)
                      (fst (iter_chunked chunk_size c))).
  { eapply Forall_impl; [apply iter_chunked_bounds|].
    intros ch Hch. cbv beta in Hch. rewrite <- chunk_size_val. lia. }
  exists (fst (iter_chunked chunk_size c)).
  destruct (ending c) as [e|].
  - unfold handler_run.
    destruct (markup_error E (download_error_text e)); cbn [events final files];
      [exists [EvSessionClose] | exists [EvSessionClose; download_error e]];
      (split; [cbn [app]; rewrite <- ?app_assoc; cbn [app]; rewrite <- ?app_assoc;
               cbn [app]; reflexivity|]);
      (split; [repeat constructor|]);
      (split; [exact Hbounds|]);
      (split; [apply iter_chunked_concat, chunk_size_pos | apply lookup_insert_eq]).
  - cbn [events final files]. exists [download_completed; EvSessionClose].
    (split; [cbn [app]; rewrite <- ?app_assoc; cbn [app]; reflexivity|]);
      (split; [repeat constructor|]);
      (split; [exact Hbounds|]);
      (split; [apply iter_chunked_concat, chunk_size_pos | apply lookup_insert_eq]).
Qed.

Lemma body_written_in_bounded_chunks_witness :
  Examples.app !! "name" = Some "App_x64.msixbundle" /\
  server Examples.ok_world "https://dl.example/App_x64.msixbundle"
    = GetResponse 200 Examples.installer /\
  accepted Examples.ok_world
    (downloading_text
       (PosixPath.join (effective_dir Examples.ok_world (Some "out"))
          "App_x64.msixbundle")) /\
  exists (chunks : list bytes) (rest : list event),
    events (download_asset Examples.ok_world Examples.app (Some "out")
              Examples.fs_with_old_file) =
      prepare_events Examples.fs_with_old_file
        (effective_dir Examples.ok_world (Some "out")) ++
      [downloading (PosixPath.join (effective_dir Examples.ok_world (Some "out"))
                      "App_x64.msixbundle");
       EvSession 120; EvGet "https://dl.example/App_x64.msixbundle";
       EvOpen (PosixPath.join (effective_dir Examples.ok_world (Some "out"))
                 "App_x64.msixbundle")] ++
      map (EvWrite (PosixPath.join (effective_dir Examples.ok_world (Some "out"))
                      "App_x64.msixbundle")) chunks ++
      [EvClose (PosixPath.join (effective_dir Examples.ok_world (Some "out"))
                  "App_x64.msixbundle")] ++ rest /\
    Forall (fun ev => is_fs_write ev = false) rest /\
    Forall (fun chunk : bytes => 1 <= Z.of_nat (length chunk) <= 8192) chunks /\
    concat chunks = concat (arrivals Examples.installer) /\
    files (final (download_asset Examples.ok_world Examples.app (Some "out")
                    Examples.fs_with_old_file))
      !! PosixPath.join (effective_dir Examples.ok_world (Some "out"))
           "App_x64.msixbundle"
    = Some (concat (arrivals Examples.installer)).
Proof.
  split; [reflexivity|]. split; [reflexivity|]. split; [vm_compute; reflexivity|].
  apply (body_written_in_bounded_chunks Examples.ok_world Examples.app (Some "out")
           Examples.fs_with_old_file "App_x64.msixbundle"
           "https://dl.example/App_x64.msixbundle" Examples.installer);
    vm_compute; reflexivity.
Defined.

(** C5, counterexample. [out/App_x64.msixbundle] already holds [OLD]; the
    download succeeds and the file now holds the body, which an exclusive
    open would have refused to replace; and the two writes are of 10 and 4
    bytes, not of 8192. *)
Lemma overwrite_and_short_chunks_counterexample :
  files Examples.fs_with_old_file !! "out/App_x64.msixbundle"
    = Some (Examples.b "OLD") /\
  result (download_asset Examples.ok_world Examples.app (Some "out")
            Examples.fs_with_old_file) = Ok (Some "out/App_x64.msixbundle") /\
  files (final (download_asset Examples.ok_world Examples.app (Some "out")
                  Examples.fs_with_old_file)) !! "out/App_x64.msixbundle"
    = Some (Examples.b "INSTALLER_DATA") /\
  filter (fun ev => is_fs_write ev = true)
         (events (download_asset Examples.ok_world Examples.app (Some "out")
                    Examples.fs_with_old_file)) =
    [EvOpen "out/App_x64.msixbundle";
     EvWrite "out/App_x64.msixbundle" (Examples.b "INSTALLER_");
     EvWrite "out/App_x64.msixbundle" (Examples.b "DATA")] /\
  ~ exclusive_fixed_size_writes Examples.ok_world Examples.app (Some "out")
      Examples.fs_with_old_file.
Proof.
  repeat split; try (vm_compute; reflexivity).
  intros H.
  destruct (H "App_x64.msixbundle" "https://dl.example/App_x64.msixbundle"
              Examples.installer) as [Hkeep _]; try reflexivity.
  vm_compute in Hkeep. specialize (Hkeep (ex_intro _ _ eq_refl)). discriminate.
Qed.

(** ** The table *)

Lemma rows_of_length (is_uwp : bool) (assets : list asset) (i : nat) :
  length (rows_of is_uwp i assets) = length assets.
Proof.
  revert i. induction assets as [|a rest IH]; intros i; [reflexivity|].
  cbn [rows_of length]. rewrite IH. reflexivity.
Qed.

Lemma rows_of_lookup (is_uwp : bool) (assets : list asset) (i k : nat) (a : asset) :
  assets !! k = Some a ->
  rows_of is_uwp i assets !! k = Some (row_of is_uwp (i + k) a).
Proof.
  revert i k. induction assets as [|a0 rest IH]; intros i k Hk; [discriminate|].
  destruct k as [|k]; cbn [rows_of].
  - injection Hk as ->. rewrite Nat.add_0_r. reflexivity.
  - rewrite Nat.add_succ_r. exact (IH (S i) k Hk).
Qed.

Lemma missing_key_displayable (is_uwp : bool) (a : asset) :
  missing_key is_uwp a = None <-> displayable is_uwp a.
Proof.
  unfold missing_key, displayable.
  destruct (a !! "name"), (a !! "arch"), (a !! "extension"), is_uwp,
    (a !! "modified"); split; try discriminate; intros H; try reflexivity;
    repeat split; eauto; try discriminate;
    try (destruct H as (H1 & H2 & H3 & H4);
         first [ destruct H1; discriminate | destruct H2; discriminate
               | destruct H3; discriminate | destruct (H4 eq_refl); discriminate ]).
Qed.

Lemma first_missing_displayable (is_uwp : bool) (assets : list asset) :
  first_missing is_uwp assets = None <-> Forall (displayable is_uwp) assets.
Proof.
  induction assets as [|a rest IH]; cbn [first_missing].
  - split; [constructor | reflexivity].
  - destruct (missing_key is_uwp a) as [k|] eqn:Hk.
    + split; [discriminate|]. intros Hall. inversion Hall as [|? ? Ha _]; subst.
      apply missing_key_displayable in Ha. congruence.
    + rewrite IH. split.
      * intros Hall. constructor; [apply missing_key_displayable|]; assumption.
      * intros Hall. inversion Hall; assumption.
Qed.

Lemma first_missing_key (is_uwp : bool) (assets : list asset) (k : string) :
  first_missing is_uwp assets = Some k ->
  In k ["name"; "arch"; "extension"; "modified"].
Proof.
  induction assets as [|a rest IH]; [discriminate|].
  cbn [first_missing]. destruct (missing_key is_uwp a) as [k'|] eqn:Hk; [|apply IH].
  intros [= <-]. unfold missing_key in Hk.
  destruct (a !! "name"), (a !! "arch"), (a !! "extension"), is_uwp,
    (a !! "modified"); try discriminate; injection Hk as <-; cbn; auto.
Qed.

(** The rows are built, or [KeyError] is raised for the first key missing
    in the first incomplete asset; nothing is printed meanwhile. *)
Lemma table_rows_run (is_uwp : bool) (assets : list asset) (i : nat) (s : fs) :
  table_rows is_uwp i assets s =
    Run (match first_missing is_uwp assets with
         | None => Ok (rows_of is_uwp i assets)
         | Some k => Raised (KeyError k)
         end) s [].
Proof.
  revert i. induction assets as [|a rest IH]; intros i; [reflexivity|].
  cbn [table_rows first_missing rows_of].
  unfold table_row, missing_key, row_of, dict_get. run_simpl.
  destruct (a !! "name"); [run_simpl|reflexivity].
  destruct (a !! "arch"); [run_simpl|reflexivity].
  destruct (a !! "extension"); [|reflexivity].
  destruct is_uwp; run_simpl.
  - destruct (a !! "modified"); [|reflexivity].
    rewrite IH. destruct (first_missing true rest); reflexivity.
  - rewrite IH. destruct (first_missing false rest); reflexivity.
Qed.

(** [display_assets_table]: a [KeyError] while the rows are built, a
    [MarkupError] for the first cell the console rejects, or the table. *)
Lemma display_assets_table_run (E : env) (assets : list asset) (is_uwp : bool)
    (s : fs) :
  display_assets_table E assets is_uwp s =
    match first_missing is_uwp assets with
    | Some k => Run (Raised (KeyError k)) s []
    | None =>
        match table_error E (table_columns is_uwp) (rows_of is_uwp 1 assets) with
        | Some m => Run (Raised (MarkupError m)) s []
        | None =>
            Run (Ok tt) s [EvTable (table_columns is_uwp) (rows_of is_uwp 1 assets)]
        end
    end.
Proof.
  unfold display_assets_table, bind. rewrite table_rows_run.
  destruct (first_missing is_uwp assets); [reflexivity|].
  unfold console_print_table. fold (table_columns is_uwp).
  destruct (table_error E (table_columns is_uwp) (rows_of is_uwp 1 assets));
    reflexivity.
Qed.

Lemma display_assets_table_ok (E : env) (assets : list asset) (is_uwp : bool) (s : fs) :
  Forall (displayable is_uwp) assets ->
  table_accepted E is_uwp assets ->
  display_assets_table E assets is_uwp s =
    Run (Ok tt) s [EvTable (table_columns is_uwp) (rows_of is_uwp 1 assets)].
Proof.
  intros Hshow Hcells. rewrite display_assets_table_run.
  rewrite (proj2 (first_missing_displayable is_uwp assets) Hshow).
  unfold table_accepted in Hcells. rewrite Hcells. reflexivity.
Qed.

(** ** [main] *)

Lemma final_main_handler_run (E : env) (e : exn) (s' : fs) (evs : list event) :
  final (main_handler_run E e s' evs) = s'.
Proof. unfold main_handler_run. destruct (markup_error E _); reflexivity. Qed.

Lemma main_handler_run_accepted (E : env) (e : exn) (s' : fs) (evs : list event) :
  accepted E (main_error_text e) ->
  main_handler_run E e s' evs = Run (Ok false) s' (evs ++ [main_error e]).
Proof. unfold accepted, main_handler_run. intros ->. reflexivity. Qed.

(** The handler of [main] returns [False], or its own line is rejected. *)
Lemma main_handler_run_result (E : env) (e : exn) (s' : fs) (evs : list event) :
  result (main_handler_run E e s' evs) = Ok false \/
  exists m, markup_error E (main_error_text e) = Some m /\
            result (main_handler_run E e s' evs) = Raised (MarkupError m).
Proof.
  unfold main_handler_run. destruct (markup_error E (main_error_text e)) as [m|];
    [right; exists m; split; reflexivity | left; reflexivity].
Qed.


(** The outer [try] of [main] with its handler, whatever the block does. *)
Lemma main_try_run (E : env) (body : M bool) (s : fs) :
  try_except body
    (fun e => let* _ := console_print E ("[red]Error: " +:+ str_exn e +:+ "[/red]") in
              ret false) s =
    match body s with
    | Run (Ok b) s' ev => Run (Ok b) s' ev
    | Run (Raised e) s' ev => main_handler_run E e s' ev
    end.
Proof.
  unfold try_except, try_except_if, bind, console_print, ret, main_handler_run,
    main_error, main_error_text.
  destruct (body s) as [[b|e] s' ev]; [reflexivity|].
  destruct (markup_error E ("[red]Error: " +:+ str_exn e +:+ "[/red]"));
    rewrite ?app_nil_r; reflexivity.
Qed.

(** The line of the URL, printed before the [try] block, is rejected. *)
Lemma main_url_rejected_run (E : env) (url : string) (auto_download : bool)
    (dir : option string) (s : fs) (m : string) :
  markup_error E (processing_text url) = Some m ->
  main E url auto_download dir s = Run (Raised (MarkupError m)) s [].
Proof.
  intros Hrej. unfold main. unfold bind at 1. unfold console_print at 1.
  unfold processing_text in Hrej. rewrite Hrej. reflexivity.
Qed.

(** [main] returns, or a [MarkupError] leaves it: that of the line of
    the URL, printed before the [try] block, or that of the error line
    its handler prints. *)
Lemma main_result_cases (E : env) (url : string) (auto_download : bool)
    (dir : option string) (s : fs) :
  (exists b : bool, result (main E url auto_download dir s) = Ok b) \/
  (exists m, result (main E url auto_download dir s) = Raised (MarkupError m) /\
             (markup_error E (processing_text url) = Some m \/
              exists e, markup_error E (main_error_text e) = Some m)).
Proof.
  destruct (markup_error E (processing_text url)) as [m|] eqn:Hurl.
  { right. exists m. rewrite (main_url_rejected_run E url auto_download dir s m Hurl).
    split; [reflexivity | left; reflexivity]. }
  unfold main.
  match goal with
  | |- context [try_except ?body ?h] => set (block := body); set (handler := h)
  end.
  unfold bind, console_print. unfold processing_text in Hurl. rewrite Hurl.
  assert (Hblock : (exists b : bool, result (try_except block handler s) = Ok b) \/
                   (exists m, result (try_except block handler s)
                              = Raised (MarkupError m) /\
                              (None = Some m \/
                               exists e, markup_error E (main_error_text e) = Some m))).
  { subst handler. rewrite main_try_run.
    destruct (block s) as [[b|e] s' ev]; [left; exists b; reflexivity|].
    destruct (main_handler_run_result E e s' ev) as [-> | (m & Hm & ->)]; eauto 6. }
  destruct auto_download; unfold console_print_fixed, do_event, ret;
    destruct (try_except block handler s) as [r s' ev]; exact Hblock.
Qed.

Lemma download_and_report_run (E : env) (a : asset) (dir : option string) (s : fs) :
  download_and_report E a dir s =
    match download_asset E a dir s with
    | Run (Ok (Some p)) s' ev =>
        if String.eqb p "" then Run (Ok false) s' (ev ++ [failed_to_download])
        else
          match markup_error E (downloaded_to_text p) with
          | None => Run (Ok true) s' (ev ++ [downloaded_to p])
          | Some m => Run (Raised (MarkupError m)) s' ev
          end
    | Run (Ok None) s' ev => Run (Ok false) s' (ev ++ [failed_to_download])
    | Run (Raised e) s' ev => Run (Raised e) s' ev
    end.
Proof.
  unfold download_and_report, bind.
  destruct (download_asset E a dir s) as [[[p|]|e] s' ev]; [|reflexivity..].
  cbn [truthy]. destruct (String.eqb p ""); cbn [negb]; [reflexivity|].
  unfold console_print, downloaded_to, downloaded_to_text.
  destruct (markup_error E ("[green]Asset downloaded to:[/green] " +:+ p));
    rewrite ?app_nil_r; reflexivity.
Qed.

(** The exceptions [os.makedirs] raises are those of [os.mkdir]. *)
Lemma makedirs_from_raises (E : env) (fuel : nat) (name : string) (s : fs) (e : exn) :
  result (makedirs_from E fuel name s) = Raised e ->
  is_ValueError e = false /\ is_EOFError e = false.
Proof.
  assert (Hmk : forall name s e,
            result (os_mkdir E name s) = Raised e ->
            is_ValueError e = false /\ is_EOFError e = false).
  { clear. intros name s e. unfold os_mkdir.
    destruct (String.eqb name ""); [intros [= <-]; auto|].
    destruct (path_exists s name); [intros [= <-]; auto|].
    destruct (denied E name); [intros [= <-]; auto | discriminate]. }
  revert name s e. induction fuel as [|k IH]; intros name s e.
  { rewrite makedirs_from_zero. apply Hmk. }
  destruct (makedirs_parts name) as [head tail] eqn:Hparts.
  rewrite (makedirs_from_step_run E k name head tail s Hparts).
  destruct (negb (String.eqb head "") && negb (String.eqb tail "")
            && negb (path_exists s head)); [|apply Hmk].
  specialize (IH head s).
  destruct (makedirs_from E k head s) as [[[]|e1] s1 ev1].
  - destruct (String.eqb tail "."); [discriminate|].
    specialize (Hmk name s1). destruct (os_mkdir E name s1) as [r2 s2 ev2].
    exact (Hmk e).
  - destruct (is_FileExistsError e1).
    + destruct (String.eqb tail "."); [discriminate|].
      specialize (Hmk name s1). destruct (os_mkdir E name s1) as [r2 s2 ev2].
      exact (Hmk e).
    + cbn [result] in *. intros [= <-]. apply IH. reflexivity.
Qed.

(** The exceptions that leave [download_asset] are not those the inner
    handlers of [main] catch. *)
Lemma download_asset_raised (E : env) (a : asset) (dir : option string) (s : fs)
    (e : exn) :
  result (download_asset E a dir s) = Raised e ->
  is_ValueError e = false /\ is_EOFError e = false.
Proof.
  destruct (download_asset_spec E a dir s)
    as [e0 Hno He0 | Hready Hname | name m Hready Hname Hrej
        | name url st c Hready Hname Hacc Hurl Hsrv Hst
        | name url c Hready Hname Hacc Hurl Hsrv Hopen Hend
        | name e' s' evs Hready Hname Hacc Htry];
    cbn [result]; try discriminate; try (intros [= <-]; auto; fail).
  - intros [= <-]. unfold os_makedirs, bind in He0.
    pose proof (makedirs_from_raises E (String.length (effective_dir E dir))
                  (effective_dir E dir) s) as Hkind.
    destruct (makedirs_from E _ _ s) as [[[]|e1] s1 ev1]; cbn [result] in *;
      [discriminate|].
    injection He0 as <-. apply Hkind. reflexivity.
  - destruct (handler_run_result E e' s'
                (prepare_events s (effective_dir E dir) ++
                 downloading (PosixPath.join (effective_dir E dir) name) :: evs))
      as [-> | (m & _ & ->)]; [discriminate|]. intros [= <-]. auto.
Qed.

(** A path returned by [download_asset] is not the empty string. *)
Lemma download_path_nonempty (E : env) (a : asset) (dir : option string) (s : fs)
    (p : string) :
  result (download_asset E a dir s) = Ok (Some p) -> String.eqb p "" = false.
Proof.
  destruct (download_asset_spec E a dir s)
    as [e0 Hno He0 | Hready Hname | name m Hready Hname Hrej
        | name url st c Hready Hname Hacc Hurl Hsrv Hst
        | name url c Hready Hname Hacc Hurl Hsrv Hopen Hend
        | name e' s' evs Hready Hname Hacc Htry];
    cbn [result]; try discriminate.
  - cbv zeta. cbn [result]. intros [= <-]. unfold can_open in Hopen.
    apply andb_true_iff in Hopen as [Hopen _].
    apply andb_true_iff in Hopen as [Hne _].
    apply negb_true_iff in Hne. exact Hne.
  - destruct (handler_run_result E e' s'
                (prepare_events s (effective_dir E dir) ++
                 downloading (PosixPath.join (effective_dir E dir) name) :: evs))
      as [-> | (m & _ & ->)]; discriminate.
Qed.

Lemma final_report_run (E : env) (pre : list event) (r : run (option string)) :
  final (report_run E pre r) = final r.
Proof.
  destruct r as [[[p|]|e] s' ev]; cbn [report_run final];
    try destruct (String.eqb p ""); try destruct (markup_error E (downloaded_to_text p));
    rewrite ?final_main_handler_run; reflexivity.
Qed.

Lemma report_run_true (E : env) (pre : list event) (r : run (option string)) :
  result (report_run E pre r) = Ok true <->
  exists p, result r = Ok (Some p) /\ String.eqb p "" = false /\
            accepted E (downloaded_to_text p).
Proof.
  unfold accepted.
  destruct r as [[[p|]|e] s' ev]; cbn [report_run result].
  - destruct (String.eqb p "") eqn:Hp.
    + split; [discriminate|]. intros (p' & [= <-] & Hp' & _). congruence.
    + destruct (markup_error E (downloaded_to_text p)) as [m|] eqn:Hm.
      * split.
        -- destruct (main_handler_run_result E (MarkupError m) s' (pre ++ ev))
             as [-> | (m' & _ & ->)]; discriminate.
        -- intros (p' & [= <-] & _ & Hacc). congruence.
      * split; [eauto|reflexivity].
  - split; [discriminate|]. intros (p' & Hp' & _). discriminate.
  - split.
    + destruct (main_handler_run_result E e s' (pre ++ ev))
        as [-> | (m' & _ & ->)]; discriminate.
    + intros (p' & Hp' & _). discriminate.
Qed.


Lemma gets_report_run (E : env) (pre : list event) (r : run (option string)) :
  gets (events (report_run E pre r)) = gets pre ++ gets (events r).
Proof.
  assert (Hh : forall e s' evs, gets (events (main_handler_run E e s' evs)) = gets evs).
  { intros e s' evs. unfold main_handler_run.
    destruct (markup_error E (main_error_text e)); cbn [events]; [reflexivity|].
    rewrite gets_app. cbn. apply app_nil_r. }
  destruct r as [[[p|]|e] s' ev]; cbn [report_run events];
    try destruct (String.eqb p ""); try destruct (markup_error E (downloaded_to_text p));
    cbn [events]; rewrite ?Hh, ?gets_app; cbn; rewrite ?app_nil_r; reflexivity.
Qed.


Ltac main_walk :=
  cbv beta iota zeta delta
    [bind ret raise do_event try_except try_except_if finally console_print_fixed
     console_print getitem msstore_fetch_assets prompt_ask py_int
     is_EOFError is_ValueError result final events negb];
  cbn [app].

(** The run of a successful call. *)
Lemma download_success_run (E : env) (a : asset) (dir : option string) (s : fs)
    (p : string) :
  result (download_asset E a dir s) = Ok (Some p) ->
  exists name url c,
    dir_ready E s (effective_dir E dir) = true /\
    a !! "name" = Some name /\
    accepted E (downloading_text (PosixPath.join (effective_dir E dir) name)) /\
    a !! "url" = Some url /\
    server E url = GetResponse 200 c /\
    can_open E (prepared E s (effective_dir E dir))
      (PosixPath.join (effective_dir E dir) name) = true /\
    ending c = None /\
    p = PosixPath.join (effective_dir E dir) name /\
    download_asset E a dir s =
      Run (Ok (Some p))
          (Fs (dirs (prepared E s (effective_dir E dir)))
              (<[ p := concat (arrivals c) ]>
                 (files (prepared E s (effective_dir E dir)))))
          (prepare_events s (effective_dir E dir) ++
           [downloading p; EvSession 120; EvGet url; EvOpen p]
           ++ map (EvWrite p) (fst (iter_chunked chunk_size c))
           ++ [EvClose p; download_completed; EvSessionClose]).
Proof.
  destruct (download_asset_spec E a dir s)
    as [e0 Hno He0 | Hready Hname | name m Hready Hname Hrej
        | name url st c Hready Hname Hacc Hurl Hsrv Hst
        | name url c Hready Hname Hacc Hurl Hsrv Hopen Hend
        | name e' s' evs Hready Hname Hacc Htry];
    cbn [result]; try discriminate.
  - cbv zeta. cbn [result]. intros [= <-]. exists name, url, c.
    repeat split; assumption.
  - destruct (handler_run_result E e' s'
                (prepare_events s (effective_dir E dir) ++
                 downloading (PosixPath.join (effective_dir E dir) name) :: evs))
      as [-> | (m & _ & ->)]; discriminate.
Qed.






(** ** C7: auto mode downloads the first asset *)




(** ** C8: failures in auto mode and the exit status *)




(** ** Auto mode with nothing to download *)

(** The run of auto mode on an empty result. *)
Lemma main_auto_empty_run (E : env) (url : string) (dir : option string) (s : fs)
    (is_uwp : bool) :
  accepted E (processing_text url) ->
  fetch_assets E url = inr ([], is_uwp) ->
  main E url true dir s =
    Run (Ok false) s
        [processing url; auto_enabled; getting_info; EvFetch url;
         EvTable (table_columns is_uwp) [];
         EvPrint "[red]No assets available for download[/red]"].
Proof.
  intros Hline Hfetch.
  unfold accepted, processing_text in Hline. unfold main. main_walk.
  rewrite Hline, Hfetch. rewrite display_assets_table_run. reflexivity.
Qed.

(** The resolver is called only when the line of the URL, printed
    before the [try] block, has been accepted by the console. *)
Lemma resolver_called (E : env) (url : string) (auto_download : bool)
    (dir : option string) (s : fs) (u : string) :
  In (EvFetch u) (events (main E url auto_download dir s)) ->
  accepted E (processing_text url).
Proof.
  unfold accepted. intros Hin.
  destruct (markup_error E (processing_text url)) as [m|] eqn:Hline; [|reflexivity].
  rewrite (main_url_rejected_run E url auto_download dir s m Hline) in Hin.
  destruct Hin.
Qed.

(** ** C9: auto mode on an empty result *)

(** C9. In auto mode, when the resolver returns an empty list (it has
    been called, and the list it returns is empty), [main] returns
    [False]; it has only printed and shown the (empty) table: no
    directory is made, no request sent, no file opened or written, and
    the file system is as it was. *)
Theorem auto_mode_empty_result
    (E : env) (url : string) (dir : option string) (s : fs) (is_uwp : bool) :
  In (EvFetch url) (events (main E url true dir s)) ->
  fetch_assets E url = inr ([], is_uwp) ->
  result (main E url true dir s) = Ok false /\
  final (main E url true dir s) = s /\
  events (main E url true dir s) =
    [processing url; auto_enabled; getting_info; EvFetch url;
     EvTable (table_columns is_uwp) [];
     EvPrint "[red]No assets available for download[/red]"] /\
  Forall (fun ev => is_transfer ev = false) (events (main E url true dir s)).
Proof.
  intros Hcalled Hfetch.
  apply resolver_called in Hcalled.
  rewrite (main_auto_empty_run E url dir s is_uwp Hcalled Hfetch).
  cbn [result final events]. repeat split. repeat constructor.
Qed.

Lemma auto_mode_empty_result_witness :
  In (EvFetch Examples.product)
     (events (main (Examples.world (GetResponse 200 Examples.installer)
                      (inr ([], true)) None)
                Examples.product true None Examples.empty_fs)) /\
  fetch_assets (Examples.world (GetResponse 200 Examples.installer) (inr ([], true)) None)
    Examples.product = inr ([], true) /\
  result (main (Examples.world (GetResponse 200 Examples.installer) (inr ([], true)) None)
            Examples.product true None Examples.empty_fs) = Ok false /\
  final (main (Examples.world (GetResponse 200 Examples.installer) (inr ([], true)) None)
           Examples.product true None Examples.empty_fs) = Examples.empty_fs.
Proof.
  assert (Hcalled : In (EvFetch Examples.product)
                       (events (main (Examples.world (GetResponse 200 Examples.installer)
                                        (inr ([], true)) None)
                                  Examples.product true None Examples.empty_fs))).
  { vm_compute. repeat (first [left; reflexivity | right]). }
  split; [exact Hcalled|]. split; [reflexivity|].
  destruct (auto_mode_empty_result
              (Examples.world (GetResponse 200 Examples.installer) (inr ([], true)) None)
              Examples.product None Examples.empty_fs true Hcalled eq_refl)
    as (Hres & Hfinal & _).
  split; [exact Hres | exact Hfinal].
Defined.

(** ** [main] in interactive mode *)

Lemma lower_is_q (choice : string) :
  PyStr.lower choice = "q" <-> choice = "q" \/ choice = "Q".
Proof.
  split.
  - destruct choice as [|c [|c' r]]; cbn [PyStr.lower]; try discriminate.
    intros H. injection H as H.
    destruct c as [[] [] [] [] [] [] [] []]; vm_compute in H;
      try discriminate; auto.
  - intros [->| ->]; reflexivity.
Qed.

Lemma interactive_preamble_not_transfer (url : string) (assets : list asset)
    (is_uwp : bool) :
  Forall (fun ev => is_transfer ev = false) (interactive_preamble url assets is_uwp).
Proof. repeat constructor. Qed.

(** Interactive mode up to the answer of the prompt. *)
Lemma main_interactive_run (E : env) (url : string) (dir : option string) (s : fs)
    (assets : list asset) (is_uwp : bool) :
  accepted E (processing_text url) ->
  fetch_assets E url = inr (assets, is_uwp) ->
  Forall (displayable is_uwp) assets ->
  table_accepted E is_uwp assets ->
  (answer E = None ->
   main E url false dir s =
     Run (Ok true) s
         (interactive_preamble url assets is_uwp ++
          [EvPrint "[yellow]Running in non-interactive mode. Use --auto flag to automatically download the first asset.[/yellow]"])) /\
  (forall choice,
      answer E = Some choice -> PyStr.lower choice = "q" ->
      main E url false dir s = Run (Ok true) s (interactive_preamble url assets is_uwp)) /\
  (forall choice,
      answer E = Some choice -> PyStr.lower choice <> "q" -> int_of E choice = None ->
      main E url false dir s =
        Run (Ok false) s
            (interactive_preamble url assets is_uwp ++
             [EvPrint "[red]Invalid input[/red]"])) /\
  (forall choice n,
      answer E = Some choice -> PyStr.lower choice <> "q" -> int_of E choice = Some n ->
      n < 1 \/ Z.of_nat (length assets) < n ->
      main E url false dir s =
        Run (Ok false) s
            (interactive_preamble url assets is_uwp ++
             [EvPrint "[red]Invalid selection[/red]"])).
Proof.
  intros Hline Hfetch Hshow Hcells. unfold accepted, processing_text in Hline.
  repeat split.
  - intros Hans. unfold main. main_walk. rewrite Hline, Hfetch.
    rewrite (display_assets_table_ok E assets is_uwp s Hshow Hcells).
    rewrite Hans. reflexivity.
  - intros choice Hans Hq. unfold main. main_walk. rewrite Hline, Hfetch.
    rewrite (display_assets_table_ok E assets is_uwp s Hshow Hcells).
    rewrite Hans, Hq. reflexivity.
  - intros choice Hans Hq Hint. unfold main. main_walk. rewrite Hline, Hfetch.
    rewrite (display_assets_table_ok E assets is_uwp s Hshow Hcells).
    rewrite Hans.
    destruct (String.eqb_spec (PyStr.lower choice) "q") as [?|_]; [contradiction|].
    rewrite Hint. reflexivity.
  - intros choice n Hans Hq Hint Hrange. unfold main. main_walk. rewrite Hline, Hfetch.
    rewrite (display_assets_table_ok E assets is_uwp s Hshow Hcells).
    rewrite Hans.
    destruct (String.eqb_spec (PyStr.lower choice) "q") as [?|_]; [contradiction|].
    rewrite Hint.
    assert (Hguard : ((0 <=? n - 1) && (n - 1 <? Z.of_nat (length assets)))%Z = false).
    { apply andb_false_iff. destruct Hrange; [left|right]; lia. }
    rewrite Hguard. reflexivity.
Qed.

(** Once the assets are listed, by the answer: what [main] returns, with
    the file system as it was and nothing transferred. *)
Lemma interactive_answers
    (E : env) (url : string) (dir : option string) (s : fs)
    (assets : list asset) (is_uwp : bool) :
  accepted E (processing_text url) ->
  fetch_assets E url = inr (assets, is_uwp) ->
  Forall (displayable is_uwp) assets ->
  table_accepted E is_uwp assets ->
  (forall choice,
      answer E = Some choice -> choice = "q" \/ choice = "Q" ->
      result (main E url false dir s) = Ok true /\
      final (main E url false dir s) = s /\
      Forall (fun ev => is_transfer ev = false) (events (main E url false dir s))) /\
  (answer E = None ->
   result (main E url false dir s) = Ok true /\
   final (main E url false dir s) = s /\
   Forall (fun ev => is_transfer ev = false) (events (main E url false dir s))) /\
  (forall choice,
      answer E = Some choice -> choice <> "q" -> choice <> "Q" ->
      int_of E choice = None ->
      result (main E url false dir s) = Ok false /\
      final (main E url false dir s) = s /\
      Forall (fun ev => is_transfer ev = false) (events (main E url false dir s))) /\
  (forall choice n,
      answer E = Some choice -> choice <> "q" -> choice <> "Q" ->
      int_of E choice = Some n ->
      n < 1 \/ Z.of_nat (length assets) < n ->
      result (main E url false dir s) = Ok false /\
      final (main E url false dir s) = s /\
      Forall (fun ev => is_transfer ev = false) (events (main E url false dir s))).
Proof.
  intros Hline Hfetch Hshow Hcells.
  destruct (main_interactive_run E url dir s assets is_uwp Hline Hfetch Hshow Hcells)
    as (Heof & Hquit & Hbad & Hrange).
  pose proof (interactive_preamble_not_transfer url assets is_uwp) as Hpre.
  assert (Hnotq : forall choice, choice <> "q" -> choice <> "Q" ->
                                 PyStr.lower choice <> "q").
  { intros choice Hq HQ Hl. apply lower_is_q in Hl as [?|?]; contradiction. }
  split; [|split; [|split]].
  - intros choice Hans Hq. rewrite (Hquit choice Hans (proj2 (lower_is_q choice) Hq)).
    cbn [result final events]. auto.
  - intros Hans. rewrite (Heof Hans). cbn [result final events].
    repeat split. apply Forall_app. split; [exact Hpre | repeat constructor].
  - intros choice Hans Hq HQ Hint.
    rewrite (Hbad choice Hans (Hnotq choice Hq HQ) Hint).
    cbn [result final events]. repeat split.
    apply Forall_app. split; [exact Hpre | repeat constructor].
  - intros choice n Hans Hq HQ Hint Hout.
    rewrite (Hrange choice n Hans (Hnotq choice Hq HQ) Hint Hout).
    cbn [result final events]. repeat split.
    apply Forall_app. split; [exact Hpre | repeat constructor].
Qed.

(** The prompt is reached only when the line of the URL has been
    printed, the resolver has returned and the table has been shown. *)
Lemma prompt_reached (E : env) (url : string) (dir : option string) (s : fs)
    (q : string) :
  In (EvPrompt q) (events (main E url false dir s)) ->
  accepted E (processing_text url) /\
  exists assets is_uwp,
    fetch_assets E url = inr (assets, is_uwp) /\
    Forall (displayable is_uwp) assets /\
    table_accepted E is_uwp assets.
Proof.
  intros Hin. unfold accepted, table_accepted.
  destruct (markup_error E (processing_text url)) as [m|] eqn:Hline.
  { rewrite (main_url_rejected_run E url false dir s m Hline) in Hin. destruct Hin. }
  split; [reflexivity|].
  unfold processing_text in Hline.
  destruct (fetch_assets E url) as [e|[assets is_uwp]] eqn:Hfetch.
  { exfalso. revert Hin. unfold main. main_walk. rewrite Hline, Hfetch.
    destruct (markup_error E ("[red]Error: " +:+ _)); cbn; intuition discriminate. }
  exists assets, is_uwp. split; [reflexivity|].
  destruct (first_missing is_uwp assets) as [k|] eqn:Hk.
  { exfalso. revert Hin. unfold main. main_walk. rewrite Hline, Hfetch.
    rewrite display_assets_table_run, Hk.
    destruct (markup_error E ("[red]Error: " +:+ _)); cbn; intuition discriminate. }
  split; [apply first_missing_displayable; exact Hk|].
  destruct (table_error E (table_columns is_uwp) (rows_of is_uwp 1 assets))
    as [m|] eqn:Hcells; [|reflexivity].
  exfalso. revert Hin. unfold main. main_walk. rewrite Hline, Hfetch.
  rewrite display_assets_table_run, Hk, Hcells.
  destruct (markup_error E ("[red]Error: " +:+ _)); cbn; intuition discriminate.
Qed.

(** ** C10: quitting, end of input, invalid answers *)

(** C10. In interactive mode, when the user is asked for a choice: the
    answer [q] or [Q], and end of input, make [main] return [True]
    although nothing is downloaded and no file is written; any other
    answer that is not a number ([int] raises [ValueError]), and a
    number outside [1..len(assets)], make [main] return [False] (again
    without any download). *)
Theorem interactive_quit_eof_and_invalid_answers
    (E : env) (url : string) (dir : option string) (s : fs) :
  In (EvPrompt "Your choice") (events (main E url false dir s)) ->
  (forall choice,
      answer E = Some choice -> choice = "q" \/ choice = "Q" ->
      result (main E url false dir s) = Ok true /\
      final (main E url false dir s) = s /\
      Forall (fun ev => is_transfer ev = false) (events (main E url false dir s))) /\
  (answer E = None ->
   result (main E url false dir s) = Ok true /\
   final (main E url false dir s) = s /\
   Forall (fun ev => is_transfer ev = false) (events (main E url false dir s))) /\
  (forall choice,
      answer E = Some choice -> choice <> "q" -> choice <> "Q" ->
      int_of E choice = None ->
      result (main E url false dir s) = Ok false /\
      final (main E url false dir s) = s /\
      Forall (fun ev => is_transfer ev = false) (events (main E url false dir s))) /\
  (forall choice n assets is_uwp,
      answer E = Some choice -> choice <> "q" -> choice <> "Q" ->
      int_of E choice = Some n ->
      fetch_assets E url = inr (assets, is_uwp) ->
      n < 1 \/ Z.of_nat (length assets) < n ->
      result (main E url false dir s) = Ok false /\
      final (main E url false dir s) = s /\
      Forall (fun ev => is_transfer ev = false) (events (main E url false dir s))).
Proof.
  intros Hasked.
  destruct (prompt_reached E url dir s "Your choice" Hasked)
    as (Hline & assets & is_uwp & Hfetch & Hshow & Hcells).
  destruct (interactive_answers E url dir s assets is_uwp Hline Hfetch Hshow Hcells)
    as (Hquit & Heof & Hbad & Hout).
  split; [exact Hquit|]. split; [exact Heof|]. split; [exact Hbad|].
  intros choice n assets' is_uwp' Hans Hq HQ Hint Hfetch' Hrange.
  assert (assets' = assets) as -> by congruence.
  exact (Hout choice n Hans Hq HQ Hint Hrange).
Qed.

Lemma interactive_quit_eof_and_invalid_answers_witness :
  In (EvPrompt "Your choice")
     (events (main (Examples.world (GetResponse 200 Examples.installer) Examples.three
                      (Some "Q")) Examples.product false None Examples.empty_fs)) /\
  answer (Examples.world (GetResponse 200 Examples.installer) Examples.three (Some "Q"))
    = Some "Q" /\
  result (main (Examples.world (GetResponse 200 Examples.installer) Examples.three
                  (Some "Q")) Examples.product false None Examples.empty_fs) = Ok true /\
  final (main (Examples.world (GetResponse 200 Examples.installer) Examples.three
                 (Some "Q")) Examples.product false None Examples.empty_fs)
    = Examples.empty_fs /\
  In (EvPrompt "Your choice")
     (events (main (Examples.world (GetResponse 200 Examples.installer) Examples.three
                      (Some "4")) Examples.product false None Examples.empty_fs)) /\
  answer (Examples.world (GetResponse 200 Examples.installer) Examples.three (Some "4"))
    = Some "4" /\
  int_of (Examples.world (GetResponse 200 Examples.installer) Examples.three (Some "4"))
    "4" = Some 4 /\
  result (main (Examples.world (GetResponse 200 Examples.installer) Examples.three
                  (Some "4")) Examples.product false None Examples.empty_fs) = Ok false.
Proof.
  assert (HaskedQ :
            In (EvPrompt "Your choice")
               (events (main (Examples.world (GetResponse 200 Examples.installer)
                                Examples.three (Some "Q"))
                          Examples.product false None Examples.empty_fs))).
  { vm_compute. repeat (first [left; reflexivity | right]). }
  assert (Hasked4 :
            In (EvPrompt "Your choice")
               (events (main (Examples.world (GetResponse 200 Examples.installer)
                                Examples.three (Some "4"))
                          Examples.product false None Examples.empty_fs))).
  { vm_compute. repeat (first [left; reflexivity | right]). }
  split; [exact HaskedQ|]. split; [reflexivity|].
  destruct (interactive_quit_eof_and_invalid_answers
              (Examples.world (GetResponse 200 Examples.installer) Examples.three
                 (Some "Q"))
              Examples.product None Examples.empty_fs HaskedQ) as (Hquit & _).
  destruct (Hquit "Q" eq_refl (or_intror eq_refl)) as (Hres & Hfinal & _).
  split; [exact Hres|]. split; [exact Hfinal|].
  split; [exact Hasked4|]. split; [reflexivity|]. split; [reflexivity|].
  destruct (interactive_quit_eof_and_invalid_answers
              (Examples.world (GetResponse 200 Examples.installer) Examples.three
                 (Some "4"))
              Examples.product None Examples.empty_fs Hasked4) as (_ & _ & _ & Hout).
  destruct (Hout "4" 4 [Examples.app; Examples.app_arm; Examples.app_neutral] true
              eq_refl) as (Hres' & _); try discriminate.
  - reflexivity.
  - reflexivity.
  - right. vm_compute. reflexivity.
  - exact Hres'.
Defined.

(** * Further properties of the script *)

(** ** The table, in full *)

(** X1. For assets that have the keys it reads and whose cells the
    console accepts, [display_assets_table] prints one table and changes
    nothing else: the last column is "Modified" for UWP and "Locale"
    otherwise; there is one row per asset, in the order of the list,
    numbered from 1, with the asset's name, architecture and extension,
    then its [modified] value (UWP) or its [locale], "unknown" when it
    has none. *)
Theorem display_assets_table_rows
    (E : env) (assets : list asset) (is_uwp : bool) (s : fs) :
  Forall (displayable is_uwp) assets ->
  table_accepted E is_uwp assets ->
  exists rows : list (list string),
    display_assets_table E assets is_uwp s =
      Run (Ok tt) s
          [EvTable ["No."; "Name"; "Architecture"; "Extension";
                    if is_uwp then "Modified" else "Locale"] rows] /\
    length rows = length assets /\
    forall (k : nat) (a : asset),
      assets !! k = Some a ->
      exists name arch extension last,
        a !! "name" = Some name /\ a !! "arch" = Some arch /\
        a !! "extension" = Some extension /\
        (if is_uwp then a !! "modified" = Some last
         else last = default "unknown" (a !! "locale")) /\
        rows !! k = Some [pretty (S k); name; arch; extension; last].
Proof.
  intros Hall Hcells. exists (rows_of is_uwp 1 assets).
  rewrite (display_assets_table_ok E assets is_uwp s Hall Hcells).
  split; [reflexivity|]. split; [apply rows_of_length|].
  intros k a Hk.
  assert (Ha : displayable is_uwp a).
  { rewrite Forall_forall in Hall. apply Hall. eapply list_elem_of_lookup_2, Hk. }
  destruct Ha as ([name Hn] & [arch Har] & [ex Hex] & Hmod).
  rewrite (rows_of_lookup is_uwp assets 1 k a Hk).
  unfold row_of, dict_get. rewrite Hn, Har, Hex.
  destruct is_uwp.
  - destruct (Hmod eq_refl) as [m Hm]. rewrite Hm.
    exists name, arch, ex, m. auto.
  - exists name, arch, ex, (default "unknown" (a !! "locale")).
    repeat split; destruct (a !! "locale"); reflexivity.
Qed.

Lemma display_assets_table_rows_witness :
  Forall (displayable true) [Examples.app; Examples.app_arm; Examples.app_neutral] /\
  table_accepted Examples.ok_world true
    [Examples.app; Examples.app_arm; Examples.app_neutral] /\
  exists rows : list (list string),
    display_assets_table Examples.ok_world
      [Examples.app; Examples.app_arm; Examples.app_neutral] true Examples.empty_fs =
      Run (Ok tt) Examples.empty_fs
          [EvTable ["No."; "Name"; "Architecture"; "Extension"; "Modified"] rows] /\
    length rows = 3%nat /\
    rows !! 1%nat =
      Some ["2"; "App_arm64.msixbundle"; "arm64"; "msixbundle"; "2024-01-01"].
Proof.
  assert (Hshow : Forall (displayable true)
                    [Examples.app; Examples.app_arm; Examples.app_neutral]).
  { repeat constructor; try (eexists; vm_compute; reflexivity). }
  assert (Hcells : table_accepted Examples.ok_world true
                     [Examples.app; Examples.app_arm; Examples.app_neutral])
    by (vm_compute; reflexivity).
  split; [exact Hshow|]. split; [exact Hcells|].
  destruct (display_assets_table_rows Examples.ok_world
              [Examples.app; Examples.app_arm; Examples.app_neutral] true
              Examples.empty_fs Hshow Hcells) as (rows & Hrun & Hlen & Hrows).
  exists rows. split; [exact Hrun|]. split; [exact Hlen|].
  destruct (Hrows 1%nat Examples.app_arm eq_refl)
    as (name & arch & ex & last & Hn & Har & Hex & Hlast & Hrow).
  rewrite Hrow. vm_compute in Hn, Har, Hex, Hlast.
  injection Hn as <-. injection Har as <-. injection Hex as <-.
  injection Hlast as <-. reflexivity.
Defined.

(** X2. [display_assets_table] succeeds exactly when every asset has the
    keys it reads with [asset[...]] ("name", "arch", "extension", and
    "modified" for UWP; a missing "locale" is never an error) and the
    console accepts every cell. When a key is missing it raises
    [KeyError] for the first key missing in the first incomplete asset;
    when a cell is rejected it raises [MarkupError]; in both cases no
    table, not even a partial one, is printed. *)
Theorem display_assets_table_missing_key
    (E : env) (assets : list asset) (is_uwp : bool) (s : fs) :
  (result (display_assets_table E assets is_uwp s) = Ok tt <->
   Forall (displayable is_uwp) assets /\ table_accepted E is_uwp assets) /\
  (~ Forall (displayable is_uwp) assets ->
   exists k,
     first_missing is_uwp assets = Some k /\
     In k ["name"; "arch"; "extension"; "modified"] /\
     display_assets_table E assets is_uwp s = Run (Raised (KeyError k)) s []) /\
  (Forall (displayable is_uwp) assets ->
   forall m,
     table_error E (table_columns is_uwp) (rows_of is_uwp 1 assets) = Some m ->
     display_assets_table E assets is_uwp s = Run (Raised (MarkupError m)) s []).
Proof.
  rewrite display_assets_table_run. unfold table_accepted.
  pose proof (first_missing_displayable is_uwp assets) as Hiff.
  pose proof (first_missing_key is_uwp assets) as Hkeys.
  destruct (first_missing is_uwp assets) as [k|] eqn:Hfirst.
  - split; [|split].
    + split; [discriminate|]. intros [Hall _]. apply Hiff in Hall. discriminate.
    + intros _. exists k. auto.
    + intros Hall. apply Hiff in Hall. discriminate.
  - assert (Hall : Forall (displayable is_uwp) assets) by (apply Hiff; reflexivity).
    split; [|split].
    + destruct (table_error E (table_columns is_uwp) (rows_of is_uwp 1 assets));
        cbn [result]; split; try discriminate; auto.
      intros [_ Hno]. discriminate.
    + intros Hnot. contradiction.
    + intros _ m ->. reflexivity.
Qed.

Lemma display_assets_table_missing_key_witness :
  ~ Forall (displayable false) [Examples.app; delete "arch" Examples.app_arm] /\
  exists k,
    first_missing false [Examples.app; delete "arch" Examples.app_arm] = Some k /\
    In k ["name"; "arch"; "extension"; "modified"] /\
    display_assets_table Examples.ok_world
      [Examples.app; delete "arch" Examples.app_arm] false
      Examples.empty_fs = Run (Raised (KeyError k)) Examples.empty_fs [].
Proof.
  assert (Hnot : ~ Forall (displayable false)
                     [Examples.app; delete "arch" Examples.app_arm]).
  { intros Hall. apply first_missing_displayable in Hall.
    vm_compute in Hall. discriminate. }
  split; [exact Hnot|].
  exact (proj1 (proj2 (display_assets_table_missing_key Examples.ok_world
                         [Examples.app; delete "arch" Examples.app_arm] false
                         Examples.empty_fs)) Hnot).
Defined.

(** ** More on [download_asset] *)

(** X3. [download_asset] returns a path exactly when the destination
    directory is there or can be created, the asset has a name and a url,
    the console accepts the line of the destination path, the server
    answers 200, the destination can be opened for writing and the body
    arrives to its end; the path is the joined destination and the file
    then holds the body, byte for byte, however the body was cut into
    pieces on the way. *)
Theorem download_succeeds_iff
    (E : env) (a : asset) (dir : option string) (s : fs) (p : string) :
  result (download_asset E a dir s) = Ok (Some p) <->
  exists name url c,
    dir_ready E s (effective_dir E dir) = true /\
    a !! "name" = Some name /\
    accepted E (downloading_text (PosixPath.join (effective_dir E dir) name)) /\
    a !! "url" = Some url /\
    server E url = GetResponse 200 c /\
    can_open E (prepared E s (effective_dir E dir))
      (PosixPath.join (effective_dir E dir) name) = true /\
    ending c = None /\
    p = PosixPath.join (effective_dir E dir) name /\
    files (final (download_asset E a dir s)) !! p = Some (concat (arrivals c)).
Proof.
  split.
  - intros Hres.
    destruct (download_success_run E a dir s p Hres)
      as (name & url & c & Hready & Hname & Hacc & Hurl & Hsrv & Hopen & Hend & Hp & Hdl).
    exists name, url, c. repeat split; try assumption.
    rewrite Hdl. cbn [final files]. apply lookup_insert_eq.
  - intros (name & url & c & Hready & Hname & Hacc & Hurl & Hsrv & Hopen & Hend & -> & _).
    rewrite (download_stream_run E a dir s name Hname Hready Hacc url c Hurl Hsrv Hopen).
    cbv zeta. rewrite Hend. reflexivity.
Qed.

Lemma download_succeeds_iff_witness :
  result (download_asset Examples.ok_world Examples.app (Some "out") Examples.empty_fs)
    = Ok (Some "out/App_x64.msixbundle") /\
  files (final (download_asset Examples.ok_world Examples.app (Some "out")
                  Examples.empty_fs)) !! "out/App_x64.msixbundle"
    = Some (Examples.b "INSTALLER_DATA").
Proof.
  assert (H : result (download_asset Examples.ok_world Examples.app (Some "out")
                        Examples.empty_fs) = Ok (Some "out/App_x64.msixbundle")).
  { vm_compute. reflexivity. }
  split; [exact H|].
  destruct (proj1 (download_succeeds_iff Examples.ok_world Examples.app (Some "out")
                     Examples.empty_fs "out/App_x64.msixbundle") H)
    as (name & url & c & _ & _ & _ & Hurl & Hsrv & _ & _ & _ & Hfile).
  rewrite Hfile. vm_compute in Hurl. injection Hurl as <-.
  vm_compute in Hsrv. injection Hsrv as <-. reflexivity.
Defined.


Lemma can_open_same_dirs (E : env) (s : fs) (F : gmap string bytes) (p : string) :
  can_open E (Fs (dirs s) F) p = can_open E s p.
Proof. reflexivity. Qed.


(** X5. An asset whose name is an absolute path is not kept inside the
    download directory: [os.path.join] drops the directory, every file
    the call opens or writes is the name itself, and on success that is
    the path returned and written. *)
Theorem absolute_name_leaves_download_dir
    (E : env) (a : asset) (dir : option string) (s : fs) (name : string) :
  a !! "name" = Some name ->
  PosixPath.isabs name = true ->
  (forall q, In (EvOpen q) (events (download_asset E a dir s)) -> q = name) /\
  (forall q chunk, In (EvWrite q chunk) (events (download_asset E a dir s)) ->
                   q = name) /\
  (forall p, result (download_asset E a dir s) = Ok (Some p) ->
             p = name /\ is_Some (files (final (download_asset E a dir s)) !! name)).
Proof.
  intros Hname Habs.
  pose proof (join_absolute (effective_dir E dir) name Habs) as Hjoin.
  pose proof (download_asset_footprint E a dir s) as Hfoot.
  rewrite Forall_forall in Hfoot.
  split; [|split].
  - intros q Hin. apply list_elem_of_In, Hfoot in Hin.
    destruct Hin as (n & Hn & ->). congruence.
  - intros q ch Hin. apply list_elem_of_In, Hfoot in Hin.
    destruct Hin as (n & Hn & ->). congruence.
  - intros p Hres.
    destruct (download_success_run E a dir s p Hres)
      as (name' & url & c & _ & Hname' & _ & _ & _ & _ & _ & Hp & Hdl).
    assert (name' = name) as -> by congruence.
    rewrite Hjoin in Hp. subst p. split; [reflexivity|].
    rewrite Hdl. cbn [final files]. rewrite lookup_insert_eq. eauto.
Qed.

Lemma absolute_name_leaves_download_dir_witness :
  <[ "name" := "/tmp/App.msix" ]> Examples.app !! "name" = Some "/tmp/App.msix" /\
  PosixPath.isabs "/tmp/App.msix" = true /\
  result (download_asset Examples.ok_world (<[ "name" := "/tmp/App.msix" ]> Examples.app)
            (Some "out") Examples.empty_fs) = Ok (Some "/tmp/App.msix") /\
  is_Some (files (final (download_asset Examples.ok_world
                           (<[ "name" := "/tmp/App.msix" ]> Examples.app)
                           (Some "out") Examples.empty_fs)) !! "/tmp/App.msix").
Proof.
  assert (Hn : <[ "name" := "/tmp/App.msix" ]> Examples.app !! "name"
               = Some "/tmp/App.msix") by (vm_compute; reflexivity).
  split; [exact Hn|]. split; [reflexivity|].
  assert (H : result (download_asset Examples.ok_world
                        (<[ "name" := "/tmp/App.msix" ]> Examples.app)
                        (Some "out") Examples.empty_fs) = Ok (Some "/tmp/App.msix")).
  { vm_compute. reflexivity. }
  split; [exact H|].
  destruct (absolute_name_leaves_download_dir Examples.ok_world
              (<[ "name" := "/tmp/App.msix" ]> Examples.app) (Some "out")
              Examples.empty_fs "/tmp/App.msix" Hn eq_refl) as (_ & _ & Hres).
  exact (proj2 (Hres _ H)).
Defined.

(** The file system a call leaves: that of the failed [os.makedirs], or
    the prepared one, or the prepared one with the destination file
    written. *)
Lemma download_final_cases (E : env) (a : asset) (dir : option string) (s : fs) :
  final (download_asset E a dir s) = final (os_makedirs E (effective_dir E dir) s) \/
  final (download_asset E a dir s) = prepared E s (effective_dir E dir) \/
  exists name content,
    a !! "name" = Some name /\
    final (download_asset E a dir s) =
      Fs (dirs (prepared E s (effective_dir E dir)))
         (<[ PosixPath.join (effective_dir E dir) name := content ]> (files s)).
Proof.
  destruct (download_asset_spec E a dir s)
    as [e0 Hno He0 | Hready Hname | name m Hready Hname Hrej
        | name url st c Hready Hname Hacc Hurl Hsrv Hst
        | name url c Hready Hname Hacc Hurl Hsrv Hopen Hend
        | name e s' evs Hready Hname Hacc Htry];
    cbn [final]; auto.
  - right. right. exists name, (concat (arrivals c)). split; [exact Hname|].
    cbv zeta. rewrite files_prepared. reflexivity.
  - rewrite final_handler_run.
    destruct (try_raises_final _ _ _ _ _ _ _ Htry)
      as [_ [-> | (url & c & _ & _ & _ & _ & ->)]]; [auto|].
    right. right. exists name, (concat (arrivals c)). split; [exact Hname|].
    rewrite files_prepared. reflexivity.
Qed.

(** X6. What [download_asset] does to the file system, whatever the
    outcome: the only calls that change it are [os.makedirs] on the
    download directory and [open] and [write] on the joined destination
    path; no file disappears, every directory stays, and a directory
    that appears is the download directory or a leading part of its
    path (a parent [os.makedirs] created). *)
Theorem download_changes_only_destination
    (E : env) (a : asset) (dir : option string) (s : fs) :
  (forall ev, In ev (events (download_asset E a dir s)) ->
              is_fs_write ev = true ->
              ev = EvMakedirs (effective_dir E dir) \/
              exists name,
                a !! "name" = Some name /\
                (ev = EvOpen (PosixPath.join (effective_dir E dir) name) \/
                 exists chunk,
                   ev = EvWrite (PosixPath.join (effective_dir E dir) name) chunk)) /\
  (forall q, is_Some (files s !! q) ->
             is_Some (files (final (download_asset E a dir s)) !! q)) /\
  (forall q, q ∈ dirs s -> q ∈ dirs (final (download_asset E a dir s))) /\
  (forall q, q ∈ dirs (final (download_asset E a dir s)) ->
             q ∈ dirs s \/ is_prefix q (effective_dir E dir) = true).
Proof.
  split.
  { pose proof (download_asset_footprint E a dir s) as Hfoot.
    rewrite Forall_forall in Hfoot.
    intros ev Hin Hw. apply list_elem_of_In, Hfoot in Hin.
    destruct ev; try discriminate; cbn in Hin.
    - left. congruence.
    - right. destruct Hin as (n & Hn & ->). eauto.
    - right. destruct Hin as (n & Hn & ->). eauto. }
  assert (Hfail : files (final (os_makedirs E (effective_dir E dir) s)) = files s /\
                  dirs s ⊆ dirs (final (os_makedirs E (effective_dir E dir) s)) /\
                  forall q, q ∈ dirs (final (os_makedirs E (effective_dir E dir) s)) ->
                            q ∈ dirs s \/ is_prefix q (effective_dir E dir) = true).
  { destruct (os_makedirs_spec E (effective_dir E dir) s)
      as [(s1 & Hrun & Hf & Hd & _ & _ & Hnew) | (e1 & s1 & Hrun & Hf & Hd & Hnew & _)];
      rewrite Hrun; cbn [final]; repeat split; try assumption.
    intros q Hq. destruct (Hnew q Hq); tauto. }
  destruct Hfail as (Hf0 & Hd0 & Hn0).
  destruct (download_final_cases E a dir s)
    as [-> | [-> | (name & content & Hname & ->)]].
  - rewrite Hf0. repeat split; auto.
  - rewrite files_prepared. repeat split; auto.
    + intros q. apply dirs_prepared_keeps.
    + apply dirs_prepared_new.
  - cbn [files dirs]. split; [|split].
    + intros q Hq.
      destruct (decide (PosixPath.join (effective_dir E dir) name = q)) as [->|Hne].
      * rewrite lookup_insert_eq. eauto.
      * rewrite lookup_insert_ne by exact Hne. exact Hq.
    + intros q. apply dirs_prepared_keeps.
    + apply dirs_prepared_new.
Qed.

Lemma in_handler_run (E : env) (e : exn) (s' : fs) (evs : list event) (ev : event) :
  In ev evs -> In ev (events (handler_run E e s' evs)).
Proof.
  unfold handler_run. destruct (markup_error E _); cbn [events]; [auto|].
  intros H. apply in_or_app. left. exact H.
Qed.

Lemma in_handler_run_inv (E : env) (e : exn) (s' : fs) (evs : list event) (ev : event) :
  In ev (events (handler_run E e s' evs)) -> In ev evs \/ ev = download_error e.
Proof.
  unfold handler_run. destruct (markup_error E _); cbn [events]; [auto|].
  intros H. apply in_app_or in H as [H|[H|[]]]; auto.
Qed.

Lemma in_prepare_events (s : fs) (d : string) (ev : event) :
  In ev (prepare_events s d) -> ev = EvMakedirs d.
Proof. unfold prepare_events. destruct (path_exists s d); cbn; intuition. Qed.

(** X7. Whatever the outcome, [download_asset] releases what it
    acquires: every session it enters is closed and every file it opens
    is closed, also when the request or the stream raises. *)
Theorem download_releases_session_and_file
    (E : env) (a : asset) (dir : option string) (s : fs) :
  (forall t, In (EvSession t) (events (download_asset E a dir s)) ->
             In EvSessionClose (events (download_asset E a dir s))) /\
  (forall q, In (EvOpen q) (events (download_asset E a dir s)) ->
             In (EvClose q) (events (download_asset E a dir s))).
Proof.
  destruct (download_asset_spec E a dir s)
    as [e0 Hno He0 | Hready Hname | name m Hready Hname Hrej
        | name url st c Hready Hname Hacc Hurl Hsrv Hst
        | name url c Hready Hname Hacc Hurl Hsrv Hopen Hend
        | name e s' evs Hready Hname Hacc Htry].
  - split; intros ? [].
  - split; intros ? Hin; apply in_prepare_events in Hin; discriminate.
  - split; intros ? Hin; apply in_prepare_events in Hin; discriminate.
  - cbn [events]. split.
    + intros _ _. apply in_or_app. right. cbn. tauto.
    + intros q Hin. apply in_app_or in Hin as [Hin|Hin];
        [apply in_prepare_events in Hin; discriminate|].
      cbn in Hin. repeat (destruct Hin as [Hin|Hin]; try discriminate). contradiction.
  - cbv zeta. cbn [events]. split.
    + intros _ _. apply in_or_app. right. apply in_or_app. right.
      apply in_or_app. right. cbn. tauto.
    + intros q Hin. apply in_app_or in Hin as [Hin|Hin];
        [apply in_prepare_events in Hin; discriminate|].
      apply in_app_or in Hin as [Hin|Hin].
      * cbn in Hin. repeat (destruct Hin as [Hin|Hin]; try discriminate);
          try contradiction.
        injection Hin as <-.
        apply in_or_app. right. apply in_or_app. right.
        apply in_or_app. right. cbn. tauto.
      * apply in_app_or in Hin as [Hin|Hin];
          [apply in_map_iff in Hin as (ch & Hch & _); discriminate|].
        cbn in Hin. repeat (destruct Hin as [Hin|Hin]; try discriminate).
        contradiction.
  - assert (Hblock : (forall t, In (EvSession t) evs -> In EvSessionClose evs) /\
                     (forall q, In (EvOpen q) evs -> In (EvClose q) evs)).
    { destruct Htry; split; intros x Hin; try (cbn; tauto);
        try (cbn in Hin; repeat (destruct Hin as [Hin|Hin]; try discriminate);
             contradiction).
      - apply in_or_app. right. apply in_or_app. right. cbn. tauto.
      - apply in_app_or in Hin as [Hin|Hin].
        + cbn in Hin. repeat (destruct Hin as [Hin|Hin]; try discriminate);
            try contradiction.
          injection Hin as <-. apply in_or_app. right. apply in_or_app. right.
          cbn. tauto.
        + apply in_app_or in Hin as [Hin|Hin];
            [apply in_map_iff in Hin as (ch & Hch & _); discriminate|].
          cbn in Hin. repeat (destruct Hin as [Hin|Hin]; try discriminate).
          contradiction. }
    destruct Hblock as [Hsession Hfile].
    split; intros x Hin; apply in_handler_run_inv in Hin as [Hin|Hin];
      try discriminate;
      (apply in_app_or in Hin as [Hin|Hin];
       [apply in_prepare_events in Hin; discriminate|]);
      (destruct Hin as [Hin|Hin]; [discriminate|]);
      apply in_handler_run; apply in_or_app; right; right; eauto.
Qed.

Lemma download_releases_session_and_file_witness :
  In (EvOpen "out/App_x64.msixbundle")
     (events (download_asset Examples.reset_world Examples.app (Some "out")
                Examples.empty_fs)) /\
  result (download_asset Examples.reset_world Examples.app (Some "out")
            Examples.empty_fs) = Ok None /\
  In (EvClose "out/App_x64.msixbundle")
     (events (download_asset Examples.reset_world Examples.app (Some "out")
                Examples.empty_fs)).
Proof.
  assert (Hopen : In (EvOpen "out/App_x64.msixbundle")
                     (events (download_asset Examples.reset_world Examples.app
                                (Some "out") Examples.empty_fs))).
  { vm_compute. auto 10. }
  split; [exact Hopen|]. split; [vm_compute; reflexivity|].
  exact (proj2 (download_releases_session_and_file Examples.reset_world Examples.app
                  (Some "out") Examples.empty_fs) _ Hopen).
Defined.

(** X8. Missing keys. An asset without "url" makes [download_asset]
    enter its handler with [KeyError] after the directory was prepared
    and a session entered and closed, without any request and without
    touching a file, and the call returns [None] when the console
    accepts the line of the path and the error line; an asset without
    "name" makes it raise [KeyError] right after the directory was
    prepared, before anything is printed. *)
Theorem download_asset_missing_keys
    (E : env) (a : asset) (dir : option string) (s : fs) :
  dir_ready E s (effective_dir E dir) = true ->
  (forall name,
      a !! "name" = Some name -> a !! "url" = None ->
      accepted E (downloading_text (PosixPath.join (effective_dir E dir) name)) ->
      gets (events (download_asset E a dir s)) = [] /\
      files (final (download_asset E a dir s)) = files s /\
      (accepted E (download_error_text (KeyError "url")) ->
       result (download_asset E a dir s) = Ok None /\
       In (download_error (KeyError "url")) (events (download_asset E a dir s)))) /\
  (a !! "name" = None ->
   result (download_asset E a dir s) = Raised (KeyError "name") /\
   events (download_asset E a dir s) = prepare_events s (effective_dir E dir) /\
   final (download_asset E a dir s) = prepared E s (effective_dir E dir)).
Proof.
  intros Hready. split.
  - intros name Hname Hurl Hacc.
    rewrite (download_no_url_run E a dir s name Hname Hready Hacc Hurl).
    rewrite gets_handler_run, final_handler_run, files_prepared, gets_app,
      gets_prepare_events.
    split; [reflexivity|]. split; [reflexivity|].
    intros Herr. rewrite (handler_run_accepted E _ _ _ Herr). cbn [result events].
    split; [reflexivity|]. apply in_or_app. right. cbn. auto.
  - intros Hname. rewrite (download_no_name_run E a dir s Hready Hname).
    repeat split.
Qed.

Lemma download_asset_missing_keys_witness :
  dir_ready Examples.ok_world Examples.empty_fs
    (effective_dir Examples.ok_world (Some "out")) = true /\
  delete "url" Examples.app !! "url" = None /\
  result (download_asset Examples.ok_world (delete "url" Examples.app) (Some "out")
            Examples.empty_fs) = Ok None /\
  delete "name" Examples.app !! "name" = None /\
  result (download_asset Examples.ok_world (delete "name" Examples.app) (Some "out")
            Examples.empty_fs) = Raised (KeyError "name").
Proof.
  assert (Hn : delete "url" Examples.app !! "name" = Some "App_x64.msixbundle")
    by (vm_compute; reflexivity).
  assert (Hu : delete "url" Examples.app !! "url" = None) by (vm_compute; reflexivity).
  assert (Hm : delete "name" Examples.app !! "name" = None) by (vm_compute; reflexivity).
  split; [reflexivity|]. split; [exact Hu|].
  split.
  - destruct (proj1 (download_asset_missing_keys Examples.ok_world
                       (delete "url" Examples.app) (Some "out") Examples.empty_fs
                       eq_refl) "App_x64.msixbundle" Hn Hu)
      as (_ & _ & Hres); [vm_compute; reflexivity|].
    apply Hres. vm_compute. reflexivity.
  - split; [exact Hm|].
    exact (proj1 (proj2 (download_asset_missing_keys Examples.ok_world
                           (delete "name" Examples.app) (Some "out") Examples.empty_fs
                           eq_refl) Hm)).
Defined.

Lemma split_buffer_nil (fuel n : nat) : split_buffer fuel n [] = [].
Proof. destruct fuel; reflexivity. Qed.

Lemma iter_chunked_empty (n : nat) (c : body_stream) :
  concat (arrivals c) = [] -> fst (iter_chunked n c) = [].
Proof.
  destruct n as [|n]; [reflexivity|]. intros Hnil.
  rewrite iter_chunked_pos by discriminate. cbn [fst].
  induction (arrivals c) as [|d ds IH]; [reflexivity|].
  cbn [concat] in Hnil. apply app_eq_nil in Hnil as [-> Hds].
  cbn [flat_map length split_buffer app]. exact (IH Hds).
Qed.

(** X9. An empty body. When the server answers 200 and the body ends
    without a byte (and the line of the destination path is printed),
    the download still succeeds: the destination file is created (or
    emptied), nothing is written to it, and its path is returned. *)
Theorem empty_body_creates_empty_file
    (E : env) (a : asset) (dir : option string) (s : fs)
    (name url : string) (c : body_stream) :
  a !! "name" = Some name ->
  a !! "url" = Some url ->
  dir_ready E s (effective_dir E dir) = true ->
  accepted E (downloading_text (PosixPath.join (effective_dir E dir) name)) ->
  server E url = GetResponse 200 c ->
  can_open E (prepared E s (effective_dir E dir))
    (PosixPath.join (effective_dir E dir) name) = true ->
  concat (arrivals c) = [] ->
  ending c = None ->
  result (download_asset E a dir s)
    = Ok (Some (PosixPath.join (effective_dir E dir) name)) /\
  files (final (download_asset E a dir s))
    !! PosixPath.join (effective_dir E dir) name = Some [] /\
  (forall q chunk, ~ In (EvWrite q chunk) (events (download_asset E a dir s))).
Proof.
  intros Hname Hurl Hready Hacc Hsrv Hopen Hnil Hend.
  rewrite (download_stream_run E a dir s name Hname Hready Hacc url c Hurl Hsrv Hopen).
  cbv zeta. rewrite Hend, Hnil, (iter_chunked_empty chunk_size c Hnil).
  cbn [result final files events map app].
  split; [reflexivity|]. split; [apply lookup_insert_eq|].
  intros q ch Hin. apply in_app_or in Hin as [Hin|Hin].
  - apply in_prepare_events in Hin. discriminate.
  - cbn in Hin. intuition discriminate.
Qed.

Lemma empty_body_creates_empty_file_witness :
  server (Examples.world (GetResponse 200 (BodyStream [[]; []] None)) Examples.three None)
    "https://dl.example/App_x64.msixbundle"
    = GetResponse 200 (BodyStream [[]; []] None) /\
  files Examples.fs_with_old_file !! "out/App_x64.msixbundle" = Some (Examples.b "OLD") /\
  result (download_asset
            (Examples.world (GetResponse 200 (BodyStream [[]; []] None))
               Examples.three None)
            Examples.app (Some "out") Examples.fs_with_old_file)
    = Ok (Some (PosixPath.join
                  (effective_dir
                     (Examples.world (GetResponse 200 (BodyStream [[]; []] None))
                        Examples.three None) (Some "out")) "App_x64.msixbundle")) /\
  files (final (download_asset
                  (Examples.world (GetResponse 200 (BodyStream [[]; []] None))
                     Examples.three None)
                  Examples.app (Some "out") Examples.fs_with_old_file))
    !! PosixPath.join
         (effective_dir
            (Examples.world (GetResponse 200 (BodyStream [[]; []] None))
               Examples.three None) (Some "out")) "App_x64.msixbundle" = Some [].
Proof.
  split; [reflexivity|]. split; [vm_compute; reflexivity|].
  destruct (empty_body_creates_empty_file
              (Examples.world (GetResponse 200 (BodyStream [[]; []] None))
                 Examples.three None)
              Examples.app (Some "out") Examples.fs_with_old_file
              "App_x64.msixbundle" "https://dl.example/App_x64.msixbundle"
              (BodyStream [[]; []] None))
    as (Hres & Hfile & _); try (vm_compute; reflexivity).
  split; [exact Hres | exact Hfile].
Defined.

(** ** More on [main] *)

(** X10. The only exception that can leave [main], in either mode, is a
    [MarkupError] raised by [console.print] for the line of the URL,
    before the [try] block, or for the error line of its handler;
    whatever else the resolver, the table, the prompt and the download
    do, [main] returns [True] or [False]. The process exits with status
    0 when [main] returns [True] and with status 1 otherwise. *)
Theorem main_returns_or_markup_error
    (E : env) (arg_url : option string) (auto_download : bool)
    (dir : option string) (s : fs) :
  (exists b : bool,
      result (main E (default default_url arg_url) auto_download dir s) = Ok b /\
      run_script E arg_url auto_download dir s = (if b then 0 else 1)) \/
  (exists m,
      result (main E (default default_url arg_url) auto_download dir s)
        = Raised (MarkupError m) /\
      (markup_error E (processing_text (default default_url arg_url)) = Some m \/
       exists e, markup_error E (main_error_text e) = Some m) /\
      run_script E arg_url auto_download dir s = 1).
Proof.
  unfold run_script.
  destruct (main_result_cases E (default default_url arg_url) auto_download dir s)
    as [[b Hb] | (m & Hm & Hfrom)].
  - left. exists b. rewrite Hb. auto.
  - right. exists m. rewrite Hm. auto.
Qed.

(** X11. When the resolver raises, in either mode, and the console
    accepts the line of the URL and the error line, [main] prints the
    error with the text of the exception and returns [False]; it shows
    no table, asks nothing, downloads nothing and leaves the file system
    as it is. *)
Theorem resolver_failure_is_reported
    (E : env) (url : string) (auto_download : bool) (dir : option string) (s : fs)
    (e : exn) :
  accepted E (processing_text url) ->
  fetch_assets E url = inl e ->
  accepted E (main_error_text e) ->
  main E url auto_download dir s =
    Run (Ok false) s
        (opening url auto_download ++
         [getting_info; EvFetch url;
          EvPrint ("[red]Error: " +:+ str_exn e +:+ "[/red]")]).
Proof.
  intros Hline Hfetch Herr. unfold accepted, processing_text, main_error_text in *.
  unfold main.
  destruct auto_download; main_walk; rewrite Hline, Hfetch, Herr; reflexivity.
Qed.

Lemma resolver_failure_is_reported_witness :
  accepted (Examples.world Examples.not_found
              (inl (StoreError "Product not found")) None)
    (processing_text Examples.product) /\
  fetch_assets (Examples.world Examples.not_found
                  (inl (StoreError "Product not found")) None) Examples.product
    = inl (StoreError "Product not found") /\
  accepted (Examples.world Examples.not_found
              (inl (StoreError "Product not found")) None)
    (main_error_text (StoreError "Product not found")) /\
  main (Examples.world Examples.not_found (inl (StoreError "Product not found")) None)
       Examples.product false None Examples.empty_fs =
    Run (Ok false) Examples.empty_fs
        (opening Examples.product false ++
         [getting_info; EvFetch Examples.product;
          EvPrint ("[red]Error: " +:+ str_exn (StoreError "Product not found")
                   +:+ "[/red]")]).
Proof.
  split; [vm_compute; reflexivity|]. split; [reflexivity|].
  split; [vm_compute; reflexivity|].
  apply (resolver_failure_is_reported
           (Examples.world Examples.not_found (inl (StoreError "Product not found")) None)
           Examples.product false None Examples.empty_fs
           (StoreError "Product not found"));
    vm_compute; reflexivity.
Defined.

(** X12. One incomplete asset anywhere in the list stops [main] before
    any choice or download, in either mode: the [KeyError] of the table
    is caught by the handler of [main], which reports it and returns
    [False] (the console accepting the line of the URL and the error
    line); nothing is asked, requested or written, even when the first
    asset is complete. *)
Theorem incomplete_asset_stops_main
    (E : env) (url : string) (auto_download : bool) (dir : option string) (s : fs)
    (assets : list asset) (is_uwp : bool) :
  accepted E (processing_text url) ->
  fetch_assets E url = inr (assets, is_uwp) ->
  ~ Forall (displayable is_uwp) assets ->
  exists k,
    first_missing is_uwp assets = Some k /\
    In k ["name"; "arch"; "extension"; "modified"] /\
    (accepted E (main_error_text (KeyError k)) ->
     main E url auto_download dir s =
       Run (Ok false) s
           (opening url auto_download ++
            [getting_info; EvFetch url;
             EvPrint ("[red]Error: " +:+ str_exn (KeyError k) +:+ "[/red]")])).
Proof.
  intros Hline Hfetch Hnot.
  destruct (first_missing is_uwp assets) as [k|] eqn:Hk.
  2: { destruct Hnot. apply first_missing_displayable. exact Hk. }
  exists k. split; [reflexivity|].
  split; [exact (first_missing_key is_uwp assets k Hk)|]. intros Herr.
  unfold accepted, processing_text, main_error_text in *.
  unfold main.
  destruct auto_download; main_walk; rewrite Hline, Hfetch;
    rewrite display_assets_table_run, Hk, Herr; reflexivity.
Qed.

Lemma incomplete_asset_stops_main_witness :
  accepted (Examples.world (GetResponse 200 Examples.installer)
              (inr ([Examples.app; delete "arch" Examples.app_arm], true)) None)
    (processing_text Examples.product) /\
  fetch_assets (Examples.world (GetResponse 200 Examples.installer)
                  (inr ([Examples.app; delete "arch" Examples.app_arm], true)) None)
    Examples.product
    = inr ([Examples.app; delete "arch" Examples.app_arm], true) /\
  ~ Forall (displayable true) [Examples.app; delete "arch" Examples.app_arm] /\
  first_missing true [Examples.app; delete "arch" Examples.app_arm] = Some "arch" /\
  main (Examples.world (GetResponse 200 Examples.installer)
          (inr ([Examples.app; delete "arch" Examples.app_arm], true)) None)
       Examples.product true None Examples.empty_fs =
    Run (Ok false) Examples.empty_fs
        (opening Examples.product true ++
         [getting_info; EvFetch Examples.product;
          EvPrint ("[red]Error: " +:+ str_exn (KeyError "arch") +:+ "[/red]")]).
Proof.
  assert (Hline : accepted (Examples.world (GetResponse 200 Examples.installer)
                              (inr ([Examples.app; delete "arch" Examples.app_arm], true))
                              None)
                    (processing_text Examples.product)) by (vm_compute; reflexivity).
  assert (Hnot : ~ Forall (displayable true)
                     [Examples.app; delete "arch" Examples.app_arm]).
  { intros Hall. apply first_missing_displayable in Hall.
    vm_compute in Hall. discriminate. }
  assert (Hfirst : first_missing true [Examples.app; delete "arch" Examples.app_arm]
                   = Some "arch") by (vm_compute; reflexivity).
  split; [exact Hline|]. split; [reflexivity|]. split; [exact Hnot|].
  split; [exact Hfirst|].
  destruct (incomplete_asset_stops_main
              (Examples.world (GetResponse 200 Examples.installer)
                 (inr ([Examples.app; delete "arch" Examples.app_arm], true)) None)
              Examples.product true None Examples.empty_fs
              [Examples.app; delete "arch" Examples.app_arm] true
              Hline eq_refl Hnot) as (k & Hk & _ & Hrun).
  assert (k = "arch") as -> by congruence.
  apply Hrun. vm_compute. reflexivity.
Defined.

(** Interactive mode with a number in range: the run of [main] in terms
    of the run of [download_asset] on the asset chosen. *)
Lemma main_interactive_select_run (E : env) (url : string) (dir : option string)
    (s : fs) (assets : list asset) (is_uwp : bool) (choice : string) (n : Z)
    (a : asset) (name : string) :
  accepted E (processing_text url) ->
  fetch_assets E url = inr (assets, is_uwp) ->
  Forall (displayable is_uwp) assets ->
  table_accepted E is_uwp assets ->
  answer E = Some choice ->
  PyStr.lower choice <> "q" ->
  int_of E choice = Some n ->
  1 <= n <= Z.of_nat (length assets) ->
  assets !! Z.to_nat (n - 1) = Some a ->
  a !! "name" = Some name ->
  accepted E (selected_text name) ->
  main E url false dir s =
    report_run E (interactive_preamble url assets is_uwp ++ [selected name])
      (download_asset E a dir s).
Proof.
  intros Hline Hfetch Hshow Hcells Hans Hq Hint Hrange Hlook Hname Hsel.
  unfold accepted, processing_text, selected_text in *.
  apply String.eqb_neq in Hq.
  assert (Hguard : ((0 <=? n - 1) && (n - 1 <? Z.of_nat (length assets)))%Z = true).
  { apply andb_true_iff. split; lia. }
  pose proof (download_asset_raised E a dir s) as Hraised.
  pose proof (download_path_nonempty E a dir s) as Hpath.
  unfold main. main_walk. rewrite Hline, Hfetch.
  rewrite (display_assets_table_ok E assets is_uwp s Hshow Hcells).
  rewrite Hans, Hq, Hint, Hguard, Hlook, Hname, Hsel.
  rewrite download_and_report_run.
  destruct (download_asset E a dir s) as [[[p|]|e] s' ev]; cbn [result] in *;
    cbn [report_run].
  - rewrite (Hpath p eq_refl).
    destruct (markup_error E (downloaded_to_text p)) as [m|].
    + unfold main_handler_run, main_error, main_error_text.
      destruct (markup_error E ("[red]Error: " +:+ str_exn (MarkupError m) +:+ "[/red]"));
        cbn [app]; rewrite ?app_nil_r; reflexivity.
    + cbn [app]. reflexivity.
  - cbn [app]. reflexivity.
  - destruct (Hraised e eq_refl) as [Hv Heof].
    unfold is_ValueError in Hv. unfold is_EOFError in Heof. rewrite Hv, Heof.
    unfold main_handler_run, main_error, main_error_text.
    destruct (markup_error E ("[red]Error: " +:+ str_exn e +:+ "[/red]"));
      cbn [app]; rewrite ?app_nil_r; reflexivity.
Qed.

Lemma gets_interactive_preamble (url : string) (assets : list asset) (is_uwp : bool)
    (name : string) :
  gets (interactive_preamble url assets is_uwp ++ [selected name]) = [].
Proof. reflexivity. Qed.

(** What the selection of an asset in interactive mode amounts to. *)
Lemma main_interactive_select_effect (E : env) (url : string) (dir : option string)
    (s : fs) (assets : list asset) (is_uwp : bool) (choice : string) (n : Z)
    (a : asset) (name : string) :
  accepted E (processing_text url) ->
  fetch_assets E url = inr (assets, is_uwp) ->
  Forall (displayable is_uwp) assets ->
  table_accepted E is_uwp assets ->
  answer E = Some choice ->
  PyStr.lower choice <> "q" ->
  int_of E choice = Some n ->
  1 <= n <= Z.of_nat (length assets) ->
  assets !! Z.to_nat (n - 1) = Some a ->
  a !! "name" = Some name ->
  accepted E (selected_text name) ->
  final (main E url false dir s) = final (download_asset E a dir s) /\
  gets (events (main E url false dir s)) = gets (events (download_asset E a dir s)) /\
  (result (main E url false dir s) = Ok true <->
   exists p, result (download_asset E a dir s) = Ok (Some p) /\
             accepted E (downloaded_to_text p)) /\
  (result (download_asset E a dir s) = Ok None ->
   result (main E url false dir s) = Ok false).
Proof.
  intros Hline Hfetch Hshow Hcells Hans Hq Hint Hrange Hlook Hname Hsel.
  rewrite (main_interactive_select_run E url dir s assets is_uwp choice n a name
             Hline Hfetch Hshow Hcells Hans Hq Hint Hrange Hlook Hname Hsel).
  split; [apply final_report_run|].
  split; [rewrite gets_report_run, gets_interactive_preamble; reflexivity|].
  split.
  - rewrite report_run_true. split.
    + intros (p & Hp & _ & Hacc). eauto.
    + intros (p & Hp & Hacc). exists p. split; [exact Hp|].
      split; [exact (download_path_nonempty E a dir s p Hp) | exact Hacc].
  - intros Hnone.
    destruct (download_asset E a dir s) as [[[p|]|e] s' ev]; cbn [result] in Hnone;
      try discriminate. reflexivity.
Qed.

(** X13. In interactive mode, once the assets are listed, an answer other
    than [q] that [int] reads as a number [n] between 1 and
    [len(assets)] selects [assets[n-1]]; when the console accepts the
    line that names it, [main] calls [download_asset] on that asset and
    on nothing else: it leaves the file system that call leaves, sends
    the requests of that call only, returns [True] exactly when the call
    returns a path and the line of that path is printed, and returns
    [False] when the call returns [None]. *)
Theorem interactive_choice_downloads_that_asset
    (E : env) (url : string) (dir : option string) (s : fs)
    (assets : list asset) (is_uwp : bool) (choice : string) (n : Z) :
  accepted E (processing_text url) ->
  fetch_assets E url = inr (assets, is_uwp) ->
  Forall (displayable is_uwp) assets ->
  table_accepted E is_uwp assets ->
  answer E = Some choice ->
  choice <> "q" -> choice <> "Q" ->
  int_of E choice = Some n ->
  1 <= n <= Z.of_nat (length assets) ->
  exists (a : asset) (name : string),
    assets !! Z.to_nat (n - 1) = Some a /\
    a !! "name" = Some name /\
    (accepted E (selected_text name) ->
     final (main E url false dir s) = final (download_asset E a dir s) /\
     gets (events (main E url false dir s))
       = gets (events (download_asset E a dir s)) /\
     (result (main E url false dir s) = Ok true <->
      exists p, result (download_asset E a dir s) = Ok (Some p) /\
                accepted E (downloaded_to_text p)) /\
     (result (download_asset E a dir s) = Ok None ->
      result (main E url false dir s) = Ok false)).
Proof.
  intros Hline Hfetch Hshow Hcells Hans Hq HQ Hint Hrange.
  destruct (lookup_lt_is_Some_2 assets (Z.to_nat (n - 1))) as [a Hlook]; [lia|].
  assert (Ha : displayable is_uwp a).
  { rewrite Forall_forall in Hshow. apply Hshow. eapply list_elem_of_lookup_2, Hlook. }
  destruct Ha as ([name Hname] & _).
  exists a, name. split; [exact Hlook|]. split; [exact Hname|]. intros Hsel.
  apply (main_interactive_select_effect E url dir s assets is_uwp choice n a name);
    try assumption.
  intros Hl. apply lower_is_q in Hl as [?|?]; contradiction.
Qed.

Lemma interactive_choice_downloads_that_asset_witness :
  fetch_assets (Examples.world (GetResponse 200 Examples.installer) Examples.three
                  (Some "2")) Examples.product = Examples.three /\
  answer (Examples.world (GetResponse 200 Examples.installer) Examples.three (Some "2"))
    = Some "2" /\
  int_of (Examples.world (GetResponse 200 Examples.installer) Examples.three (Some "2"))
    "2" = Some 2 /\
  [Examples.app; Examples.app_arm; Examples.app_neutral] !! Z.to_nat (2 - 1)
    = Some Examples.app_arm /\
  final (main (Examples.world (GetResponse 200 Examples.installer) Examples.three
                 (Some "2")) Examples.product false (Some "out") Examples.empty_fs)
    = final (download_asset
               (Examples.world (GetResponse 200 Examples.installer) Examples.three
                  (Some "2")) Examples.app_arm (Some "out") Examples.empty_fs).
Proof.
  assert (Hshow : Forall (displayable true)
                    [Examples.app; Examples.app_arm; Examples.app_neutral]).
  { repeat constructor; try (eexists; vm_compute; reflexivity). }
  split; [reflexivity|]. split; [reflexivity|]. split; [reflexivity|].
  split; [reflexivity|].
  destruct (interactive_choice_downloads_that_asset
              (Examples.world (GetResponse 200 Examples.installer) Examples.three
                 (Some "2"))
              Examples.product (Some "out") Examples.empty_fs
              [Examples.app; Examples.app_arm; Examples.app_neutral] true "2" 2
              ltac:(vm_compute; reflexivity) eq_refl Hshow
              ltac:(vm_compute; reflexivity) eq_refl
              ltac:(discriminate) ltac:(discriminate) eq_refl)
    as (a & name & Hlook & Hname & Heffect).
  - vm_compute. split; discriminate.
  - change ([Examples.app; Examples.app_arm; Examples.app_neutral] !! Z.to_nat (2 - 1))
      with (Some Examples.app_arm) in Hlook.
    injection Hlook as <-.
    assert (name = "App_arm64.msixbundle") as ->
      by (vm_compute in Hname; congruence).
    apply (proj1 (Heffect ltac:(vm_compute; reflexivity))).
Defined.

(** ** The number shown and the number typed *)

Lemma rev_str_rev_str (s a b : string) :
  PyStr.rev_str b (PyStr.rev_str a s) = PyStr.rev_str (s +:+ b) a.
Proof.
  revert a b. induction s as [|c s IH]; intros a b; [reflexivity|].
  cbn [PyStr.rev_str]. rewrite IH. rewrite append_cons. reflexivity.
Qed.

Lemma all_digits_rev_str (acc s : string) :
  all_digits (PyStr.rev_str acc s) = all_digits acc && all_digits s.
Proof.
  revert acc. induction s as [|c s IH]; intros acc; cbn [PyStr.rev_str all_digits].
  - rewrite andb_true_r. reflexivity.
  - rewrite IH. cbn [all_digits].
    destruct (PyStr.digit_val c); [reflexivity|].
    rewrite andb_false_r. reflexivity.
Qed.

Lemma all_digits_app (x y : string) :
  all_digits (x +:+ y) = all_digits x && all_digits y.
Proof.
  induction x as [|c x IH]; [reflexivity|].
  rewrite append_cons. cbn [all_digits].
  destruct (PyStr.digit_val c); [exact IH | reflexivity].
Qed.

Lemma digit_not_ws (c : ascii) (d : Z) :
  PyStr.digit_val c = Some d -> PyStr.is_ws c = false.
Proof.
  destruct c as [[] [] [] [] [] [] [] []]; vm_compute; intros H;
    first [reflexivity | discriminate].
Qed.

Lemma lstrip_digits (s : string) : all_digits s = true -> PyStr.lstrip s = s.
Proof.
  destruct s as [|c r]; [reflexivity|]. cbn [all_digits PyStr.lstrip].
  destruct (PyStr.digit_val c) as [d|] eqn:Hd; [|discriminate].
  rewrite (digit_not_ws c d Hd). reflexivity.
Qed.

Lemma strip_digits (s : string) : all_digits s = true -> PyStr.strip s = s.
Proof.
  intros Hs. unfold PyStr.strip. rewrite (lstrip_digits s Hs).
  rewrite lstrip_digits by (rewrite all_digits_rev_str; exact Hs).
  rewrite rev_str_rev_str. cbn [PyStr.rev_str]. apply append_nil_r.
Qed.

Lemma digits_tail_snoc (a : string) (acc v : Z) (c : ascii) (d : Z) :
  all_digits a = true ->
  PyStr.digits_tail acc a = Some v ->
  PyStr.digit_val c = Some d ->
  PyStr.digits_tail acc (a +:+ String c "") = Some (10 * v + d).
Proof.
  revert acc. induction a as [|c0 a IH]; intros acc Hall Hv Hd.
  - injection Hv as ->. rewrite append_nil_l. cbn [PyStr.digits_tail].
    rewrite Hd. reflexivity.
  - rewrite append_cons. cbn [all_digits PyStr.digits_tail] in *.
    destruct (PyStr.digit_val c0) as [d0|]; [|discriminate].
    apply IH; assumption.
Qed.

(** [int] on a non-empty string of digits reads it from the left. *)
Lemma int_digits (s : string) :
  all_digits s = true -> s <> "" -> PyStr.int s = PyStr.digits_tail 0 s.
Proof.
  intros Hs Hne. unfold PyStr.int. rewrite (strip_digits s Hs).
  destruct s as [|c r]; [contradiction|].
  cbn [all_digits] in Hs.
  destruct (PyStr.digit_val c) as [d|] eqn:Hd; [|discriminate].
  assert (Hmatch : match String c r with
                   | String "-"%char r0 => option_map Z.opp (PyStr.digits r0)
                   | String "+"%char r0 => PyStr.digits r0
                   | t => PyStr.digits t
                   end = PyStr.digits (String c r)).
  { clear Hs Hne. revert Hd.
    destruct c as [[] [] [] [] [] [] [] []]; vm_compute PyStr.digit_val; intros Hd;
      first [reflexivity | discriminate]. }
  rewrite Hmatch. cbn [PyStr.digits PyStr.digits_tail]. rewrite Hd. reflexivity.
Qed.

Lemma pretty_N_go_app (x : N) (s : string) :
  pretty_N_go x s = pretty_N_go x "" +:+ s.
Proof.
  revert s. induction (N.lt_wf_0 x) as [x _ IH]. intros s.
  destruct (N.eq_dec x 0%N) as [->|Hx].
  - rewrite !pretty_N_go_0. reflexivity.
  - assert (Hpos : (0 < x)%N) by lia.
    rewrite (pretty_N_go_step x s Hpos), (pretty_N_go_step x "" Hpos).
    assert (Hlt : (x `div` 10 < x)%N) by (apply N.div_lt; lia).
    rewrite (IH (x `div` 10)%N Hlt (String (pretty_N_char (x `mod` 10)) s)).
    rewrite (IH (x `div` 10)%N Hlt (String (pretty_N_char (x `mod` 10)) "")).
    rewrite append_assoc_str. reflexivity.
Qed.

Lemma digit_val_pretty_char (m : N) :
  (m < 10)%N -> PyStr.digit_val (pretty_N_char m) = Some (Z.of_N m).
Proof.
  intros Hm.
  assert (m = 0 \/ m = 1 \/ m = 2 \/ m = 3 \/ m = 4 \/ m = 5 \/ m = 6 \/ m = 7
          \/ m = 8 \/ m = 9)%N as H by lia.
  repeat (destruct H as [->|H]; [reflexivity|]). subst m. reflexivity.
Qed.

Lemma pretty_N_go_digits (x : N) :
  all_digits (pretty_N_go x "") = true /\
  PyStr.digits_tail 0 (pretty_N_go x "") = Some (Z.of_N x).
Proof.
  induction (N.lt_wf_0 x) as [x _ IH].
  destruct (N.eq_dec x 0%N) as [->|Hx].
  - rewrite pretty_N_go_0. split; reflexivity.
  - assert (Hpos : (0 < x)%N) by lia.
    rewrite (pretty_N_go_step x "" Hpos), pretty_N_go_app.
    destruct (IH (x `div` 10)%N) as [Hall Hval]; [apply N.div_lt; lia|].
    pose proof (digit_val_pretty_char (x `mod` 10)%N) as Hd.
    specialize (Hd ltac:(apply N.mod_lt; lia)).
    split.
    + rewrite all_digits_app, Hall. cbn [all_digits andb]. rewrite Hd. reflexivity.
    + rewrite (digits_tail_snoc _ 0 _ _ _ Hall Hval Hd). f_equal.
      pose proof (N.div_mod x 10 ltac:(lia)). lia.
Qed.

Lemma pretty_N_go_nonempty (x : N) : (0 < x)%N -> pretty_N_go x "" <> "".
Proof.
  intros Hpos. rewrite (pretty_N_go_step x "" Hpos), pretty_N_go_app.
  destruct (pretty_N_go (x `div` 10)%N ""); discriminate.
Qed.

Lemma all_digits_pretty_nat (n : nat) : all_digits (pretty n) = true.
Proof.
  unfold pretty, pretty_nat, pretty, pretty_N.
  destruct (decide (N.of_nat n = 0%N)) as [H0|Hn]; [reflexivity|].
  apply pretty_N_go_digits.
Qed.

(** [int(str(n)) == n] on ASCII text, for the numbers of the table. *)
Lemma int_pretty_nat (n : nat) : PyStr.int (pretty n) = Some (Z.of_nat n).
Proof.
  unfold pretty, pretty_nat, pretty, pretty_N.
  destruct (decide (N.of_nat n = 0%N)) as [H0|Hn].
  - assert (n = 0%nat) as -> by lia. reflexivity.
  - destruct (pretty_N_go_digits (N.of_nat n)) as [Hall Hval].
    rewrite int_digits; [| exact Hall | apply pretty_N_go_nonempty; lia].
    rewrite Hval. f_equal. lia.
Qed.

Lemma pretty_nat_not_q (n : nat) : PyStr.lower (pretty n) <> "q".
Proof.
  intros Hl. apply lower_is_q in Hl.
  pose proof (all_digits_pretty_nat n) as Hall.
  destruct Hl as [Hl|Hl]; rewrite Hl in Hall; discriminate.
Qed.

(** X14. The number shown is the number to type: for the asset in row
    [k] of the table (counting from 0) the table shows [str(k+1)], which
    is text that [int] reads back as [k+1]; answering with it selects
    that asset, and [main] then calls [download_asset] on it and on
    nothing else (the console accepting the lines printed on the way). *)
Theorem typing_shown_number_selects_row
    (E : env) (url : string) (dir : option string) (s : fs)
    (assets : list asset) (is_uwp : bool) (k : nat) (a : asset) (name : string) :
  accepted E (processing_text url) ->
  fetch_assets E url = inr (assets, is_uwp) ->
  Forall (displayable is_uwp) assets ->
  table_accepted E is_uwp assets ->
  assets !! k = Some a ->
  a !! "name" = Some name ->
  answer E = Some (pretty (S k)) ->
  int_of E (pretty (S k)) = Some (Z.of_nat (S k)) ->
  accepted E (selected_text name) ->
  (exists cells, rows_of is_uwp 1 assets !! k = Some (pretty (S k) :: cells)) /\
  PyStr.int (pretty (S k)) = Some (Z.of_nat (S k)) /\
  final (main E url false dir s) = final (download_asset E a dir s) /\
  gets (events (main E url false dir s)) = gets (events (download_asset E a dir s)) /\
  (result (main E url false dir s) = Ok true <->
   exists p, result (download_asset E a dir s) = Ok (Some p) /\
             accepted E (downloaded_to_text p)).
Proof.
  intros Hline Hfetch Hshow Hcells Hlook Hname Hans Hint Hsel.
  pose proof (lookup_lt_Some _ _ _ Hlook) as Hlt.
  assert (Hlook' : assets !! Z.to_nat (Z.of_nat (S k) - 1) = Some a).
  { replace (Z.to_nat (Z.of_nat (S k) - 1)) with k by lia. exact Hlook. }
  destruct (main_interactive_select_effect E url dir s assets is_uwp (pretty (S k))
              (Z.of_nat (S k)) a name Hline Hfetch Hshow Hcells Hans
              (pretty_nat_not_q (S k)) Hint ltac:(lia) Hlook' Hname Hsel)
    as (Hfinal & Hgets & Hres & _).
  split; [|split; [apply int_pretty_nat | auto]].
  rewrite (rows_of_lookup is_uwp assets 1 k a Hlook). unfold row_of.
  change (1 + k)%nat with (S k). eauto.
Qed.

Lemma typing_shown_number_selects_row_witness :
  fetch_assets (Examples.world (GetResponse 200 Examples.installer) Examples.three
                  (Some (pretty 3%nat))) Examples.product = Examples.three /\
  [Examples.app; Examples.app_arm; Examples.app_neutral] !! 2%nat
    = Some Examples.app_neutral /\
  int_of (Examples.world (GetResponse 200 Examples.installer) Examples.three
            (Some (pretty 3%nat))) (pretty 3%nat) = Some (Z.of_nat 3) /\
  final (main (Examples.world (GetResponse 200 Examples.installer) Examples.three
                 (Some (pretty 3%nat))) Examples.product false (Some "out")
           Examples.empty_fs)
    = final (download_asset
               (Examples.world (GetResponse 200 Examples.installer) Examples.three
                  (Some (pretty 3%nat))) Examples.app_neutral (Some "out")
               Examples.empty_fs).
Proof.
  assert (Hshow : Forall (displayable true)
                    [Examples.app; Examples.app_arm; Examples.app_neutral]).
  { repeat constructor; try (eexists; vm_compute; reflexivity). }
  split; [reflexivity|]. split; [reflexivity|]. split; [reflexivity|].
  destruct (typing_shown_number_selects_row
              (Examples.world (GetResponse 200 Examples.installer) Examples.three
                 (Some (pretty 3%nat)))
              Examples.product (Some "out") Examples.empty_fs
              [Examples.app; Examples.app_arm; Examples.app_neutral] true 2%nat
              Examples.app_neutral "App_neutral.appx"
              ltac:(vm_compute; reflexivity) eq_refl Hshow
              ltac:(vm_compute; reflexivity) eq_refl
              ltac:(vm_compute; reflexivity) eq_refl eq_refl
              ltac:(vm_compute; reflexivity))
    as (_ & _ & Hfinal & _).
  exact Hfinal.
Defined.

(** ** Events of a computation *)

Lemma emits_ret {A} (P : event -> Prop) (x : A) : emits P (ret x).
Proof. intros s. constructor. Qed.

Lemma emits_raise {A} (P : event -> Prop) (e : exn) : emits P (@raise A e).
Proof. intros s. constructor. Qed.

Lemma emits_event (P : event -> Prop) (ev : event) : P ev -> emits P (do_event ev).
Proof. intros H s. repeat constructor. exact H. Qed.

Lemma emits_bind {A B} (P : event -> Prop) (c : M A) (k : A -> M B) :
  emits P c -> (forall x, emits P (k x)) -> emits P (bind c k).
Proof.
  intros Hc Hk s. unfold bind. specialize (Hc s).
  destruct (c s) as [[x|e] s' ev]; cbn [events] in *; [|exact Hc].
  specialize (Hk x s'). destruct (k x s') as [r s'' ev']. cbn [events] in *.
  apply Forall_app. auto.
Qed.

Lemma emits_try {A} (P : event -> Prop) (matching : exn -> bool) (c : M A)
    (h : exn -> M A) :
  emits P c -> (forall e, emits P (h e)) -> emits P (try_except_if matching c h).
Proof.
  intros Hc Hh s. unfold try_except_if. specialize (Hc s).
  destruct (c s) as [[x|e] s' ev]; cbn [events] in *; [exact Hc|].
  destruct (matching e); [|exact Hc].
  specialize (Hh e s'). destruct (h e s') as [r s'' ev']. cbn [events] in *.
  apply Forall_app. auto.
Qed.

Lemma emits_console_print (P : event -> Prop) (E : env) (msg : string) :
  (forall m, P (EvPrint m)) -> emits P (console_print E msg).
Proof.
  intros H s. unfold console_print. destruct (markup_error E msg); repeat constructor.
  apply H.
Qed.

Lemma emits_getitem (P : event -> Prop) (d : asset) (k : string) : emits P (getitem d k).
Proof. intros s. unfold getitem. destruct (d !! k); constructor. Qed.

Lemma emits_display (P : event -> Prop) (E : env) (assets : list asset)
    (is_uwp : bool) :
  (forall c r, P (EvTable c r)) -> emits P (display_assets_table E assets is_uwp).
Proof.
  intros H s. rewrite display_assets_table_run.
  destruct (first_missing is_uwp assets); [constructor|].
  destruct (table_error E _ _); repeat constructor. apply H.
Qed.

Lemma emits_download_and_report (P : event -> Prop) (E : env) (a : asset)
    (dir : option string) :
  (forall m, P (EvPrint m)) ->
  (forall ev, footprint E a dir ev -> P ev) ->
  emits P (download_and_report E a dir).
Proof.
  intros Hprint Hfoot s. rewrite download_and_report_run.
  pose proof (download_asset_footprint E a dir s) as Hdl.
  apply (Forall_impl _ _ _ Hdl) in Hfoot.
  destruct (download_asset E a dir s) as [[[p|]|e] s' ev]; cbn [events] in *.
  - destruct (String.eqb p "").
    + cbn [events]. apply Forall_app. split; [exact Hfoot|]. repeat constructor.
      apply Hprint.
    + destruct (markup_error E (downloaded_to_text p)); cbn [events]; [exact Hfoot|].
      apply Forall_app. split; [exact Hfoot|]. repeat constructor. apply Hprint.
  - apply Forall_app. split; [exact Hfoot|]. repeat constructor. apply Hprint.
  - exact Hfoot.
Qed.

(** In auto mode [main] prints, shows the table, calls the resolver and
    downloads: it does nothing else. *)
Lemma main_auto_emits (P : event -> Prop) (E : env) (url : string)
    (dir : option string) :
  (forall m, P (EvPrint m)) ->
  (forall c r, P (EvTable c r)) ->
  (forall u, P (EvFetch u)) ->
  (forall a ev, footprint E a dir ev -> P ev) ->
  emits P (main E url true dir).
Proof.
  intros Hprint Htable Hfetch Hfoot. unfold main.
  apply emits_bind; [apply emits_console_print, Hprint | intros _].
  apply emits_bind; [apply emits_event, Hprint | intros _].
  apply emits_try.
  2: { intros e. apply emits_bind; [apply emits_console_print, Hprint | intros _].
       apply emits_ret. }
  apply emits_bind; [apply emits_event, Hprint | intros _].
  apply emits_bind.
  { unfold msstore_fetch_assets. apply emits_bind; [apply emits_event, Hfetch | intros _].
    destruct (fetch_assets E url); [apply emits_raise | apply emits_ret]. }
  intros [assets is_uwp].
  apply emits_bind; [apply emits_display, Htable | intros _].
  destruct assets as [|a0 rest].
  { apply emits_bind; [apply emits_event, Hprint | intros _]. apply emits_ret. }
  apply emits_bind; [apply emits_getitem | intros name].
  apply emits_bind; [apply emits_console_print, Hprint | intros _].
  apply emits_download_and_report; [exact Hprint | apply Hfoot].
Qed.

(** X15. Auto mode never asks: the run of [main] with [--auto] is the
    same whatever would be typed at the prompt (or at end of input), and
    it contains no prompt. *)
Theorem auto_mode_ignores_the_prompt
    (E : env) (url : string) (dir : option string) (s : fs) (typed : option string) :
  main (with_answer E typed) url true dir s = main E url true dir s /\
  forall q, ~ In (EvPrompt q) (events (main E url true dir s)).
Proof.
  split; [reflexivity|].
  intros q Hin.
  pose proof (main_auto_emits (fun ev => ev <> EvPrompt q) E url dir) as Hemits.
  assert (Hall : Forall (fun ev => ev <> EvPrompt q) (events (main E url true dir s))).
  { apply Hemits; try discriminate.
    intros a ev Hfoot ->. exact Hfoot. }
  rewrite Forall_forall in Hall. apply list_elem_of_In in Hin.
  exact (Hall _ Hin eq_refl).
Qed.

(** The shape of the events of a call whose directory is ready. *)
Lemma download_events_shape (E : env) (a : asset) (dir : option string) (s : fs) :
  dir_ready E s (effective_dir E dir) = true ->
  exists rest,
    events (download_asset E a dir s)
      = prepare_events s (effective_dir E dir) ++ rest /\
    (forall q, ~ In (EvMakedirs q) rest) /\
    dirs (final (download_asset E a dir s))
      = dirs (prepared E s (effective_dir E dir)).
Proof.
  intros Hready.
  destruct (download_asset_spec E a dir s)
    as [e0 Hno He0 | _ Hname | name m _ Hname Hrej
        | name url st c _ Hname Hacc Hurl Hsrv Hst
        | name url c _ Hname Hacc Hurl Hsrv Hopen Hend
        | name e s' evs _ Hname Hacc Htry];
    try congruence.
  - exists []. rewrite app_nil_r. split; [reflexivity|]. split; [|reflexivity].
    intros q [].
  - exists []. rewrite app_nil_r. split; [reflexivity|]. split; [|reflexivity].
    intros q [].
  - eexists. split; [reflexivity|]. split; [|reflexivity].
    intros q Hin. cbn in Hin. intuition discriminate.
  - cbv zeta. eexists. split; [reflexivity|]. split; [|reflexivity].
    intros q Hin.
    repeat (apply in_app_or in Hin as [Hin|Hin];
            [try (apply in_map_iff in Hin as (ch & Hch & _); discriminate)|]);
      cbn in Hin; intuition discriminate.
  - assert (Hblock : forall q, ~ In (EvMakedirs q) evs).
    { intros q Hin. destruct Htry;
        repeat (apply in_app_or in Hin as [Hin|Hin];
                [try (apply in_map_iff in Hin as (ch & Hch & _); discriminate)|]);
        cbn in Hin; intuition discriminate. }
    rewrite final_handler_run.
    destruct (try_raises_final _ _ _ _ _ _ _ Htry) as [Hdirs _].
    unfold handler_run. destruct (markup_error E (download_error_text e));
      cbn [events]; rewrite <- ?app_assoc;
      (eexists; split; [reflexivity|]; split; [|exact Hdirs]);
      intros q Hin; cbn [app] in Hin;
      (destruct Hin as [Hin|Hin]; [discriminate|]);
      try (apply in_app_or in Hin as [Hin|Hin]; [|cbn in Hin; intuition discriminate]);
      exact (Hblock q Hin).
Qed.

(** X16. The download directory is created only when nothing exists at
    its path, and then first of all: if something is there (a directory
    or a file), [os.makedirs] is not called and the directories are as
    they were; if nothing is there and it can be created, the first thing
    the call does is [os.makedirs(download_dir)], once, and the directory
    exists afterwards whatever the outcome of the download. *)
Theorem download_dir_created_only_when_missing
    (E : env) (a : asset) (dir : option string) (s : fs) :
  dir_ready E s (effective_dir E dir) = true ->
  (path_exists s (effective_dir E dir) = true ->
   dirs (final (download_asset E a dir s)) = dirs s /\
   forall q, ~ In (EvMakedirs q) (events (download_asset E a dir s))) /\
  (path_exists s (effective_dir E dir) = false ->
   effective_dir E dir ∈ dirs (final (download_asset E a dir s)) /\
   exists rest,
     events (download_asset E a dir s) = EvMakedirs (effective_dir E dir) :: rest /\
     forall q, ~ In (EvMakedirs q) rest).
Proof.
  intros Hready.
  destruct (download_events_shape E a dir s Hready) as (rest & Hev & Hrest & Hdirs).
  rewrite Hev, Hdirs. unfold prepare_events.
  split; intros Hex; rewrite Hex.
  - rewrite (dirs_prepared_exists E s _ Hex). split; [reflexivity | exact Hrest].
  - split; [apply dirs_prepared_made; assumption|].
    exists rest. split; [reflexivity | exact Hrest].
Qed.

Lemma download_dir_created_only_when_missing_witness :
  dir_ready Examples.not_found_world Examples.empty_fs
    (effective_dir Examples.not_found_world None) = true /\
  path_exists Examples.empty_fs (effective_dir Examples.not_found_world None) = false /\
  effective_dir Examples.not_found_world None
    ∈ dirs (final (download_asset Examples.not_found_world Examples.app None
                     Examples.empty_fs)).
Proof.
  split; [reflexivity|]. split; [reflexivity|].
  exact (proj1 (proj2 (download_dir_created_only_when_missing Examples.not_found_world
                         Examples.app None Examples.empty_fs eq_refl) eq_refl)).
Defined.

(** ** The console markup of the lines the script fixes *)

(** A text without an opening bracket holds no tag. *)
Lemma scan_no_bracket (s : string) :
  forall (stack : list string) (slashes position : nat),
    (forall c, In c (list_ascii_of_string s) -> c <> "["%char) ->
    Rich.scan stack slashes position 0 s = None.
Proof.
  induction s as [|c r IH]; intros stack slashes position Hno; [reflexivity|].
  assert (Hr : forall c', In c' (list_ascii_of_string r) -> c' <> "["%char).
  { intros c' Hin. apply Hno. right. exact Hin. }
  cbn [Rich.scan].
  destruct (Ascii.eqb c "\"%char); [apply IH, Hr|].
  destruct (Ascii.eqb_spec c "["%char) as [->|_]; [|apply IH, Hr].
  destruct (Hno "["%char); [left; reflexivity | reflexivity].
Qed.

Lemma check_no_bracket (s : string) :
  (forall c, In c (list_ascii_of_string s) -> c <> "["%char) ->
  Rich.check s = None.
Proof. apply scan_no_bracket. Qed.

(** The string literals the script prints, the title and the headers of
    the table and the question of the prompt are well-formed markup. *)
Lemma fixed_lines_accepted : Forall (fun line => Rich.check line = None) fixed_lines.
Proof. repeat constructor. Qed.

(** A sign or a digit is neither a bracket nor a backslash. *)
Lemma scan_sign_or_digit (stack : list string) (position : nat) (c : ascii)
    (r : string) :
  is_sign_or_digit c = true ->
  Rich.scan stack 0 position 0 (String c r) = Rich.scan stack 0 (S position) 0 r.
Proof.
  intros Hc. cbn [Rich.scan].
  destruct c as [[] [] [] [] [] [] [] []]; vm_compute in Hc;
    first [discriminate | reflexivity].
Qed.

Lemma scan_number (x : string) :
  forall (stack : list string) (position : nat) (rest : string),
    (forall c, In c (list_ascii_of_string x) -> is_sign_or_digit c = true) ->
    Rich.scan stack 0 position 0 (x +:+ rest)
      = Rich.scan stack 0 (position + String.length x) 0 rest.
Proof.
  induction x as [|c r IH]; intros stack position rest Hx.
  - rewrite append_nil_l. cbn [String.length]. rewrite Nat.add_0_r. reflexivity.
  - rewrite append_cons, scan_sign_or_digit by (apply Hx; left; reflexivity).
    rewrite IH by (intros c' Hin; apply Hx; right; exact Hin).
    cbn [String.length]. rewrite Nat.add_succ_r. reflexivity.
Qed.

Lemma all_digits_chars (x : string) :
  all_digits x = true ->
  forall c, In c (list_ascii_of_string x) -> is_sign_or_digit c = true.
Proof.
  induction x as [|c0 r IH]; intros Hall c Hin; [destruct Hin|].
  cbn [all_digits] in Hall. unfold is_sign_or_digit.
  destruct (PyStr.digit_val c0) as [d|] eqn:Hd; [|discriminate].
  destruct Hin as [<-|Hin]; [rewrite Hd; reflexivity|].
  exact (IH Hall c Hin).
Qed.

Lemma all_digits_pretty_N (x : N) : all_digits (pretty x) = true.
Proof.
  unfold pretty, pretty_N.
  destruct (decide (x = 0%N)) as [H0|Hn]; [reflexivity|].
  apply pretty_N_go_digits.
Qed.

Lemma pretty_Z_chars (st : Z) :
  forall c, In c (list_ascii_of_string (pretty st)) -> is_sign_or_digit c = true.
Proof.
  destruct st as [|p|p]; unfold pretty, pretty_Z.
  - intros c [<-|[]]. reflexivity.
  - apply all_digits_chars, all_digits_pretty_N.
  - rewrite append_cons, append_nil_l. intros c [<-|Hin]; [reflexivity|].
    revert c Hin. apply all_digits_chars, all_digits_pretty_N.
Qed.

(** The line that interpolates the status, an integer, is well-formed
    markup whatever the status. *)
Lemma status_line_accepted (st : Z) :
  Rich.check ("[red]Download failed with status " +:+ pretty st +:+ "[/red]") = None.
Proof.
  unfold Rich.check.
  change (Rich.scan [] 0 0 0
            ("[red]Download failed with status " +:+ pretty st +:+ "[/red]"))
    with (Rich.scan ["red"] 0 33 0 (pretty st +:+ "[/red]")).
  rewrite scan_number by apply pretty_Z_chars.
  reflexivity.
Qed.
